(** * Synthetic test-artifact generators: a shallow embedding

    The repository is a handful of independent Python scripts that write
    fake test artifacts (Go test logs, xUnit XML, JSON result bundles and
    OpenTelemetry-like trace files).  Each script is embedded below as a
    computation in a small state-and-exception monad over a [world] that
    holds what the scripts touch: the random generator, the wall clock, the
    file system and standard output.

    Conventions of the embedding
    - a Python [str] is a [string] whose characters are its code points, so
      the embedding speaks of texts with code points below 256 only; [int]
      is [Z]; a list is a [list];
    - a Python [float] is the rational it stands for ([Q]), or one of the
      non-finite values ([pyfloat]).  Where a script adds times of the epoch
      (generate_results_file.py) every operation rounds to binary64
      ([B64]); where a random duration is only shown with two or three
      decimals the arithmetic is exact;
    - [random] and [time.time] read oracle streams stored in the world, so a
      statement quantified over worlds covers every run;
    - an uncaught exception is the [Raise] outcome; [sys.exit n] raises
      [SystemExit n] as in Python. *)

From Stdlib Require Import ZArith QArith Qround Qabs Lqa Lia List Ascii String.
From Stdlib Require Import DecimalString DecimalN DecimalPos.
From stdpp Require Import gmap strings list fin_maps.

Close Scope Q_scope.

(** ** Python strings *)

Module PyStr.

Definition nl : string := String "010" "".
Definition tab : string := String "009" "".
(** The double quote character, as a one-character string. *)
Definition dq : string := String "034" "".

(** [sep.join(ls)] *)
Definition join (sep : string) (ls : list string) : string := String.concat sep ls.

(** [s.split(c)] for a one-character separator. *)
Fixpoint split_on (c : ascii) (s : string) : list string :=
  match s with
  | "" => [""]
  | String a s' =>
      if Ascii.eqb a c then "" :: split_on c s'
      else match split_on c s' with
           | h :: t => String a h :: t
           | [] => [String a ""]
           end
  end.

(** The lines of a text, as [s.split(newline)] gives them. *)
Definition split_nl (s : string) : list string := split_on "010" s.

Fixpoint str_forall (P : ascii -> bool) (s : string) : bool :=
  match s with
  | "" => true
  | String a s' => P a && str_forall P s'
  end.

(** [c not in s] *)
Definition avoids (c : ascii) (s : string) : bool :=
  str_forall (fun a => negb (Ascii.eqb a c)) s.
Definition no_nl (s : string) : bool := avoids "010" s.

Definition starts_with (p s : string) : bool := String.prefix p s.

Fixpoint ends_with (p s : string) : bool :=
  String.eqb p s ||
  match s with
  | "" => false
  | String _ s' => ends_with p s'
  end.

Fixpoint count_if {A : Type} (P : A -> bool) (l : list A) : nat :=
  match l with
  | [] => O
  | x :: l' => (if P x then 1 else 0) + count_if P l'
  end.

(** How many lines of a text satisfy [P]. *)
Definition count_lines (P : string -> bool) (content : string) : nat :=
  count_if P (split_nl content).

Fixpoint replicate_str (n : nat) (c : ascii) : string :=
  match n with
  | O => ""
  | S n' => String c (replicate_str n' c)
  end.

Definition is_digit (c : ascii) : bool :=
  (48 <=? nat_of_ascii c)%nat && (nat_of_ascii c <=? 57)%nat.
Definition is_lower (c : ascii) : bool :=
  (97 <=? nat_of_ascii c)%nat && (nat_of_ascii c <=? 122)%nat.
Definition is_upper (c : ascii) : bool :=
  (65 <=? nat_of_ascii c)%nat && (nat_of_ascii c <=? 90)%nat.
Definition to_upper (c : ascii) : ascii :=
  if is_lower c then ascii_of_nat (nat_of_ascii c - 32) else c.
Definition to_lower (c : ascii) : ascii :=
  if is_upper c then ascii_of_nat (nat_of_ascii c + 32) else c.

(** [s.title()] on ASCII text: a letter that follows a non-letter is put in
    upper case, a letter that follows a letter in lower case. *)
Fixpoint title_from (prev_cased : bool) (s : string) : string :=
  match s with
  | "" => ""
  | String c s' =>
      let c' := if is_lower c then (if prev_cased then c else to_upper c)
                else if is_upper c then (if prev_cased then to_lower c else c)
                else c in
      String c' (title_from (is_lower c || is_upper c) s')
  end.
Definition title (s : string) : string := title_from false s.

(** [str(n)] for a natural number, in decimal. *)
Definition str_N (n : N) : string := NilZero.string_of_uint (N.to_uint n).

(** [str(z)] *)
Definition str_int (z : Z) : string :=
  if (z <? 0)%Z then "-" +:+ str_N (Z.abs_N z) else str_N (Z.abs_N z).

Definition zfill (width : nat) (s : string) : string :=
  replicate_str (width - String.length s) "0" +:+ s.

(** [format(z, "0{width}d")]: zero padding goes after the sign, and the sign
    counts in the width. *)
Definition fmt_0d (width : nat) (z : Z) : string :=
  if (z <? 0)%Z then "-" +:+ zfill (width - 1) (str_N (Z.abs_N z))
  else zfill width (str_N (Z.abs_N z)).

Definition digit_val (c : ascii) : Z := Z.of_nat (nat_of_ascii c - 48).

(** The number a nonempty run of decimal digits denotes. *)
Definition digits_value (s : string) : option Z :=
  match NilZero.uint_of_string s with
  | Some d => Some (Z.of_N (N.of_uint d))
  | None => None
  end.


(** Nearest integer, ties to the even one. *)
Definition round_half_even (q : Q) : Z :=
  let f := Qfloor q in
  match Qcompare (q - inject_Z f) (1 # 2) with
  | Lt => f
  | Gt => (f + 1)%Z
  | Eq => if Z.even f then f else (f + 1)%Z
  end.

(** The number of units of [10^-prec] that [format(q, ".{prec}f")] shows. *)
Definition round_to (prec : nat) (q : Q) : Z :=
  round_half_even (Qabs q * inject_Z (10 ^ Z.of_nat prec)).

(** [format(q, ".{prec}f")] *)
Definition fmt_f (prec : nat) (q : Q) : string :=
  let scale := (10 ^ Z.of_nat prec)%Z in
  let m := round_to prec q in
  (if Qlt_le_dec q 0 then "-" else "") +:+
  str_N (Z.to_N (m / scale)) +:+
  match prec with
  | O => ""
  | S _ => "." +:+ zfill prec (str_N (Z.to_N (m mod scale)))
  end.

End PyStr.
Import PyStr.

(** ** Python floats *)

(** A float is a rational or one of the three non-finite values. *)
Inductive pyfloat : Type :=
  | Fin (q : Q)
  | PosInf
  | NegInf
  | NaN.

(** The least magnitude that binary64 rounds to infinity. *)
Definition float_overflow : Q := inject_Z (2 ^ 1024 - 2 ^ 970).

Definition clamp (q : Q) : pyfloat :=
  if Qle_bool float_overflow (Qabs q) then (if Qlt_le_dec q 0 then NegInf else PosInf)
  else Fin q.

(** [x < f] for a finite [x]. *)
Definition lt_float (x : Q) (f : pyfloat) : bool :=
  match f with
  | Fin q => if Qlt_le_dec x q then true else false
  | PosInf => true
  | NegInf => false
  | NaN => false
  end.

(** [int(q)]: towards zero. *)
Definition trunc (q : Q) : Z :=
  if Qlt_le_dec q 0 then (- Qfloor (- q))%Z else Qfloor q.

Definition fneg (f : pyfloat) : pyfloat :=
  match f with
  | Fin q => Fin (- q)
  | PosInf => NegInf
  | NegInf => PosInf
  | NaN => NaN
  end.

(** [a * b] on floats. *)
Definition fmul (a b : pyfloat) : pyfloat :=
  match a, b with
  | NaN, _ | _, NaN => NaN
  | Fin x, Fin y => clamp (x * y)
  | Fin x, inf | inf, Fin x =>
      match Qcompare x 0 with
      | Eq => NaN
      | Gt => inf
      | Lt => fneg inf
      end
  | PosInf, PosInf | NegInf, NegInf => PosInf
  | PosInf, NegInf | NegInf, PosInf => NegInf
  end.

(** *** Binary64 rounding *)

Module B64.

(** [2^e] for an integer [e]. *)
Definition pow2 (e : Z) : Q :=
  if (0 <=? e)%Z then inject_Z (2 ^ e) else (1 # Z.to_pos (2 ^ (- e))).

(** The binade of a positive rational: the [e] with [2^e <= q < 2^(e+1)]. *)
Definition ilog2 (q : Q) : Z :=
  let e := (Z.log2 (Qnum q) - Z.log2 (Zpos (Qden q)))%Z in
  if Qle_bool (pow2 e) q then e else (e - 1)%Z.

(** The spacing of the floats around a positive [q]: 52 binary places below
    its leading bit, and never finer than the spacing of the subnormals. *)
Definition ulp (q : Q) : Q := pow2 (Z.max (ilog2 q) (-1022) - 52).

(** The float nearest to [q], ties to the even significand, infinite from
    [2^1024 - 2^970] on.  A rational that is a float is returned as it
    stands. *)
Definition round (q : Q) : pyfloat :=
  if Qeq_bool q 0 then Fin q
  else
    let a := Qabs q in
    let u := ulp a in
    let r := (inject_Z (round_half_even (a / u)) * u)%Q in
    if Qle_bool (pow2 1024) r then (if Qlt_le_dec q 0 then NegInf else PosInf)
    else if Qeq_bool r a then Fin q
    else Fin (if Qlt_le_dec q 0 then - r else r)%Q.


(** [x + y] on floats. *)
Definition add (x y : pyfloat) : pyfloat :=
  match x, y with
  | NaN, _ | _, NaN => NaN
  | Fin a, Fin b => round (a + b)
  | PosInf, NegInf | NegInf, PosInf => NaN
  | PosInf, _ | _, PosInf => PosInf
  | NegInf, _ | _, NegInf => NegInf
  end.

(** [x - y] on floats. *)
Definition sub (x y : pyfloat) : pyfloat := add x (fneg y).

(** [x * y] on floats. *)
Definition mul (x y : pyfloat) : pyfloat :=
  match x, y with
  | Fin a, Fin b => round (a * b)
  | _, _ => fmul x y
  end.

End B64.

(** *** Reading numbers from text: [int(s)] and [float(s)] *)

Module PyNum.

(** The blanks [int] and [float] strip: the ASCII ones and, of the code
    points from 128 to 255, the next-line control and the no-break space.
    (The separators 28 to 31 are blanks for [str.strip] but not here.) *)
Definition is_space (c : ascii) : bool :=
  Ascii.eqb c " " || ((9 <=? nat_of_ascii c)%nat && (nat_of_ascii c <=? 13)%nat)
  || Ascii.eqb c "133" || Ascii.eqb c "160".

Fixpoint lstrip (s : string) : string :=
  match s with
  | String c s' => if is_space c then lstrip s' else s
  | "" => ""
  end.

Fixpoint rstrip (s : string) : string :=
  match s with
  | "" => ""
  | String c s' =>
      match rstrip s' with
      | "" => if is_space c then "" else String c ""
      | r => String c r
      end
  end.

Definition strip (s : string) : string := rstrip (lstrip s).

(** Digits, with single underscores allowed between them: their value and
    how many digits there are. *)
Fixpoint digits_us (s : string) (acc : Z) (count : nat) (prev_digit : bool)
  : option (Z * nat) :=
  match s with
  | "" => if prev_digit then Some (acc, count) else None
  | String c s' =>
      if is_digit c then digits_us s' (10 * acc + digit_val c) (S count) true
      else if Ascii.eqb c "_" && prev_digit then digits_us s' acc count false
      else None
  end.

Definition split_sign (s : string) : bool * string :=
  match s with
  | String "-" r => (true, r)
  | String "+" r => (false, r)
  | _ => (false, s)
  end.

(** [int(s)] in base ten; [None] stands for [ValueError]. *)
Definition int_of_str (s : string) : option Z :=
  let (neg, ds) := split_sign (strip s) in
  match digits_us ds 0 0 false with
  | Some (n, _) => Some (if (neg : bool) then (- n)%Z else n)
  | None => None
  end.

Fixpoint lower (s : string) : string :=
  match s with
  | "" => ""
  | String c s' => String (to_lower c) (lower s')
  end.

(** The text before the first character that satisfies [P], that character
    if there is one, and the text after it. *)
Fixpoint break_at (P : ascii -> bool) (s : string) : string * option ascii * string :=
  match s with
  | "" => ("", None, "")
  | String c s' =>
      if P c then ("", Some c, s')
      else let '(a, m, b) := break_at P s' in (String c a, m, b)
  end.

(** [float(s)]; [None] stands for [ValueError]. *)
Definition float_of_str (s : string) : option pyfloat :=
  let (neg, body) := split_sign (strip s) in
  let sign (f : pyfloat) := if (neg : bool) then fneg f else f in
  let lo := lower body in
  if String.eqb lo "inf" || String.eqb lo "infinity" then Some (sign PosInf)
  else if String.eqb lo "nan" then Some NaN
  else
    let '(mant, emark, etext) := break_at (fun c => Ascii.eqb c "e" || Ascii.eqb c "E") body in
    let '(ipart, dot, fpart) := break_at (fun c => Ascii.eqb c ".") mant in
    let iv := match ipart with "" => Some (0%Z, 0) | _ => digits_us ipart 0 0 false end in
    let fv := match fpart with "" => Some (0%Z, 0) | _ => digits_us fpart 0 0 false end in
    let ev := match emark with
              | None => Some 0%Z
              | Some _ =>
                  let (eneg, eds) := split_sign etext in
                  match digits_us eds 0 0 false with
                  | Some (e, _) => Some (if (eneg : bool) then (- e)%Z else e)
                  | None => None
                  end
              end in
    match iv, fv, ev with
    | Some (i, ni), Some (f, nf), Some e =>
        if (ni + nf =? 0)%nat then None
        else
          let m := (inject_Z (i * 10 ^ Z.of_nat nf + f) / inject_Z (10 ^ Z.of_nat nf))%Q in
          let v := if (e <? 0)%Z then (m / inject_Z (10 ^ (- e)))%Q
                   else (m * inject_Z (10 ^ e))%Q in
          Some (sign (clamp v))
    | _, _, _ => None
    end.

End PyNum.

(** ** Outcomes, the world, and the monad of scripts *)

Inductive exn : Type :=
  | ValueError
  | OverflowError
  | TypeError
  | KeyError
  | AttributeError
  | IndexError
  | FileNotFoundError
  | IsADirectoryError
  | NotADirectoryError
  | FileExistsError
  | JSONDecodeError
  | SystemExit (code : Z).

Inductive result (A : Type) : Type :=
  | Ok (a : A)
  | Raise (e : exn).
Arguments Ok {A} a.
Arguments Raise {A} e.

Record world : Type := mkWorld {
  rand : nat -> N;            (* the raw draws of the generator, in order *)
  rand_pos : nat;             (* how many were consumed *)
  clock : nat -> Q;           (* what successive time.time() calls return *)
  clock_pos : nat;
  dirs : gset string;         (* the directories that exist *)
  files : gmap string string; (* regular files, by path, with their text *)
  stdout : list string        (* the lines printed so far *)
}.

Definition M (A : Type) : Type := world -> result A * world.

#[global] Instance M_ret : MRet M := fun A a w => (Ok a, w).
#[global] Instance M_bind : MBind M := fun A B f m w =>
  match m w with
  | (Ok a, w') => f a w'
  | (Raise e, w') => (Raise e, w')
  end.

Definition raise {A : Type} (e : exn) : M A := fun w => (Raise e, w).

(** [returns c w Q]: run from [w], the computation [c] ends normally, with a
    value and a world that satisfy [Q]. *)
Definition returns {A : Type} (c : M A) (w : world) (Q : A -> world -> Prop) : Prop :=
  match c w with
  | (Ok a, w') => Q a w'
  | (Raise _, _) => False
  end.

(** Nothing but the cursors of the two oracles differs. *)
Definition same_env (w w' : world) : Prop :=
  rand w' = rand w /\ clock w' = clock w /\ dirs w' = dirs w /\
  files w' = files w /\ stdout w' = stdout w.

(** [for x in xs: s = body(x, s)] *)
Fixpoint for_each {A S : Type} (xs : list A) (body : A -> S -> M S) (s : S) : M S :=
  match xs with
  | [] => mret s
  | x :: xs' => s' ← body x s; for_each xs' body s'
  end.

(** [range(n)]: empty when [n] is not positive. *)
Definition py_range (n : Z) : list Z := map Z.of_nat (seq 0 (Z.to_nat n)).

(** *** The random module *)

Module Random.

Definition raw : M N := fun w =>
  (Ok (rand w (rand_pos w)),
   mkWorld (rand w) (S (rand_pos w)) (clock w) (clock_pos w) (dirs w) (files w) (stdout w)).

(** [random.random()]: a multiple of [2^-53] in [[0, 1)]. *)
Definition random : M Q :=
  r ← raw; mret (Z.of_N (r mod 2 ^ 53) # 2 ^ 53)%Q.

(** [random.uniform(a, b)] is [a + (b - a) * random()]; here in exact
    arithmetic, for the durations that are only shown with three decimals. *)
Definition uniform (a b : Q) : M Q :=
  r ← random; mret (a + (b - a) * r)%Q.

(** The same with every operation rounded to binary64. *)
Definition uniform_b64 (a b : pyfloat) : M pyfloat :=
  r ← random; mret (B64.add a (B64.mul (B64.sub b a) (Fin r))).

(** [random.randint(a, b)]: some integer of [[a, b]]; an empty range raises. *)
Definition randint (a b : Z) : M Z :=
  if (b <? a)%Z then raise ValueError
  else r ← raw; mret (a + Z.of_N r mod (b - a + 1))%Z.

(** [random.choice(seq)] *)
Definition choice {A : Type} (xs : list A) : M A :=
  match xs with
  | [] => raise IndexError
  | x :: _ => r ← raw; mret (nth (N.to_nat r mod length xs) xs x)
  end.

(** [random.choices(population, k=k)] picks [population[floor(random() * n)]]
    [k] times. *)
Definition choices {A : Type} (xs : list A) (k : nat) : M (list A) :=
  match xs with
  | [] => raise IndexError
  | x :: _ =>
      for_each (seq 0 k)
        (fun _ acc =>
           r ← random;
           mret (acc ++ [nth (Z.to_nat (Qfloor (r * inject_Z (Z.of_nat (length xs))))) xs x]))
        []
  end.

End Random.

(** *** The clock and standard output *)

Definition time_time : M Q := fun w =>
  (Ok (clock w (clock_pos w)),
   mkWorld (rand w) (rand_pos w) (clock w) (S (clock_pos w)) (dirs w) (files w) (stdout w)).

Definition print (line : string) : M unit := fun w =>
  (Ok tt,
   mkWorld (rand w) (rand_pos w) (clock w) (clock_pos w) (dirs w) (files w) (stdout w ++ [line])).

(** *** Conversions that may raise, and [sys.argv] *)

Definition of_option {A : Type} (e : exn) (o : option A) : M A :=
  match o with
  | Some a => mret a
  | None => raise e
  end.

(** [int(s)] *)
Definition py_int (s : string) : M Z := of_option ValueError (PyNum.int_of_str s).

(** [float(s)] *)
Definition py_float (s : string) : M pyfloat := of_option ValueError (PyNum.float_of_str s).

(** [float(z)] of an integer, as [z * f] does before it multiplies; the
    integer is kept as it stands. *)
Definition float_of_int (z : Z) : M pyfloat :=
  if Qle_bool float_overflow (Qabs (inject_Z z)) then raise OverflowError
  else mret (Fin (inject_Z z)).

(** [float(z)] with its rounding to binary64. *)
Definition float_of_int_b64 (z : Z) : M pyfloat :=
  if Qle_bool float_overflow (Qabs (inject_Z z)) then raise OverflowError
  else mret (B64.round (inject_Z z)).

(** [int(f)] *)
Definition int_of_float (f : pyfloat) : M Z :=
  match f with
  | Fin q => mret (trunc q)
  | PosInf | NegInf => raise OverflowError
  | NaN => raise ValueError
  end.

(** [conv(sys.argv[i]) if len(sys.argv) > i else default] *)
Definition arg_or {A : Type} (argv : list string) (i : nat) (conv : string -> M A)
    (default : A) : M A :=
  match nth_error argv i with
  | Some s => conv s
  | None => mret default
  end.

(** [sys.exit(code)] *)
Definition sys_exit {A : Type} (code : Z) : M A := raise (SystemExit code).

(** The exit status of the process for the outcome of [main]. *)
Definition exit_status {A : Type} (r : result A) : Z :=
  match r with
  | Ok _ => 0
  | Raise (SystemExit code) => code
  | Raise _ => 1
  end.

(** *** The file system *)

Module OS.

(** [os.path.join(a, b)] (POSIX). *)
Definition path_join (a b : string) : string :=
  if starts_with "/" b then b
  else if String.eqb a "" || ends_with "/" a then a +:+ b
  else a +:+ "/" +:+ b.

(** The text up to and including the last slash, and the text after it. *)
Fixpoint rsplit_slash (s : string) : option (string * string) :=
  match s with
  | "" => None
  | String a s' =>
      match rsplit_slash s' with
      | Some (h, t) => Some (String a h, t)
      | None => if Ascii.eqb a "/" then Some ("/", s') else None
      end
  end.

Fixpoint rstrip_slash (s : string) : string :=
  match s with
  | "" => ""
  | String a s' =>
      match rstrip_slash s' with
      | "" => if Ascii.eqb a "/" then "" else String a ""
      | r => String a r
      end
  end.

(** [os.path.dirname(p)] *)
Definition dirname (p : string) : string :=
  match rsplit_slash p with
  | None => ""
  | Some (h, _) => if str_forall (Ascii.eqb "/") h then h else rstrip_slash h
  end.

(** [os.path.basename(p)] *)
Definition basename (p : string) : string :=
  match rsplit_slash p with
  | None => p
  | Some (_, t) => t
  end.

(** The current directory, its parent and the root always exist.  The empty
    name is what [dirname] gives for a bare file name and stands for the
    current directory there; as a path to open, to list or to make it names
    nothing (see below). *)
Definition always_dir (p : string) : bool :=
  String.eqb p "" || String.eqb p "." || String.eqb p ".." || String.eqb p "/".

Definition is_dir (w : world) (p : string) : bool :=
  always_dir p || bool_decide (p ∈ dirs w).

Definition is_file (w : world) (p : string) : bool :=
  bool_decide (is_Some (files w !! p)).

Definition set_files (fs : gmap string string) (w : world) : world :=
  mkWorld (rand w) (rand_pos w) (clock w) (clock_pos w) (dirs w) fs (stdout w).

Definition set_dirs (ds : gset string) (w : world) : world :=
  mkWorld (rand w) (rand_pos w) (clock w) (clock_pos w) ds (files w) (stdout w).

(** [with open(path, "w") as f: f.write(content)]: the file is created or
    truncated; its directory must exist, and the empty path names no file.
    Paths are compared as spelled. *)
Definition write_text (path content : string) : M unit := fun w =>
  if String.eqb path "" then (Raise FileNotFoundError, w)
  else if is_dir w path then (Raise IsADirectoryError, w)
  else if is_dir w (dirname path) then (Ok tt, set_files (<[path := content]> (files w)) w)
  else if is_file w (dirname path) then (Raise NotADirectoryError, w)
  else (Raise FileNotFoundError, w).

(** [with open(path, "r") as f: f.read()] *)
Definition read_text (path : string) : M string := fun w =>
  if String.eqb path "" then (Raise FileNotFoundError, w)
  else if is_dir w path then (Raise IsADirectoryError, w)
  else match files w !! path with
       | Some content => (Ok content, w)
       | None => (Raise FileNotFoundError, w)
       end.

(** The prefixes of a path that end before a slash, shortest first, then the
    path itself. *)
Fixpoint path_prefixes_from (seen rest : string) : list string :=
  match rest with
  | "" => [seen]
  | String a rest' =>
      if Ascii.eqb a "/" then seen :: path_prefixes_from (seen +:+ "/") rest'
      else path_prefixes_from (seen +:+ String a "") rest'
  end.
Definition path_prefixes (p : string) : list string := path_prefixes_from "" p.

(** [os.makedirs(path, exist_ok=True)] *)
Definition makedirs_exist_ok (path : string) : M unit :=
  if String.eqb path "" then raise FileNotFoundError
  else
  for_each (path_prefixes path)
    (fun p (_ : unit) w =>
       if is_dir w p then (Ok tt, w)
       else if is_file w p then
         (Raise (if String.eqb p path then FileExistsError else NotADirectoryError), w)
       else (Ok tt, set_dirs ({[p]} ∪ dirs w) w))
    tt.

(** [os.listdir(d)]: the names directly under [d]. *)
Definition listdir (d : string) : M (list string) := fun w =>
  if String.eqb d "" then (Raise FileNotFoundError, w)
  else if is_dir w d then
    (Ok (map basename
           (filter (fun p => dirname p = d) (elements (dom (files w)) ++ elements (dirs w)))), w)
  else (Raise (if is_file w d then NotADirectoryError else FileNotFoundError), w).

End OS.

(** ** generate_gotest_files.py *)

Module GoTest.

(** [generate_test_output]: the console lines of one test, joined, and its
    status. *)
Definition generate_test_output (test_num : Z) (module_name : string) (should_fail : bool)
  : M (string * string) :=
  let test_name := "Test" +:+ title module_name +:+ "_Case" +:+ fmt_0d 4 test_num in
  duration ← Random.uniform 0.001 0.5;
  let lines := [] in
  let lines := lines ++ ["=== RUN   " +:+ test_name] in
  n ← Random.randint 2 8;
  lines ← for_each (py_range n)
            (fun i lines =>
               mret (lines ++ ["    " +:+ test_name +:+ ": log line " +:+ str_int (i + 1)
                                 +:+ ": processing step " +:+ str_int (i + 1)]))
            lines;
  '(lines, status) ←
     (if should_fail then
        let lines := lines ++ ["    " +:+ test_name +:+ ": assertion failed"] in
        e ← Random.randint 1 100;
        let lines := lines ++ ["        Expected: " +:+ str_int e] in
        a ← Random.randint 1 100;
        let lines := lines ++ ["        Actual: " +:+ str_int a] in
        mret (lines, "FAIL")
      else mret (lines, "PASS"));
  let lines := lines ++ ["--- " +:+ status +:+ ": " +:+ test_name
                           +:+ " (" +:+ fmt_f 3 duration +:+ "s)"] in
  mret (join nl lines, status).

(** [generate_suite_file]: one .suite file; returns the number of tests asked
    for and the number of failures. *)
Definition generate_suite_file (file_num tests_per_file : Z) (failure_rate : pyfloat)
    (output_dir : string) : M (Z * Z) :=
  let module_name := "module_" +:+ fmt_0d 4 file_num in
  '(lines, num_failures, num_passes) ←
     for_each (py_range tests_per_file)
       (fun test_num '(lines, num_failures, num_passes) =>
          r ← Random.random;
          let should_fail := lt_float r failure_rate in
          '(output, status) ← generate_test_output test_num module_name should_fail;
          let lines := lines ++ [output] in
          if String.eqb status "FAIL" then mret (lines, (num_failures + 1)%Z, num_passes)
          else mret (lines, num_failures, (num_passes + 1)%Z))
       ([], 0%Z, 0%Z);
  let lines := lines ++ [if (0 <? num_failures)%Z then "FAIL" else "PASS"] in
  t ← Random.uniform 0.5 5.0;
  let lines := lines ++ ["ok  " +:+ tab +:+ "github.com/test/" +:+ module_name +:+ tab
                           +:+ fmt_f 3 t +:+ "s"] in
  let filename := OS.path_join output_dir (module_name +:+ ".suite") in
  _ ← OS.write_text filename (join nl lines);
  mret (tests_per_file, num_failures).

(** [main] *)
Definition main (argv : list string) : M unit :=
  num_files ← arg_or argv 1 py_int 10%Z;
  tests_per_file ← arg_or argv 2 py_int 100%Z;
  failure_rate ← arg_or argv 3 py_float (Fin 0.1);
  let output_dir := "." in
  _ ← print ("Generating " +:+ str_int num_files +:+ " go test suite files with "
               +:+ str_int tests_per_file +:+ " tests each...");
  _ ← print ("Total tests: " +:+ str_int (num_files * tests_per_file));
  total ← float_of_int (num_files * tests_per_file);
  expected ← int_of_float (fmul total failure_rate);
  _ ← print ("Expected failures: ~" +:+ str_int expected);
  _ ← print "";
  start_time ← time_time;
  '(total_tests, total_failures) ←
    for_each (py_range num_files)
      (fun file_num '(total_tests, total_failures) =>
         '(tests, failures) ←
            generate_suite_file file_num tests_per_file failure_rate output_dir;
         let total_tests := (total_tests + tests)%Z in
         let total_failures := (total_failures + failures)%Z in
         _ ← (if ((file_num + 1) mod 5 =? 0)%Z then
                print ("  Generated " +:+ str_int (file_num + 1) +:+ "/"
                         +:+ str_int num_files +:+ " files...")
              else mret tt);
         mret (total_tests, total_failures))
      (0%Z, 0%Z);
  now ← time_time;
  let elapsed := (now - start_time)%Q in
  _ ← print "";
  _ ← print ("Done! Generated " +:+ str_int num_files +:+ " files in "
               +:+ fmt_f 2 elapsed +:+ "s");
  _ ← print ("Total tests: " +:+ str_int total_tests);
  _ ← print ("Total failures: " +:+ str_int total_failures);
  _ ← print "";
  print "Files will be picked up by gotest.parse_files in post section.".

(** Reading a .suite file back: the lines that report a test, those that
    report a failed one, and the summary line (the last but one). *)
Definition is_result_line (l : string) : bool :=
  starts_with "--- PASS:" l || starts_with "--- FAIL:" l.
Definition is_fail_line (l : string) : bool := starts_with "--- FAIL:" l.
Definition summary_line (content : string) : string :=
  let ls := split_nl content in nth (length ls - 2) ls "".

Definition suite_path (output_dir : string) (file_num : Z) : string :=
  OS.path_join output_dir ("module_" +:+ fmt_0d 4 file_num +:+ ".suite").

End GoTest.


(** ** generate_xunit_files.py *)

Module XUnit.

(** [ name="value"], as it stands inside a start tag. *)
Definition attr (name value : string) : string :=
  " " +:+ name +:+ "=" +:+ dq +:+ value +:+ dq.

(** [XUNIT_TEMPLATE.format(...)] *)
Definition XUNIT_TEMPLATE (suite_name : string) (num_tests num_failures : Z)
    (total_time : Q) (test_cases : string) : string :=
  "<?xml" +:+ attr "version" "1.0" +:+ attr "encoding" "UTF-8" +:+ "?>" +:+ nl +:+
  "<testsuite" +:+ attr "name" suite_name +:+ attr "tests" (str_int num_tests)
    +:+ attr "failures" (str_int num_failures) +:+ attr "errors" "0"
    +:+ attr "time" (fmt_f 3 total_time) +:+ ">" +:+ nl +:+
  test_cases +:+ nl +:+
  "</testsuite>" +:+ nl.

(** [TESTCASE_PASS_TEMPLATE.format(...)] *)
Definition TESTCASE_PASS_TEMPLATE (classname name : string) (time : Q) : string :=
  "  <testcase" +:+ attr "classname" classname +:+ attr "name" name
    +:+ attr "time" (fmt_f 3 time) +:+ "/>".

(** The lines of [TESTCASE_FAIL_TEMPLATE.format(...)]; the template is their
    join with newlines. *)
Definition TESTCASE_FAIL_LINES (classname name : string) (time : Q) (module : string)
    (line expected actual : Z) : list string :=
  [ "  <testcase" +:+ attr "classname" classname +:+ attr "name" name
      +:+ attr "time" (fmt_f 3 time) +:+ ">";
    "    <failure" +:+ attr "message" "Test failed" +:+ attr "type" "AssertionError" +:+ ">";
    "Traceback (most recent call last):";
    "  File " +:+ dq +:+ "test_" +:+ module +:+ ".py" +:+ dq +:+ ", line " +:+ str_int line
      +:+ ", in " +:+ name;
    "    self.assertEqual(expected, actual)";
    "AssertionError: Expected value did not match actual value.";
    "Expected: " +:+ str_int expected;
    "Actual: " +:+ str_int actual;
    "    </failure>";
    "  </testcase>" ].
Definition TESTCASE_FAIL_TEMPLATE (classname name : string) (time : Q) (module : string)
    (line expected actual : Z) : string :=
  join nl (TESTCASE_FAIL_LINES classname name time module line expected actual).

(** [generate_test_case]: the XML of one test case, its duration, and whether
    it failed. *)
Definition generate_test_case (module_name : string) (test_num : Z) (should_fail : bool)
  : M (string * Q * bool) :=
  let classname := "test_" +:+ module_name +:+ ".Test" +:+ title module_name +:+ "Suite" in
  let name := "test_" +:+ module_name +:+ "_case_" +:+ fmt_0d 4 test_num in
  duration ← Random.uniform 0.001 0.5;
  if should_fail then
    line ← Random.randint 10 200;
    expected ← Random.randint 1 100;
    actual ← Random.randint 1 100;
    let xml := TESTCASE_FAIL_TEMPLATE classname name duration module_name line expected actual in
    mret (xml, duration, true)
  else
    let xml := TESTCASE_PASS_TEMPLATE classname name duration in
    mret (xml, duration, false).

Definition xunit_path (output_dir : string) (file_num : Z) : string :=
  OS.path_join output_dir ("junit-" +:+ fmt_0d 4 file_num +:+ ".xml").

(** The loop of [generate_xunit_file]: the snippets, the durations they were
    given, the running total and the failure count.  The list of durations is
    kept for the statements only; the source keeps the total. *)
Definition generate_cases (module_name : string) (tests_per_file : Z) (failure_rate : pyfloat)
  : M (list string * list Q * Q * Z) :=
  for_each (py_range tests_per_file)
    (fun test_num '(test_cases, durations, total_time, num_failures) =>
       r ← Random.random;
       let should_fail := lt_float r failure_rate in
       '(xml, duration, failed) ← generate_test_case module_name test_num should_fail;
       let test_cases := test_cases ++ [xml] in
       let total_time := (total_time + duration)%Q in
       mret (test_cases, durations ++ [duration], total_time,
             if (failed : bool) then (num_failures + 1)%Z else num_failures))
    ([], [], 0%Q, 0%Z).

(** [generate_xunit_file]: one XML file; returns the number of tests asked for
    and the number of failures. *)
Definition generate_xunit_file (file_num tests_per_file : Z) (failure_rate : pyfloat)
    (output_dir : string) : M (Z * Z) :=
  let module_name := "module_" +:+ fmt_0d 4 file_num in
  let suite_name := "test_" +:+ module_name +:+ ".Test" +:+ title module_name +:+ "Suite" in
  '(test_cases, _, total_time, num_failures) ←
     generate_cases module_name tests_per_file failure_rate;
  let xml_content :=
    XUNIT_TEMPLATE suite_name tests_per_file num_failures total_time (join nl test_cases) in
  let filename := xunit_path output_dir file_num in
  _ ← OS.write_text filename xml_content;
  mret (tests_per_file, num_failures).

(** [main] *)
Definition main (argv : list string) : M unit :=
  num_files ← arg_or argv 1 py_int 100%Z;
  tests_per_file ← arg_or argv 2 py_int 50%Z;
  failure_rate ← arg_or argv 3 py_float (Fin 0.1);
  let output_dir := "." in
  _ ← print ("Generating " +:+ str_int num_files +:+ " xunit files with "
               +:+ str_int tests_per_file +:+ " tests each...");
  _ ← print ("Total tests: " +:+ str_int (num_files * tests_per_file));
  total ← float_of_int (num_files * tests_per_file);
  expected ← int_of_float (fmul total failure_rate);
  _ ← print ("Expected failures: ~" +:+ str_int expected);
  _ ← print "";
  start_time ← time_time;
  '(total_tests, total_failures) ←
    for_each (py_range num_files)
      (fun file_num '(total_tests, total_failures) =>
         '(tests, failures) ←
            generate_xunit_file file_num tests_per_file failure_rate output_dir;
         let total_tests := (total_tests + tests)%Z in
         let total_failures := (total_failures + failures)%Z in
         _ ← (if ((file_num + 1) mod 10 =? 0)%Z then
                print ("  Generated " +:+ str_int (file_num + 1) +:+ "/"
                         +:+ str_int num_files +:+ " files...")
              else mret tt);
         mret (total_tests, total_failures))
      (0%Z, 0%Z);
  now ← time_time;
  let elapsed := (now - start_time)%Q in
  _ ← print "";
  _ ← print ("Done! Generated " +:+ str_int num_files +:+ " files in "
               +:+ fmt_f 2 elapsed +:+ "s");
  _ ← print ("Total tests: " +:+ str_int total_tests);
  _ ← print ("Total failures: " +:+ str_int total_failures);
  _ ← print "";
  print "Files will be picked up by attach.xunit_results in post section.".

(** *** Reading an xUnit file back *)

Fixpoint attr_lookup (name : string) (parts : list string) : option string :=
  match parts with
  | k :: v :: rest =>
      if ends_with (" " +:+ name +:+ "=") k then Some v else attr_lookup name rest
  | _ => None
  end.

(** The value of attribute [name] in a start tag written on one line. *)
Definition xml_attr (name line : string) : option string :=
  attr_lookup name (split_on "034" line).

(** The start tag of the testsuite element is the second line. *)
Definition testsuite_tag (content : string) : string := nth 1 (split_nl content) "".

Definition is_testcase_open (l : string) : bool := starts_with "  <testcase " l.
Definition is_testcase_close (l : string) : bool := starts_with "  </testcase>" l.
Definition is_failure_open (l : string) : bool := starts_with "    <failure " l.

(** The number of testcase elements. *)
Definition count_testcases (content : string) : nat :=
  count_lines is_testcase_open content.

(** The number of testcase elements that hold a failure child: a failure
    element counts once for the testcase element it stands in. *)
Fixpoint count_failed_from (in_case : bool) (ls : list string) : nat :=
  match ls with
  | [] => 0
  | l :: rest =>
      if is_testcase_open l then count_failed_from (negb (ends_with "/>" l)) rest
      else if is_testcase_close l then count_failed_from false rest
      else if in_case && is_failure_open l then S (count_failed_from false rest)
      else count_failed_from in_case rest
  end.
Definition count_failed_testcases (content : string) : nat :=
  count_failed_from false (split_nl content).

(** The time attributes of the testcase elements, in order. *)
Definition testcase_times (content : string) : list (option string) :=
  map (xml_attr "time") (List.filter is_testcase_open (split_nl content)).

(** The exact total of a list of durations, added up from zero as the loop
    does, and the sum of a list of integers. *)
Definition Qsum (ds : list Q) : Q := fold_left Qplus ds 0%Q.

End XUnit.

(** ** The json module *)

Module Json.

(** A JSON document as Python holds it: a dict is the list of its items in
    insertion order (keys are distinct). *)
#[warnings="-register-all"]
Inductive json : Type :=
  | JNull
  | JBool (b : bool)
  | JInt (z : Z)
  | JFloat (f : pyfloat)
  | JStr (s : string)
  | JArr (items : list json)
  | JObj (members : list (string * json)).

(** [d.get(k)] *)
Fixpoint dict_get (k : string) (d : list (string * json)) : option json :=
  match d with
  | [] => None
  | (k', v) :: d' => if String.eqb k k' then Some v else dict_get k d'
  end.

(** [d[k] = v]: an existing key keeps its place. *)
Fixpoint dict_set (k : string) (v : json) (d : list (string * json))
  : list (string * json) :=
  match d with
  | [] => [(k, v)]
  | (k', v') :: d' => if String.eqb k k' then (k, v) :: d' else (k', v') :: dict_set k v d'
  end.

(** *** Encoding *)

Definition hex_digit (n : nat) : string :=
  String (nth n ["0"; "1"; "2"; "3"; "4"; "5"; "6"; "7"; "8"; "9";
                 "a"; "b"; "c"; "d"; "e"; "f"]%char "0"%char) "".

(** What [json.dumps] writes for one character of a string
    ([ensure_ascii] is on): quote and backslash get a backslash, the usual
    control characters their letter, everything else outside the printable
    ASCII range a four-digit escape. *)
Definition escape_char (c : ascii) : string :=
  let n := nat_of_ascii c in
  if Ascii.eqb c "034" then "\" +:+ dq
  else if Ascii.eqb c "\" then "\\"
  else if Ascii.eqb c "010" then "\n"
  else if Ascii.eqb c "013" then "\r"
  else if Ascii.eqb c "009" then "\t"
  else if Ascii.eqb c "008" then "\b"
  else if Ascii.eqb c "012" then "\f"
  else if (32 <=? n)%nat && (n <=? 126)%nat then String c ""
  else "\u00" +:+ hex_digit (n / 16) +:+ hex_digit (n mod 16).

Fixpoint escape (s : string) : string :=
  match s with
  | "" => ""
  | String c s' => escape_char c +:+ escape s'
  end.

Definition encode_string (s : string) : string := dq +:+ escape s +:+ dq.

Section Encoder.

(** [float.__repr__] on a finite float, the shortest decimal text that reads
    back as the same binary64 value; it is left open here. *)
Variable float_repr : Q -> string.

(** The [indent] argument of [json.dumps]: [None], or a number of spaces. *)
Variable indent : option nat.

Definition encode_float (f : pyfloat) : string :=
  match f with
  | Fin q => float_repr q
  | PosInf => "Infinity"
  | NegInf => "-Infinity"
  | NaN => "NaN"
  end.

Definition newline_indent (level : nat) : string :=
  match indent with
  | None => ""
  | Some n => nl +:+ replicate_str (n * level) " "
  end.

(** With an indent the item separator loses its space. *)
Definition item_separator : string :=
  match indent with
  | None => ", "
  | Some _ => ","
  end.

Fixpoint encode (level : nat) (v : json) : string :=
  match v with
  | JNull => "null"
  | JBool true => "true"
  | JBool false => "false"
  | JInt z => str_int z
  | JFloat f => encode_float f
  | JStr s => encode_string s
  | JArr [] => "[]"
  | JArr items =>
      "[" +:+ newline_indent (S level)
        +:+ join (item_separator +:+ newline_indent (S level)) (map (encode (S level)) items)
        +:+ newline_indent level +:+ "]"
  | JObj [] => "{}"
  | JObj members =>
      "{" +:+ newline_indent (S level)
        +:+ join (item_separator +:+ newline_indent (S level))
              (map (fun kv => encode_string (fst kv) +:+ ": " +:+ encode (S level) (snd kv))
                   members)
        +:+ newline_indent level +:+ "}"
  end.

(** [json.dumps(v, indent=indent)] *)
Definition dumps (v : json) : string := encode 0 v.

End Encoder.

(** *** Decoding *)

Definition is_ws (c : ascii) : bool :=
  Ascii.eqb c " " || Ascii.eqb c "009" || Ascii.eqb c "010" || Ascii.eqb c "013".

Fixpoint skip_ws (s : string) : string :=
  match s with
  | String c s' => if is_ws c then skip_ws s' else s
  | "" => ""
  end.

Definition hex_val (c : ascii) : option nat :=
  let n := nat_of_ascii c in
  if is_digit c then Some (n - 48)
  else if (97 <=? n)%nat && (n <=? 102)%nat then Some (n - 87)
  else if (65 <=? n)%nat && (n <=? 70)%nat then Some (n - 55)
  else None.

Definition hex4 (a b c d : ascii) : option nat :=
  match hex_val a, hex_val b, hex_val c, hex_val d with
  | Some x, Some y, Some z, Some t => Some (((x * 16 + y) * 16 + z) * 16 + t)
  | _, _, _, _ => None
  end.

(** The character a backslash and one letter stand for. *)
Definition unescape (e : ascii) : option ascii :=
  if Ascii.eqb e "034" then Some "034"%char
  else if Ascii.eqb e "\" then Some "\"%char
  else if Ascii.eqb e "/" then Some "/"%char
  else if Ascii.eqb e "b" then Some "008"%char
  else if Ascii.eqb e "f" then Some "012"%char
  else if Ascii.eqb e "n" then Some "010"%char
  else if Ascii.eqb e "r" then Some "013"%char
  else if Ascii.eqb e "t" then Some "009"%char
  else None.

(** The text of a string literal after its opening quote, up to the closing
    one, and what follows.  A raw control character is an error; so is, in
    this model, an escape for a character beyond 255. *)
Fixpoint parse_string_body (s : string) : option (string * string) :=
  match s with
  | "" => None
  | String c r =>
      if Ascii.eqb c "034" then Some ("", r)
      else if Ascii.eqb c "\" then
        match r with
        | String e r' =>
            if Ascii.eqb e "u" then
              match r' with
              | String h1 (String h2 (String h3 (String h4 r''))) =>
                  match hex4 h1 h2 h3 h4 with
                  | Some n =>
                      if (n <? 256)%nat then
                        match parse_string_body r'' with
                        | Some (t, rest) => Some (String (ascii_of_nat n) t, rest)
                        | None => None
                        end
                      else None
                  | None => None
                  end
              | _ => None
              end
            else
              match unescape e with
              | Some ch =>
                  match parse_string_body r' with
                  | Some (t, rest) => Some (String ch t, rest)
                  | None => None
                  end
              | None => None
              end
        | "" => None
        end
      else if (nat_of_ascii c <? 32)%nat then None
      else
        match parse_string_body r with
        | Some (t, rest) => Some (String c t, rest)
        | None => None
        end
  end.

(** The longest run of digits at the head of a text, and the rest. *)
Fixpoint span_digits (s : string) : string * string :=
  match s with
  | String c s' =>
      if is_digit c then let (ds, r) := span_digits s' in (String c ds, r) else ("", s)
  | "" => ("", "")
  end.

(** A number: an optional minus, an integer part without a leading zero, an
    optional fraction, an optional exponent.  Without fraction and exponent
    it is an [int], else a [float].  Where Python's scanner would stop early
    and then fail on what is left (a second leading digit after a zero, a dot
    or an exponent mark with no digit), this reports the failure at once. *)
Definition parse_number (s : string) : option (json * string) :=
  let (neg, s1) := match s with
                   | String c r => if Ascii.eqb c "-" then (true, r) else (false, s)
                   | "" => (false, s)
                   end in
  let (ds, s2) := span_digits s1 in
  match digits_value ds with
  | None => None
  | Some n =>
      if negb (String.eqb ds (str_N (Z.to_N n))) then None
      else
        let sign := if (neg : bool) then (-1)%Z else 1%Z in
        let '(frac, s3) := match s2 with
                           | String c r =>
                               if Ascii.eqb c "." then
                                 let (fs, r') := span_digits r in (Some fs, r')
                               else (None, s2)
                           | "" => (None, s2)
                           end in
        let '(exp, s4) := match s3 with
                          | String c r =>
                              if Ascii.eqb c "e" || Ascii.eqb c "E" then
                                let (eneg, r1) :=
                                  match r with
                                  | String c' r0 =>
                                      if Ascii.eqb c' "-" then (true, r0)
                                      else if Ascii.eqb c' "+" then (false, r0)
                                      else (false, r)
                                  | "" => (false, r)
                                  end in
                                let (es, r2) := span_digits r1 in
                                (Some (eneg, es), r2)
                              else (None, s3)
                          | "" => (None, s3)
                          end in
        match frac, exp with
        | None, None => Some (JInt (sign * n), s4)
        | _, _ =>
            let fs := match frac with Some fs => fs | None => "0" end in
            let es := match exp with Some (_, es) => es | None => "0" end in
            let eneg := match exp with Some (b, _) => b | None => false end in
            match digits_value fs, digits_value es with
            | Some fv, Some ev =>
                let mant := (inject_Z (sign * (n * 10 ^ Z.of_nat (String.length fs) + fv))
                             / inject_Z (10 ^ Z.of_nat (String.length fs)))%Q in
                let scale := inject_Z (10 ^ ev) in
                Some (JFloat (clamp (if (eneg : bool) then mant / scale else mant * scale)%Q),
                      s4)
            | _, _ => None
            end
        end
  end.

Definition drop_prefix (p s : string) : option string :=
  if String.prefix p s then Some (String.substring (String.length p)
                                    (String.length s - String.length p) s)
  else None.

(** A literal name or a number, tried in the scanner's order. *)
Definition parse_atom (s : string) : option (json * string) :=
  match drop_prefix "null" s, drop_prefix "true" s, drop_prefix "false" s with
  | Some rest, _, _ => Some (JNull, rest)
  | _, Some rest, _ => Some (JBool true, rest)
  | _, _, Some rest => Some (JBool false, rest)
  | _, _, _ =>
      match parse_number s with
      | Some r => Some r
      | None =>
          match drop_prefix "NaN" s, drop_prefix "Infinity" s, drop_prefix "-Infinity" s with
          | Some rest, _, _ => Some (JFloat NaN, rest)
          | _, Some rest, _ => Some (JFloat PosInf, rest)
          | _, _, Some rest => Some (JFloat NegInf, rest)
          | _, _, _ => None
          end
      end
  end.

(** One value at the head of [s] (which starts at a non-blank), and what
    follows it. *)
Fixpoint parse_value (fuel : nat) (s : string) : option (json * string) :=
  match fuel with
  | O => None
  | S fuel' =>
      match s with
      | "" => None
      | String c r =>
          if Ascii.eqb c "034" then
            match parse_string_body r with
            | Some (t, rest) => Some (JStr t, rest)
            | None => None
            end
          else if Ascii.eqb c "{" then
            match skip_ws r with
            | "" => None
            | String c1 r1 =>
                if Ascii.eqb c1 "}" then Some (JObj [], r1)
                else parse_members fuel' (String c1 r1) []
            end
          else if Ascii.eqb c "[" then
            match skip_ws r with
            | "" => None
            | String c1 r1 =>
                if Ascii.eqb c1 "]" then Some (JArr [], r1)
                else parse_elements fuel' (String c1 r1) []
            end
          else parse_atom s
      end
  end
with parse_elements (fuel : nat) (s : string) (acc : list json) : option (json * string) :=
  match fuel with
  | O => None
  | S fuel' =>
      match parse_value fuel' s with
      | Some (v, r) =>
          match skip_ws r with
          | "" => None
          | String c r' =>
              if Ascii.eqb c "," then parse_elements fuel' (skip_ws r') (acc ++ [v])
              else if Ascii.eqb c "]" then Some (JArr (acc ++ [v]), r')
              else None
          end
      | None => None
      end
  end
with parse_members (fuel : nat) (s : string) (acc : list (string * json))
  : option (json * string) :=
  match fuel with
  | O => None
  | S fuel' =>
      match s with
      | "" => None
      | String q r =>
          if negb (Ascii.eqb q "034") then None
          else
            match parse_string_body r with
            | Some (k, r0) =>
                match skip_ws r0 with
                | "" => None
                | String c0 r1 =>
                    if negb (Ascii.eqb c0 ":") then None
                    else
                      match parse_value fuel' (skip_ws r1) with
                      | Some (v, r2) =>
                          match skip_ws r2 with
                          | "" => None
                          | String c r' =>
                              if Ascii.eqb c "," then
                                parse_members fuel' (skip_ws r') (dict_set k v acc)
                              else if Ascii.eqb c "}" then Some (JObj (dict_set k v acc), r')
                              else None
                          end
                      | None => None
                      end
                end
            | None => None
            end
      end
  end.

(** [json.loads(s)]: one value, with blanks allowed around it and nothing
    else; [None] stands for [JSONDecodeError]. *)
Definition loads (s : string) : option json :=
  match parse_value (S (String.length s)) (skip_ws s) with
  | Some (v, rest) => if String.eqb (skip_ws rest) "" then Some v else None
  | None => None
  end.

(** *** Reading a document: [v[k]] and [v[i]] *)

Definition get_key (k : string) (v : json) : option json :=
  match v with
  | JObj d => dict_get k d
  | _ => None
  end.

(** [v == s] for a string [s]. *)
Definition is_str (s : string) (v : json) : bool :=
  match v with
  | JStr t => String.eqb t s
  | _ => false
  end.

Definition get_index (i : nat) (v : json) : option json :=
  match v with
  | JArr items => nth_error items i
  | _ => None
  end.

End Json.

(** ** generate_trace_files.py *)

Module Trace.
Import Json.

Definition hex_chars : list string :=
  ["0"; "1"; "2"; "3"; "4"; "5"; "6"; "7"; "8"; "9"; "a"; "b"; "c"; "d"; "e"; "f"].

(** [generate_trace_id]: 32 random hex characters. *)
Definition generate_trace_id : M string :=
  cs ← Random.choices hex_chars 32; mret (join "" cs).

(** [generate_span_id]: 16 random hex characters. *)
Definition generate_span_id : M string :=
  cs ← Random.choices hex_chars 16; mret (join "" cs).

Definition string_attr (key value : string) : json :=
  JObj [("key", JStr key); ("value", JObj [("stringValue", JStr value)])].

(** [generate_span]; the parent id is stored as it is handed in. *)
Definition generate_span (trace_id : string) (parent_span_id : json) (span_num : Z)
    (start_time_ns : Z) : M json :=
  span_id ← generate_span_id;
  duration_ns ← Random.randint 1000000 100000000;
  kind ← Random.randint 1 5;
  operation ← Random.choice ["find"; "insert"; "update"; "delete"];
  mret (JObj
          [ ("traceId", JStr trace_id);
            ("spanId", JStr span_id);
            ("parentSpanId", parent_span_id);
            ("name", JStr ("operation_" +:+ fmt_0d 4 span_num));
            ("kind", JInt kind);
            ("startTimeUnixNano", JStr (str_int start_time_ns));
            ("endTimeUnixNano", JStr (str_int (start_time_ns + duration_ns)));
            ("attributes",
             JArr [ string_attr "db.system" "mongodb";
                    string_attr "db.operation" operation;
                    string_attr "db.name" "test_db";
                    JObj [("key", JStr "span.num");
                          ("value", JObj [("intValue", JStr (str_int span_num))])] ]);
            ("status", JObj []) ]).

(** [generate_trace_data]: one trace object with [num_spans] spans. *)
Definition generate_trace_data (num_spans : Z) : M json :=
  trace_id ← generate_trace_id;
  now ← time_time;
  let base_time_ns := trunc (now * 1000000000) in
  '(spans, _) ←
     for_each (py_range num_spans)
       (fun i '(spans, parent_span_id) =>
          span ← generate_span trace_id parent_span_id i (base_time_ns + i * 1000000)%Z;
          let spans := spans ++ [span] in
          r ← Random.random;
          if lt_float r (Fin 0.3) then
            id ← of_option KeyError (get_key "spanId" span);
            mret (spans, id)
          else
            r' ← Random.random;
            if lt_float r' (Fin 0.5) then mret (spans, JStr "")
            else mret (spans, parent_span_id))
       ([], JStr "");
  mret (JObj
          [ ("resourceSpans",
             JArr [ JObj
                      [ ("resource",
                         JObj [ ("attributes",
                                 JArr [ string_attr "service.name" "test-service";
                                        string_attr "service.version" "1.0.0";
                                        string_attr "host.name" "test-host" ]) ]);
                        ("scopeSpans",
                         JArr [ JObj [ ("scope", JObj [("name", JStr "test-tracer")]);
                                       ("spans", JArr spans) ] ]) ] ]) ]).

Definition trace_path (output_dir : string) (file_num : Z) : string :=
  OS.path_join output_dir ("traces_" +:+ fmt_0d 4 file_num +:+ ".jsonl").

Definition spans_per_object : Z := 275.

Section WithRepr.
Variable float_repr : Q -> string.

(** [generate_trace_file]: one .jsonl file; returns the number of spans it
    holds. *)
Definition generate_trace_file (file_num spans_per_file : Z) (output_dir : string) : M Z :=
  let num_trace_objects := Z.max 1 (spans_per_file / spans_per_object) in
  '(lines, actual_spans) ←
     for_each (py_range num_trace_objects)
       (fun _ '(lines, actual_spans) =>
          trace_data ← generate_trace_data spans_per_object;
          mret (lines ++ [dumps float_repr None trace_data],
                (actual_spans + spans_per_object)%Z))
       ([], 0%Z);
  let filename := trace_path output_dir file_num in
  _ ← OS.write_text filename (join nl lines +:+ nl);
  mret actual_spans.

Definition output_dir : string := "../build/OTelTraces".

(** [main] *)
Definition main (argv : list string) : M unit :=
  num_files ← arg_or argv 1 py_int 10%Z;
  spans_per_file ← arg_or argv 2 py_int 100%Z;
  _ ← OS.makedirs_exist_ok output_dir;
  _ ← print ("Generating " +:+ str_int num_files +:+ " trace files with ~"
               +:+ str_int spans_per_file +:+ " spans each...");
  _ ← print ("Total spans: ~" +:+ str_int (num_files * spans_per_file));
  _ ← print ("Output directory: " +:+ output_dir);
  _ ← print "";
  start_time ← time_time;
  total_spans ←
    for_each (py_range num_files)
      (fun file_num total_spans =>
         spans ← generate_trace_file file_num spans_per_file output_dir;
         let total_spans := (total_spans + spans)%Z in
         _ ← (if ((file_num + 1) mod 5 =? 0)%Z then
                print ("  Generated " +:+ str_int (file_num + 1) +:+ "/"
                         +:+ str_int num_files +:+ " files...")
              else mret tt);
         mret total_spans)
      0%Z;
  now ← time_time;
  let elapsed := (now - start_time)%Q in
  _ ← print "";
  _ ← print ("Done! Generated " +:+ str_int num_files +:+ " files in "
               +:+ fmt_f 2 elapsed +:+ "s");
  _ ← print ("Total spans: " +:+ str_int total_spans);
  names ← OS.listdir output_dir;
  let actual_files := List.filter (ends_with ".jsonl") names in
  _ ← print ("Files in output directory: " +:+ str_int (Z.of_nat (length actual_files)));
  _ ← print "";
  print "Files will be picked up by upload-traces handler automatically.".

End WithRepr.

(** *** Reading a trace file back *)

(** The lines of a text that ends with a newline. *)
Definition file_lines (content : string) : list string :=
  removelast (split_nl content).

(** [doc["resourceSpans"][0]["scopeSpans"][0]["spans"]] *)
Definition spans_of (doc : json) : option json :=
  rs ← get_key "resourceSpans" doc;
  r0 ← get_index 0 rs;
  ss ← get_key "scopeSpans" r0;
  s0 ← get_index 0 ss;
  get_key "spans" s0.

(** The number of spans of one line of a trace file (zero when the line does
    not parse or has no span list), and of a whole file. *)
Definition line_spans (line : string) : nat :=
  match loads line ≫= spans_of with
  | Some (JArr spans) => length spans
  | _ => 0
  end.

Definition count_spans (content : string) : nat :=
  fold_right (fun line acc => line_spans line + acc) 0 (file_lines content).

End Trace.

(** ** generate_results_file.py *)

Module Results.
Import Json.

Section WithLibrary.

(** [float.__repr__] on a finite float (see the json module). *)
Variable float_repr : Q -> string.

(** What [time.strftime] with the format of the script makes of a clock
    reading: the local date and time, which depend on the time zone. *)
Variable strftime : Q -> string.

(** [generate_log_content] *)
Definition generate_log_content (test_name : string) (num_lines : Z) (failed : bool)
  : M string :=
  let lines := [] in
  let lines := lines ++ ["=== Starting test: " +:+ test_name +:+ " ==="] in
  now ← time_time;
  let lines := lines ++ ["Test configuration loaded at " +:+ strftime now] in
  lines ←
    for_each (py_range (num_lines - 4))
      (fun i lines =>
         if failed && (i =? num_lines - 6)%Z then
           l ← Random.randint 50 200;
           let lines := lines ++ ["ERROR: Assertion failed at line " +:+ str_int l] in
           e ← Random.randint 1 100;
           let lines := lines ++ ["  Expected: " +:+ str_int e] in
           a ← Random.randint 1 100;
           mret (lines ++ ["  Actual: " +:+ str_int a])
         else
           log_type ← Random.choice ["INFO"; "DEBUG"; "TRACE"];
           mret (lines ++ ["[" +:+ log_type +:+ "] Processing step " +:+ str_int (i + 1)
                             +:+ ": operation completed successfully"]))
      lines;
  let status := if failed then "FAILED" else "PASSED" in
  let lines := lines ++ ["=== Test " +:+ test_name +:+ " " +:+ status +:+ " ==="] in
  mret (join nl lines).

(** [generate_test_result]; the times are binary64 floats, and each sum and
    product rounds as the hardware does. *)
Definition generate_test_result (test_num : Z) (failure_rate : pyfloat) (log_lines : Z)
  : M json :=
  let module_name := "module_" +:+ fmt_0d 3 (test_num / 100) in
  let test_name := "test_" +:+ module_name +:+ ".Test" +:+ title module_name
                     +:+ "Suite.test_case_" +:+ fmt_0d 5 test_num in
  r ← Random.random;
  let should_fail := lt_float r failure_rate in
  let status := if should_fail then "fail" else "pass" in
  x ← float_of_int_b64 test_num;
  let start_time := B64.add (Fin 1700000000) (B64.mul x (Fin 0.5)) in
  duration ← Random.uniform_b64 (B64.round 0.1) (Fin 2.0);
  let end_time := B64.add start_time duration in
  log_content ← generate_log_content test_name log_lines should_fail;
  mret (JObj [ ("test_file", JStr test_name);
               ("status", JStr status);
               ("start", JFloat start_time);
               ("end", JFloat end_time);
               ("log_raw", JStr log_content) ]).

Definition output_file : string := "test_results.json".

(** [main] *)
Definition main (argv : list string) : M unit :=
  num_tests ← arg_or argv 1 py_int 500%Z;
  failure_rate ← arg_or argv 2 py_float (Fin 0.1);
  log_lines ← arg_or argv 3 py_int 20%Z;
  _ ← print ("Generating results file with " +:+ str_int num_tests +:+ " tests...");
  total ← float_of_int num_tests;
  expected ← int_of_float (fmul total failure_rate);
  _ ← print ("Expected failures: ~" +:+ str_int expected);
  _ ← print ("Log lines per test: " +:+ str_int log_lines);
  _ ← print "";
  start_time ← time_time;
  '(results, num_failures) ←
    for_each (py_range num_tests)
      (fun test_num '(results, num_failures) =>
         result ← generate_test_result test_num failure_rate log_lines;
         let results := results ++ [result] in
         status ← of_option KeyError (get_key "status" result);
         let num_failures :=
           if is_str "fail" status then (num_failures + 1)%Z else num_failures in
         _ ← (if ((test_num + 1) mod 100 =? 0)%Z then
                print ("  Generated " +:+ str_int (test_num + 1) +:+ "/"
                         +:+ str_int num_tests +:+ " results...")
              else mret tt);
         mret (results, num_failures))
      ([], 0%Z);
  let output := JObj [("results", JArr results)] in
  _ ← OS.write_text output_file (dumps float_repr (Some 2) output);
  now ← time_time;
  let elapsed := (now - start_time)%Q in
  let file_size :=
    (inject_Z (Z.of_nat (String.length (dumps float_repr None output))) / 1024 / 1024)%Q in
  _ ← print "";
  _ ← print ("Done! Generated " +:+ str_int num_tests +:+ " test results in "
               +:+ fmt_f 2 elapsed +:+ "s");
  _ ← print ("Total failures: " +:+ str_int num_failures);
  _ ← print ("Output file: " +:+ output_file +:+ " (" +:+ fmt_f 2 file_size +:+ " MB)");
  _ ← print "";
  print "File will be picked up by attach.results in post section.".

End WithLibrary.

End Results.

(** ** generate_test_results.py *)

Module TestResults.
Import Json.

(** [d.get(key, default)]; only a dict has the method. *)
Definition py_get (v : json) (key : string) (default : json) : M json :=
  match v with
  | JObj d => mret (match dict_get key d with Some x => x | None => default end)
  | _ => raise AttributeError
  end.

(** The items [for x in v] goes through: those of a list, the keys of a
    dict, the characters of a string; nothing else can be iterated. *)
Definition py_iter (v : json) : M (list json) :=
  match v with
  | JArr items => mret items
  | JObj d => mret (map (fun kv => JStr (fst kv)) d)
  | JStr s => mret (map (fun c => JStr (String c "")) (list_ascii_of_string s))
  | _ => raise TypeError
  end.

(** [v[key]] for a string key. *)
Definition py_getitem (v : json) (key : string) : M json :=
  match v with
  | JObj d => of_option KeyError (dict_get key d)
  | _ => raise TypeError
  end.

Definition output_file : string := "test_selection_results.json".

Section WithRepr.
Variable float_repr : Q -> string.

(** [main] *)
Definition main (argv : list string) : M unit :=
  _ ← (if (length argv <? 2)%nat then
         _ ← print "Usage: generate_test_results.py <test_file>";
         sys_exit 1
       else mret tt);
  recommended_test_file ← of_option IndexError (nth_error argv 1);
  text ← OS.read_text recommended_test_file;
  recommended_tests ← of_option JSONDecodeError (loads text);
  tests ← py_get recommended_tests "tests" (JArr []);
  items ← py_iter tests;
  names ← for_each items
             (fun test names => name ← py_getitem test "name"; mret (names ++ [name]))
             [];
  results ←
    for_each names
      (fun name results =>
         now ← time_time;
         let curr_time := trunc now in
         mret (results ++ [JObj [ ("status", JStr "pass");
                                  ("test_file", name);
                                  ("start", JInt curr_time);
                                  ("end", JInt curr_time) ]]))
      [];
  let result_data := JObj [("results", JArr results)] in
  OS.write_text output_file (dumps float_repr (Some 4) result_data).

End WithRepr.

(** The input of the end-to-end scenario, without blanks; the names are the
    strings A and B. *)
Definition sample_input : string :=
  "{" +:+ dq +:+ "tests" +:+ dq +:+ ":[{" +:+ dq +:+ "name" +:+ dq +:+ ":" +:+ dq +:+ "A"
      +:+ dq +:+ "},{" +:+ dq +:+ "name" +:+ dq +:+ ":" +:+ dq +:+ "B" +:+ dq +:+ "}]}".

End TestResults.

(** ** Sample worlds *)

(** A world whose generator gives [draws] and then zeros, whose clock gives
    [times] and then zero, with the given directories and files. *)
Definition world_of (draws : list N) (times : list Q) (ds : list string)
    (fs : list (string * string)) : world :=
  mkWorld (fun n => nth n draws 0%N) 0 (fun n => nth n times 0%Q) 0
          (list_to_set ds) (list_to_map fs) [].

(** * What the theorems speak of *)

(** Writing [content] to [path], then returning [r]: how every assembler
    ends. *)
Definition then_write {A} (path content : string) (r : A) : M A :=
  _ ← OS.write_text path content; mret r.

(** ** Characters and texts *)

Module PyStrSpec.

(** Neither a digit, a letter, a minus sign nor a dot. *)
Definition name_safe (c : ascii) : bool :=
  negb (is_digit c || is_lower c || is_upper c || Ascii.eqb c "-" || Ascii.eqb c ".").

Definition is_letter (c : ascii) : bool := is_lower c || is_upper c.

End PyStrSpec.

(** ** The text of a .suite file *)

Module GoTestSpec.
Import GoTest.

(** A line that is neither a report line nor holds a newline. *)
Definition plain_line (l : string) : Prop := no_nl l = true /\ is_result_line l = false.

(** The text of a .suite file: [tests] report lines, [failures] of them
    failures, and the matching summary line. *)
Definition suite_text (tests : nat) (failures : Z) (content : string) : Prop :=
  failures = Z.of_nat (count_lines is_fail_line content) /\
  count_lines is_result_line content = tests /\
  summary_line content = (if (0 <? failures)%Z then "FAIL" else "PASS").

End GoTestSpec.

(** ** The text of an XML report *)

Module XUnitSpec.
Import XUnit.

(** The text of a start tag after its name: attributes, then [post]. *)
Fixpoint attrs_str (attrs : list (string * string)) (post : string) : string :=
  match attrs with
  | [] => post
  | (n, v) :: r => attr n v +:+ attrs_str r post
  end.

(** The pieces between the quotes of such a text. *)
Fixpoint attrs_parts (pre : string) (attrs : list (string * string)) (post : string)
  : list string :=
  match attrs with
  | [] => [pre +:+ post]
  | (n, v) :: r => (pre +:+ " " +:+ n +:+ "=") :: v :: attrs_parts "" r post
  end.

Definition quote_free (s : string) : Prop := avoids "034" s = true.

Definition classname_of (module_name : string) : string :=
  "test_" +:+ module_name +:+ ".Test" +:+ title module_name +:+ "Suite".

Definition casename_of (module_name : string) (test_num : Z) : string :=
  "test_" +:+ module_name +:+ "_case_" +:+ fmt_0d 4 test_num.

(** [case_of m xml d failed]: [xml] is the snippet of some test of module [m]
    that took [d] seconds and failed or not. *)
Inductive case_of (m : string) : string -> Q -> bool -> Prop :=
  | case_pass test_num d :
      case_of m (TESTCASE_PASS_TEMPLATE (classname_of m) (casename_of m test_num) d) d false
  | case_fail test_num d line expected actual :
      case_of m (TESTCASE_FAIL_TEMPLATE (classname_of m) (casename_of m test_num) d m
                   line expected actual) d true.

(** A module name that holds neither a newline nor a quote. *)
Definition clean (s : string) : Prop := no_nl s = true /\ quote_free s.

(** The record of one generated case: snippet, duration, failed or not. *)
Definition Case : Type := string * Q * bool.

Definition xml_of (r : Case) : string := r.1.1.

Definition dur_of (r : Case) : Q := r.1.2.

Definition failed_of (r : Case) : bool := r.2.

Definition cases_ok (m : string) (recs : list Case) : Prop :=
  Forall (fun r => case_of m (xml_of r) (dur_of r) (failed_of r) /\ (0 <= dur_of r)%Q) recs.

Definition xml_decl : string :=
  "<?xml" +:+ attr "version" "1.0" +:+ attr "encoding" "UTF-8" +:+ "?>".

Definition suite_tag (suite_name : string) (num_tests num_failures : Z) (total_time : Q)
  : string :=
  "<testsuite" +:+ attr "name" suite_name +:+ attr "tests" (str_int num_tests)
    +:+ attr "failures" (str_int num_failures) +:+ attr "errors" "0"
    +:+ attr "time" (fmt_f 3 total_time) +:+ ">".


(** The text of the XML file for the cases [recs] of module [m]. *)
Definition xunit_text (m : string) (tests_per_file : Z) (recs : list Case) : string :=
  XUNIT_TEMPLATE (classname_of m) tests_per_file (Z.of_nat (count_if failed_of recs))
    (Qsum (map dur_of recs)) (join nl (map xml_of recs)).

End XUnitSpec.

(** ** JSON documents and their text *)

Module JsonSpec.
Import Json.

(** How much fuel the parser needs for a document. *)
Fixpoint weight (v : json) : nat :=
  match v with
  | JArr items => S (fold_right (fun x acc => S (weight x + acc)) 0 items)
  | JObj members => S (fold_right (fun kv acc => S (weight (snd kv) + acc)) 0 members)
  | _ => 1
  end.

(** A document with no float in it and no key twice in one object. *)
Fixpoint plain (v : json) : Prop :=
  match v with
  | JFloat _ => False
  | JArr items => fold_right (fun x acc => plain x /\ acc) True items
  | JObj members =>
      NoDup (map fst members) /\ fold_right (fun kv acc => plain (snd kv) /\ acc) True members
  | _ => True
  end.

(** What may follow a value: nothing, a comma, a closing bracket or a blank. *)
Definition delim (s : string) : bool :=
  match s with
  | "" => true
  | String c _ =>
      Ascii.eqb c "," || Ascii.eqb c "]" || Ascii.eqb c "}" || is_ws c
  end.

Definition all_ws (s : string) : bool := str_forall is_ws s.

(** No digit at the head of [s]. *)
Definition no_digit_head (s : string) : bool :=
  match s with
  | "" => true
  | String c _ => negb (is_digit c)
  end.

(** The first character of an encoded value starts a value. *)
Definition value_head (c : ascii) : Prop :=
  is_ws c = false /\ Ascii.eqb c "]" = false /\ Ascii.eqb c "}" = false.

Definition atom_head (c : ascii) : Prop :=
  Ascii.eqb c "034" = false /\ Ascii.eqb c "{" = false /\ Ascii.eqb c "[" = false.

Definition items_weight (items : list json) : nat :=
  fold_right (fun x acc => S (weight x + acc)) 0 items.

Definition members_weight (members : list (string * json)) : nat :=
  fold_right (fun kv acc => S (weight (snd kv) + acc)) 0 members.

Section Encoded.
Variable float_repr : Q -> string.
Variable indent : option nat.

(** The blanks between a comma and the next item. *)
Definition gap (level : nat) : string :=
  match indent with
  | None => " "
  | Some _ => newline_indent indent level
  end.

(** [reads_back v]: the text of [v], whatever follows it, parses to [v]. *)
Definition reads_back (v : json) : Prop :=
  forall level fuel rest,
    weight v <= fuel -> delim rest = true ->
    parse_value fuel (encode float_repr indent level v +:+ rest) = Some (v, rest).

(** The text of one member of an object. *)
Definition member_text (level : nat) (kv : string * json) : string :=
  encode_string (fst kv) +:+ ": " +:+ encode float_repr indent (S level) (snd kv).

End Encoded.

End JsonSpec.

(** ** The text of a trace file *)

Module TraceSpec.
Import Json JsonSpec Trace.

(** A trace object whose span list has [n] entries. *)
Definition trace_doc (n : nat) (doc : json) : Prop :=
  plain doc /\ exists spans, spans_of doc = Some (JArr spans) /\ length spans = n.

(** The text of a trace file: the dumps of its objects, a newline after
    each. *)
Definition trace_text (float_repr : Q -> string) (docs : list json) : string :=
  join nl (map (dumps float_repr None) docs) +:+ nl.

End TraceSpec.

(** ** What a run does to the file system *)

(** The file system is the same in both worlds. *)
Definition same_fs (w w' : world) : Prop := dirs w' = dirs w /\ files w' = files w.

(** [path] can be written in [w]. *)
Definition can_write (w : world) (path : string) : bool :=
  negb (OS.is_dir w path) && OS.is_dir w (OS.dirname path).

(** The directory [p] is there in [w], or nothing else has its name. *)
Definition can_make (w : world) (p : string) : bool :=
  OS.is_dir w p || negb (OS.is_file w p).

(** From [w] to [w'] the files at [paths] were written (they exist in [w']),
    and nothing else of the file system changed. *)
Definition wrote (paths : list string) (w w' : world) : Prop :=
  dirs w' = dirs w /\
  (forall p, In p paths -> is_Some (files w' !! p)) /\
  (forall p, ~ In p paths -> files w' !! p = files w !! p).

(** [int(n * rate)] can be computed: the rate is finite and nothing
    overflows the range of floats. *)
Definition expected_ok (n : Z) (rate : pyfloat) : bool :=
  match rate with
  | Fin q =>
      negb (Qle_bool float_overflow (Qabs (inject_Z n)))
      && negb (Qle_bool float_overflow (Qabs (inject_Z n * q)))
  | _ => false
  end.





(** ** The generators of numbered files *)

Inductive generator : Type := GoTestFiles | XUnitFiles | TraceFiles.

(** The driver of a generator. *)
Definition run_main (float_repr : Q -> string) (g : generator) (argv : list string)
  : M unit :=
  match g with
  | GoTestFiles => GoTest.main argv
  | XUnitFiles => XUnit.main argv
  | TraceFiles => Trace.main float_repr argv
  end.

(** The path of the [k]-th file of a generator, as its driver passes the
    directory. *)
Definition output_name (g : generator) (k : Z) : string :=
  match g with
  | GoTestFiles => GoTest.suite_path "." k
  | XUnitFiles => XUnit.xunit_path "." k
  | TraceFiles => Trace.trace_path Trace.output_dir k
  end.

Definition output_names (g : generator) (num_files : Z) : list string :=
  map (output_name g) (py_range num_files).

(** The directories a generator makes. *)
Definition made_dirs (g : generator) : gset string :=
  match g with
  | TraceFiles => {[Trace.output_dir]} ∪ {["../build"]}
  | _ => ∅
  end.

(** The arguments are read without a fault, and ask for [num_files] files. *)
Definition accepts (g : generator) (argv : list string) (num_files : Z) : Prop :=
  match g with
  | GoTestFiles =>
      exists tests_per_file rate,
        arg_or argv 1 py_int 10%Z = mret num_files /\
        arg_or argv 2 py_int 100%Z = mret tests_per_file /\
        arg_or argv 3 py_float (Fin 0.1) = mret rate /\
        expected_ok (num_files * tests_per_file) rate = true
  | XUnitFiles =>
      exists tests_per_file rate,
        arg_or argv 1 py_int 100%Z = mret num_files /\
        arg_or argv 2 py_int 50%Z = mret tests_per_file /\
        arg_or argv 3 py_float (Fin 0.1) = mret rate /\
        expected_ok (num_files * tests_per_file) rate = true
  | TraceFiles =>
      exists spans_per_file,
        arg_or argv 1 py_int 10%Z = mret num_files /\
        arg_or argv 2 py_int 100%Z = mret spans_per_file
  end.

(** The file system lets the generator write its [num_files] files. *)
Definition ready (g : generator) (num_files : Z) (w : world) : Prop :=
  match g with
  | TraceFiles =>
      can_make w "../build" = true /\ can_make w Trace.output_dir = true /\
      Forall (fun p => OS.is_dir w p = false) (output_names g num_files)
  | _ => Forall (fun p => can_write w p = true) (output_names g num_files)
  end.

(** From [w] to [w'] the generator made its directories and wrote its
    [num_files] files, and nothing else of the file system changed. *)
Definition generated (g : generator) (num_files : Z) (w w' : world) : Prop :=
  dirs w' = made_dirs g ∪ dirs w /\
  (forall p, In p (output_names g num_files) -> is_Some (files w' !! p)) /\
  (forall p, ~ In p (output_names g num_files) -> files w' !! p = files w !! p).

(** A world with nothing in it: no directory but the ones that always exist,
    no file, a generator and a clock that give zeros. *)
Definition empty_world : world := world_of [] [] [] [].

(** ** The records of generate_results_file.py *)

(** The number the [k]-th next call of [random.random()] returns in [w]. *)
Definition next_random (w : world) (k : nat) : Q :=
  (Z.of_N (rand w (rand_pos w + k) mod 2 ^ 53) # 2 ^ 53)%Q.

(** The start time of the test with number [test_num]:
    [1700000000.0 + test_num * 0.5] in binary64. *)
Definition result_start (test_num : Z) : pyfloat :=
  B64.add (Fin 1700000000) (B64.mul (B64.round (inject_Z test_num)) (Fin 0.5)).

(** The duration [random.uniform(0.1, 2.0)] makes of the draw [r]:
    [0.1 + (2.0 - 0.1) * r] in binary64. *)
Definition result_duration (r : Q) : pyfloat :=
  B64.add (B64.round 0.1) (B64.mul (B64.sub (Fin 2.0) (B64.round 0.1)) (Fin r)).

(** A record with a start and an end that are finite floats, the end after
    the start. *)
Definition record_ok (r : Json.json) : Prop :=
  exists s e : Q,
    Json.get_key "start" r = Some (Json.JFloat (Fin s)) /\
    Json.get_key "end" r = Some (Json.JFloat (Fin e)) /\
    (s < e)%Q.

(** A record whose end is not after its start. *)
Definition record_stalled (r : Json.json) : Prop :=
  exists s e : Q,
    Json.get_key "start" r = Some (Json.JFloat (Fin s)) /\
    Json.get_key "end" r = Some (Json.JFloat (Fin e)) /\
    (e == s)%Q.


(** ** The entries of generate_test_results.py *)

(** An entry that passed, with one time for its start and its end. *)
Definition passed_at_once (e : Json.json) : Prop :=
  Json.get_key "status" e = Some (Json.JStr "pass") /\
  exists t, Json.get_key "start" e = Some t /\ Json.get_key "end" e = Some t.

(** ** The five scripts and how they end *)

Inductive script : Type :=
  GoTestScript | XUnitScript | TraceScript | ResultsScript | TestResultsScript.

(** What [main()] of a script leaves: the outcome, and the world. *)
Definition script_main (float_repr strftime : Q -> string) (s : script)
    (argv : list string) : M unit :=
  match s with
  | GoTestScript => GoTest.main argv
  | XUnitScript => XUnit.main argv
  | TraceScript => Trace.main float_repr argv
  | ResultsScript => Results.main float_repr strftime argv
  | TestResultsScript => TestResults.main float_repr argv
  end.

Definition outcome (float_repr strftime : Q -> string) (s : script)
    (argv : list string) (w : world) : result unit :=
  fst (script_main float_repr strftime s argv w).

(** The arguments a script converts when they are given, by position. *)
Inductive arg_kind : Type := IntArg | FloatArg.

Definition optional_args (s : script) : list (nat * arg_kind) :=
  match s with
  | GoTestScript | XUnitScript => [(1, IntArg); (2, IntArg); (3, FloatArg)]
  | TraceScript => [(1, IntArg); (2, IntArg)]
  | ResultsScript => [(1, IntArg); (2, FloatArg); (3, IntArg)]
  | TestResultsScript => []
  end%nat.

Definition parses (k : arg_kind) (str : string) : bool :=
  match k with
  | IntArg => bool_decide (is_Some (PyNum.int_of_str str))
  | FloatArg => bool_decide (is_Some (PyNum.float_of_str str))
  end.

Definition is_ascii (c : ascii) : bool := (nat_of_ascii c <? 128)%nat.

(** One of the arguments given is an ASCII text that is not a number of its
    kind. *)
Definition bad_argument (s : script) (argv : list string) : Prop :=
  exists i k str, In (i, k) (optional_args s) /\ nth_error argv i = Some str /\
                  str_forall is_ascii str = true /\ parses k str = false.

(** The computation never raises [SystemExit]. *)
Definition no_exit {A : Type} (c : M A) : Prop :=
  forall w code, fst (c w) <> Raise (SystemExit code).

Definition usage : string := "Usage: generate_test_results.py <test_file>".

(** The values a script takes for the arguments that are not given, as the
    command line would spell them. *)
Definition default_args (s : script) : list string :=
  match s with
  | GoTestScript => ["10"; "100"; "0.1"]
  | XUnitScript => ["100"; "50"; "0.1"]
  | TraceScript => ["10"; "100"]
  | ResultsScript => ["500"; "0.1"; "20"]
  | TestResultsScript => []
  end.

(** ** Failure rates *)

(** No draw of [random.random()] is under the rate: the rate is zero or
    less, or no number. *)
Definition never_below (rate : pyfloat) : Prop :=
  match rate with
  | Fin q => (q <= 0)%Q
  | PosInf => False
  | NegInf | NaN => True
  end.

(** Every draw of [random.random()] is under the rate: the rate is one or
    more. *)
Definition always_below (rate : pyfloat) : Prop :=
  match rate with
  | Fin q => (1 <= q)%Q
  | PosInf => True
  | NegInf | NaN => False
  end.

(** ** The lines of generate_gotest_files.py *)

(** The name [generate_test_output] gives a test. *)
Definition go_test_name (module_name : string) (test_num : Z) : string :=
  "Test" +:+ title module_name +:+ "_Case" +:+ fmt_0d 4 test_num.

(** The line that ends the output of a test. *)
Definition go_result_line (status name : string) (duration : Q) : string :=
  "--- " +:+ status +:+ ": " +:+ name +:+ " (" +:+ fmt_f 3 duration +:+ "s)".

(** The line that ends a .suite file. *)
Definition go_ok_line (file_num : Z) (t : Q) : string :=
  "ok  " +:+ tab +:+ "github.com/test/" +:+ ("module_" +:+ fmt_0d 4 file_num) +:+ tab
    +:+ fmt_f 3 t +:+ "s".

(** ** The spans of generate_trace_files.py *)

(** A digit or one of the letters a to f. *)
Definition is_hex_digit (c : ascii) : bool :=
  is_digit c || ((97 <=? nat_of_ascii c)%nat && (nat_of_ascii c <=? 102)%nat).

(** A text of [n] hex digits. *)
Definition hex_id (n : nat) (s : string) : Prop :=
  String.length s = n /\ str_forall is_hex_digit s = true.

(** The span with number [i] of the trace [trace_id] that starts at
    [base]: its trace, its name, and its start, a millisecond after the one
    before it. *)
Definition span_numbered (trace_id : string) (base : Z) (i : nat) (span : Json.json)
  : Prop :=
  Json.get_key "traceId" span = Some (Json.JStr trace_id) /\
  Json.get_key "name" span
  = Some (Json.JStr ("operation_" +:+ fmt_0d 4 (Z.of_nat i))) /\
  Json.get_key "startTimeUnixNano" span
  = Some (Json.JStr (str_int (base + Z.of_nat i * 1000000))).

(** The parent of [span] is the empty id, or the id of one of the spans
    [earlier]. *)
Definition parent_known (earlier : list Json.json) (span : Json.json) : Prop :=
  Json.get_key "parentSpanId" span = Some (Json.JStr "") \/
  exists p id, In p earlier /\ Json.get_key "spanId" p = Some (Json.JStr id) /\
               Json.get_key "parentSpanId" span = Some (Json.JStr id).

(** ** The logs and records of generate_results_file.py *)

(** The name [generate_test_result] gives the test with number [test_num]. *)
Definition result_test_name (test_num : Z) : string :=
  let module_name := "module_" +:+ fmt_0d 3 (test_num / 100) in
  "test_" +:+ module_name +:+ ".Test" +:+ title module_name
    +:+ "Suite.test_case_" +:+ fmt_0d 5 test_num.

(** The number of lines of a log asked for with [num_lines] lines: two at
    the head, one for each step, two more where the failure is reported, one
    at the end. *)
Definition log_length (num_lines : Z) (failed : bool) : Z :=
  3 + Z.max 0 (num_lines - 4) + (if failed && (6 <=? num_lines)%Z then 2 else 0).

(** The line that reports a failure in a log. *)
Definition is_error_line (l : string) : bool := starts_with "ERROR: " l.

(** [r["status"] == "fail"] *)
Definition is_failed_record (r : Json.json) : bool :=
  match Json.get_key "status" r with
  | Some status => Json.is_str "fail" status
  | None => false
  end.

(** ** The documents of generate_test_results.py *)

(** The entry the script writes for a test: always a pass, with one time
    for its start and its end. *)
Definition selection_entry (name : Json.json) (t : Z) : Json.json :=
  Json.JObj [ ("status", Json.JStr "pass"); ("test_file", name);
              ("start", Json.JInt t); ("end", Json.JInt t) ].

(** [tests] are objects whose names are [names], in order. *)
Definition named_tests (tests names : list Json.json) : Prop :=
  Forall2 (fun test name => Json.get_key "name" test = Some name) tests names.

(** What [recommended_tests.get("tests", [])] gives for an object. *)
Definition tests_of (doc : Json.json) : option Json.json :=
  match doc with
  | Json.JObj d => Some (match Json.dict_get "tests" d with
                         | Some x => x
                         | None => Json.JArr []
                         end)
  | _ => None
  end.

(** What the [n] next calls of [int(time.time())] return in [w]. *)
Definition next_times (w : world) (n : nat) : list Z :=
  map (fun k => trunc (clock w (clock_pos w + k))) (seq 0 n).



(** ** What the drivers print *)

(** The lines of progress of a driver that reports after every [every]
    items of [n], each ending with [what]. *)
Definition progress_lines (every n : Z) (what : string) : list string :=
  map (fun k => "  Generated " +:+ str_int (k + 1) +:+ "/" +:+ str_int n +:+ what)
      (List.filter (fun k => ((k + 1) mod every =? 0)%Z) (py_range n)).

(** From [w] to [w'] the directories stayed and the lines [ls] were
    printed. *)
Definition printed (w w' : world) (ls : list string) : Prop :=
  dirs w' = dirs w /\ stdout w' = stdout w ++ ls.

(** [line] is the line that reports test [k] of the module. *)
Definition reports_test (module_name : string) (k : Z) (line : string) : Prop :=
  exists (status : string) (d : Q),
    (status = "PASS" \/ status = "FAIL") /\ (0.001 <= d)%Q /\ (d <= 0.5)%Q /\
    line = go_result_line status (go_test_name module_name k) d.

(** ** The test cases of generate_xunit_files.py *)

(** [xml] is the snippet of the test case with number [k] of module [m]. *)
Definition case_numbered (m : string) (k : Z) (xml : string) : Prop :=
  (exists d : Q,
     xml = XUnit.TESTCASE_PASS_TEMPLATE (XUnitSpec.classname_of m)
             (XUnitSpec.casename_of m k) d) \/
  (exists (d : Q) (line e a : Z),
     xml = XUnit.TESTCASE_FAIL_TEMPLATE (XUnitSpec.classname_of m)
             (XUnitSpec.casename_of m k) d m line e a).

(** The name attributes of the testcase elements of a file, in order. *)
Definition testcase_names (content : string) : list (option string) :=
  map (XUnit.xml_attr "name") (List.filter XUnit.is_testcase_open (split_nl content)).

(** * Facts about strings and lines *)

Module PyStrFacts.
Import PyStrSpec.

(** [String.append] is never unfolded by [simpl]; these two equations do it. *)
Lemma app_cons (x : ascii) (s t : string) : String x s +:+ t = String x (s +:+ t).
Proof. reflexivity. Qed.

Lemma app_nil_l (t : string) : "" +:+ t = t.
Proof. reflexivity. Qed.

Lemma app_nil_r (s : string) : s +:+ "" = s.
Proof. induction s as [|a s IH]; [reflexivity | now rewrite app_cons, IH]. Qed.

Lemma app_assoc (a b c : string) : (a +:+ b) +:+ c = a +:+ (b +:+ c).
Proof. induction a as [|x a IH]; [reflexivity | now rewrite !app_cons, IH]. Qed.

Lemma str_forall_app P (a b : string) :
  str_forall P (a +:+ b) = str_forall P a && str_forall P b.
Proof.
  induction a as [|x a IH]; [reflexivity |].
  rewrite app_cons. simpl. rewrite IH. now rewrite andb_assoc.
Qed.

Lemma str_forall_impl (P Q : ascii -> bool) s :
  (forall c, P c = true -> Q c = true) -> str_forall P s = true -> str_forall Q s = true.
Proof.
  intros HPQ. induction s as [|x s IH]; simpl; [easy |].
  rewrite !andb_true_iff. intros [H1 H2]. split; auto.
Qed.

Lemma split_on_nonempty c s : split_on c s <> [].
Proof.
  destruct s as [|a s]; simpl; [easy |].
  destruct (Ascii.eqb a c); [easy |]. now destruct (split_on c s).
Qed.

Lemma split_on_app_sep c a b :
  split_on c (a +:+ String c b) = split_on c a ++ split_on c b.
Proof.
  induction a as [|x a IH]; rewrite ?app_cons, ?app_nil_l; simpl.
  - now rewrite Ascii.eqb_refl.
  - destruct (Ascii.eqb x c); [now rewrite IH |].
    rewrite IH. pose proof (split_on_nonempty c a) as Hne.
    now destruct (split_on c a).
Qed.

Lemma split_on_no_sep c s :
  str_forall (fun a => negb (Ascii.eqb a c)) s = true -> split_on c s = [s].
Proof.
  induction s as [|x s IH]; simpl; [easy |].
  rewrite andb_true_iff. intros [Hx Hs].
  apply negb_true_iff in Hx. rewrite Hx, (IH Hs). reflexivity.
Qed.

Lemma split_nl_no_nl s : no_nl s = true -> split_nl s = [s].
Proof. apply split_on_no_sep. Qed.

Lemma join_cons2 sep x y l : join sep (x :: y :: l) = x +:+ sep +:+ join sep (y :: l).
Proof. reflexivity. Qed.

Lemma split_nl_app_nl a b : split_nl (a +:+ nl +:+ b) = split_nl a ++ split_nl b.
Proof. apply split_on_app_sep. Qed.

(** Splitting a text that was joined with newlines gives back the lines of
    its pieces, in order. *)
Lemma split_nl_join (xs : list string) :
  xs <> [] -> split_nl (join nl xs) = concat (map split_nl xs).
Proof.
  induction xs as [|x xs IH]; [easy | intros _].
  destruct xs as [|y xs].
  - simpl. now rewrite List.app_nil_r.
  - rewrite join_cons2, split_nl_app_nl, IH by easy. reflexivity.
Qed.

Lemma split_nl_join_lines (ls : list string) :
  ls <> [] -> Forall (fun l => no_nl l = true) ls -> split_nl (join nl ls) = ls.
Proof.
  intros Hne Hall. rewrite split_nl_join by exact Hne.
  clear Hne. induction Hall as [|l ls Hl _ IH]; [reflexivity |].
  simpl. rewrite (split_nl_no_nl l Hl), IH. reflexivity.
Qed.

Lemma count_if_app {A} (P : A -> bool) l1 l2 :
  count_if P (l1 ++ l2) = count_if P l1 + count_if P l2.
Proof. induction l1 as [|x l1 IH]; simpl; [reflexivity | rewrite IH; lia]. Qed.

Lemma count_if_none {A} (P : A -> bool) l :
  Forall (fun x => P x = false) l -> count_if P l = 0.
Proof. induction 1 as [|x l Hx _ IH]; simpl; [reflexivity | now rewrite Hx, IH]. Qed.

(** *** Characters that formatted numbers and names never hold *)

Lemma avoids_app c a b : avoids c (a +:+ b) = avoids c a && avoids c b.
Proof. apply str_forall_app. Qed.

Lemma string_of_uint_digits' d : str_forall is_digit (NilEmpty.string_of_uint d) = true.
Proof. induction d; simpl; [reflexivity | exact IHd ..]. Qed.

Lemma string_of_uint_digits d : str_forall is_digit (NilZero.string_of_uint d) = true.
Proof. destruct d; [reflexivity | apply (string_of_uint_digits' (_ d)) ..]. Qed.

Lemma str_N_digits n : str_forall is_digit (str_N n) = true.
Proof. apply string_of_uint_digits. Qed.

Lemma name_safe_not_digit c a : name_safe c = true -> is_digit a = true -> negb (Ascii.eqb a c) = true.
Proof.
  intros Hc Ha. destruct (Ascii.eqb_spec a c) as [-> | _]; [| reflexivity].
  unfold name_safe in Hc. rewrite Ha in Hc. discriminate.
Qed.

Lemma avoids_str_N c n : name_safe c = true -> avoids c (str_N n) = true.
Proof.
  intros Hc. eapply str_forall_impl; [| apply str_N_digits].
  intros a. apply name_safe_not_digit, Hc.
Qed.

Lemma avoids_replicate c n a : Ascii.eqb a c = false -> avoids c (replicate_str n a) = true.
Proof. intros Ha. induction n; [reflexivity |]. unfold avoids in *. simpl. now rewrite Ha. Qed.

Lemma avoids_zfill c w s : name_safe c = true -> avoids c s = true -> avoids c (zfill w s) = true.
Proof.
  intros Hc Hs. unfold zfill. rewrite avoids_app, Hs, avoids_replicate; [reflexivity |].
  apply negb_true_iff, name_safe_not_digit; [exact Hc | reflexivity].
Qed.

Lemma name_safe_minus c : name_safe c = true -> avoids c "-" = true.
Proof. destruct c as [[] [] [] [] [] [] [] []]; vm_compute; congruence. Qed.

Lemma name_safe_dot c : name_safe c = true -> avoids c "." = true.
Proof. destruct c as [[] [] [] [] [] [] [] []]; vm_compute; congruence. Qed.

Lemma avoids_str_int c z : name_safe c = true -> avoids c (str_int z) = true.
Proof.
  intros Hc. unfold str_int.
  destruct (z <? 0)%Z; rewrite ?avoids_app, ?name_safe_minus, avoids_str_N by exact Hc;
    reflexivity.
Qed.

Lemma avoids_fmt_0d c w z : name_safe c = true -> avoids c (fmt_0d w z) = true.
Proof.
  intros Hc. unfold fmt_0d.
  destruct (z <? 0)%Z; rewrite ?avoids_app, ?name_safe_minus by exact Hc;
    rewrite avoids_zfill by (exact Hc || apply avoids_str_N, Hc); reflexivity.
Qed.

Lemma avoids_fmt_f c p q : name_safe c = true -> avoids c (fmt_f p q) = true.
Proof.
  intros Hc. unfold fmt_f. rewrite !avoids_app, avoids_str_N by exact Hc.
  assert (Hsign : avoids c (if Qlt_le_dec q 0 then "-" else "") = true).
  { destruct (Qlt_le_dec q 0); [apply name_safe_minus, Hc | reflexivity]. }
  rewrite Hsign. destruct p; [reflexivity |].
  rewrite avoids_app, name_safe_dot, avoids_zfill
    by (exact Hc || apply avoids_str_N, Hc). reflexivity.
Qed.

Lemma name_safe_not_letter c a :
  name_safe c = true -> is_letter a = true -> Ascii.eqb a c = false.
Proof.
  intros Hc Ha. destruct (Ascii.eqb_spec a c) as [-> | _]; [| reflexivity].
  unfold name_safe in Hc. unfold is_letter in Ha.
  destruct (is_digit c), (is_lower c), (is_upper c); discriminate.
Qed.

(** [title] changes letters only, and into letters. *)
Lemma title_char_letter (b : bool) (a : ascii) :
  let a' := if is_lower a then (if b then a else to_upper a)
            else if is_upper a then (if b then to_lower a else a)
            else a in
  a' = a \/ (is_letter a = true /\ is_letter a' = true).
Proof.
  destruct a as [[] [] [] [] [] [] [] []]; destruct b;
    (left; reflexivity) || (right; split; reflexivity).
Qed.

Lemma avoids_title_from c b s : name_safe c = true -> avoids c (title_from b s) = avoids c s.
Proof.
  intros Hc. revert b. induction s as [|a s IH]; intros b; [reflexivity |].
  unfold avoids in *. simpl. rewrite IH. f_equal.
  destruct (title_char_letter b a) as [-> | [H1 H2]]; [reflexivity |].
  now rewrite !(name_safe_not_letter c _ Hc).
Qed.

Lemma avoids_title c s : name_safe c = true -> avoids c (title s) = avoids c s.
Proof. apply avoids_title_from. Qed.

(** Rewrites [avoids c] through concatenations, formatted numbers and
    [title], uses the hypotheses at hand, and computes the rest. *)
Ltac avoids_solve :=
  unfold no_nl in *;
  rewrite ?avoids_app;
  rewrite ?avoids_title, ?avoids_fmt_0d, ?avoids_fmt_f, ?avoids_str_int, ?avoids_str_N
    by reflexivity;
  rewrite ?avoids_app;
  repeat match goal with
         | H : avoids ?c ?s = true |- context [avoids ?c ?s] => rewrite H
         end;
  reflexivity.

Lemma no_nl_app a b : no_nl (a +:+ b) = no_nl a && no_nl b.
Proof. apply str_forall_app. Qed.

End PyStrFacts.

(** * Reasoning about scripts *)

Module MFacts.

Lemma returns_ret {A} (a : A) w (Q : A -> world -> Prop) : Q a w -> returns (mret a) w Q.
Proof. intros H. exact H. Qed.

Lemma returns_bind {A B} (c : M A) (f : A -> M B) w (Q : B -> world -> Prop) :
  returns c w (fun a w' => returns (f a) w' Q) -> returns (c ≫= f) w Q.
Proof.
  unfold returns, mbind, M_bind. destruct (c w) as [[a|e] w']; [easy | easy].
Qed.

Lemma returns_mono {A} (c : M A) w (Q Q' : A -> world -> Prop) :
  returns c w Q -> (forall a w', Q a w' -> Q' a w') -> returns c w Q'.
Proof.
  unfold returns. destruct (c w) as [[a|e] w']; [auto | easy].
Qed.

Lemma returns_elim {A} (c : M A) w (Q : A -> world -> Prop) :
  returns c w Q -> exists a w', c w = (Ok a, w') /\ Q a w'.
Proof.
  unfold returns. destruct (c w) as [[a|e] w']; [eauto | easy].
Qed.

Lemma returns_intro {A} (c : M A) w (Q : A -> world -> Prop) a w' :
  c w = (Ok a, w') -> Q a w' -> returns c w Q.
Proof. unfold returns. intros ->. auto. Qed.

Lemma bind_run {A B} (c : M A) (f : A -> M B) w a w1 :
  c w = (Ok a, w1) -> (c ≫= f) w = f a w1.
Proof. intros H. unfold mbind, M_bind. now rewrite H. Qed.

Lemma bind_raise {A B} (c : M A) (f : A -> M B) w e w1 :
  c w = (Raise e, w1) -> (c ≫= f) w = (Raise e, w1).
Proof. intros H. unfold mbind, M_bind. now rewrite H. Qed.

(** A loop keeps an invariant that may mention the items already handled. *)
Lemma returns_for_each {A S} (I : list A -> S -> world -> Prop)
    (xs : list A) (body : A -> S -> M S) (s : S) (w : world) :
  I [] s w ->
  (forall done x rest s w, xs = done ++ x :: rest -> I done s w ->
     returns (body x s) w (fun s' w' => I (done ++ [x]) s' w')) ->
  returns (for_each xs body s) w (fun s' w' => I xs s' w').
Proof.
  intros H0 Hstep.
  enough (Hgen : forall rest done s w, xs = done ++ rest -> I done s w ->
            returns (for_each rest body s) w (fun s' w' => I (done ++ rest) s' w')).
  { apply (Hgen xs [] s w); [reflexivity | exact H0]. }
  clear s w H0. induction rest as [|x rest IH]; intros done s w Hxs HI.
  - simpl. rewrite List.app_nil_r. exact HI.
  - simpl. apply returns_bind.
    eapply returns_mono; [apply (Hstep done x rest s w Hxs HI) |].
    intros s' w' HI'. cbv beta in HI'.
    replace (done ++ x :: rest) with ((done ++ [x]) ++ rest)
      by (rewrite <- List.app_assoc; reflexivity).
    apply IH; [rewrite <- List.app_assoc; exact Hxs | exact HI'].
Qed.

Lemma same_env_refl w : same_env w w.
Proof. repeat split. Qed.

Lemma same_env_trans w1 w2 w3 : same_env w1 w2 -> same_env w2 w3 -> same_env w1 w3.
Proof.
  unfold same_env. intros (?&?&?&?&?) (?&?&?&?&?). repeat split; congruence.
Qed.

Lemma length_py_range n : length (py_range n) = Z.to_nat n.
Proof. unfold py_range. now rewrite length_map, length_seq. Qed.

Lemma py_range_nonneg n x : In x (py_range n) -> (0 <= x < n)%Z.
Proof.
  unfold py_range. rewrite in_map_iff. intros (k & <- & Hk).
  apply in_seq in Hk. lia.
Qed.

(** *** The random module *)

Lemma raw_spec w : returns Random.raw w (fun _ w' => same_env w w').
Proof. unfold returns, Random.raw. repeat split. Qed.

Lemma random_spec w :
  returns Random.random w (fun r w' => same_env w w' /\ (0 <= r)%Q /\ (r < 1)%Q).
Proof.
  unfold Random.random. apply returns_bind.
  eapply returns_mono; [apply raw_spec |]. intros r w' Henv. apply returns_ret.
  split; [exact Henv |].
  assert (Hm : (0 <= Z.of_N (r mod 2 ^ 53) < 2 ^ 53)%Z).
  { pose proof (N.mod_upper_bound r (2 ^ 53)%N ltac:(easy)) as Hlt.
    split; [apply N2Z.is_nonneg |]. apply N2Z.inj_lt in Hlt. exact Hlt. }
  revert Hm. generalize (Z.of_N (r mod 2 ^ 53)). intros z Hz.
  unfold Qle, Qlt. simpl. split; [lia |].
  change (Z.pos (2 ^ 53)) with (2 ^ 53)%Z. lia.
Qed.

Lemma uniform_spec (a b : Q) w :
  (a <= b)%Q ->
  returns (Random.uniform a b) w (fun x w' => same_env w w' /\ (a <= x)%Q /\ (x <= b)%Q).
Proof.
  intros Hab. unfold Random.uniform. apply returns_bind.
  eapply returns_mono; [apply random_spec |]. intros r w' (Henv & Hr0 & Hr1).
  apply returns_ret. split; [exact Henv |]. split; nra.
Qed.

Lemma randint_spec (a b : Z) w :
  (a <= b)%Z ->
  returns (Random.randint a b) w (fun x w' => same_env w w' /\ (a <= x <= b)%Z).
Proof.
  intros Hab. unfold Random.randint.
  destruct (Z.ltb_spec b a) as [Hlt|_]; [lia |].
  apply returns_bind. eapply returns_mono; [apply raw_spec |]. intros r w' Henv.
  apply returns_ret. split; [exact Henv |].
  pose proof (Z.mod_pos_bound (Z.of_N r) (b - a + 1) ltac:(lia)). lia.
Qed.

(** *** Writing a file *)

Lemma is_dir_same_env w w' p : same_env w w' -> OS.is_dir w' p = OS.is_dir w p.
Proof. intros (_ & _ & Hd & _). unfold OS.is_dir. now rewrite Hd. Qed.


(** A path that is no directory is not the empty one. *)
Lemma not_dir_nonempty w path : OS.is_dir w path = false -> String.eqb path "" = false.
Proof.
  intros H. destruct (String.eqb_spec path "") as [->|]; [| reflexivity].
  discriminate H.
Qed.

(** Writing succeeds when the path is not a directory and its directory
    exists; it changes that one file and nothing else. *)
Lemma write_text_ok path content w :
  OS.is_dir w path = false -> OS.is_dir w (OS.dirname path) = true ->
  returns (OS.write_text path content) w
    (fun _ w' => files w' = <[path := content]> (files w) /\ dirs w' = dirs w /\
                 stdout w' = stdout w /\ rand w' = rand w /\ clock w' = clock w).
Proof.
  intros H1 H2. unfold returns, OS.write_text.
  rewrite (not_dir_nonempty _ _ H1), H1, H2. repeat split.
Qed.

Lemma then_write_ok {A} path content (r : A) w :
  OS.is_dir w path = false -> OS.is_dir w (OS.dirname path) = true ->
  returns (then_write path content r) w
    (fun r' w' => r' = r /\ files w' = <[path := content]> (files w) /\ dirs w' = dirs w /\
                  stdout w' = stdout w).
Proof.
  intros H1 H2. unfold then_write. apply returns_bind.
  eapply returns_mono; [apply write_text_ok; assumption |].
  intros _ w' (Hf & Hd & Ho & _). apply returns_ret. auto.
Qed.

(** Writing where the directory is missing raises and changes nothing. *)
Lemma then_write_no_dir {A} path content (r : A) w :
  OS.is_dir w (OS.dirname path) = false ->
  exists e, then_write path content r w = (Raise e, w).
Proof.
  intros H. unfold then_write, mbind, M_bind, OS.write_text. rewrite H.
  destruct (String.eqb path ""); [eauto |].
  destruct (OS.is_dir w path); [eauto |]. destruct (OS.is_file w (OS.dirname path)); eauto.
Qed.





End MFacts.

(** * generate_gotest_files.py: the .suite files *)

Module GoTestFacts.
Import PyStrSpec GoTestSpec PyStrFacts MFacts GoTest.

Ltac no_nl_solve := avoids_solve.

Lemma no_nl_test_name module_name test_num :
  no_nl module_name = true ->
  no_nl ("Test" +:+ title module_name +:+ "_Case" +:+ fmt_0d 4 test_num) = true.
Proof. intros H. no_nl_solve. Qed.

Lemma is_fail_not_result l : is_result_line l = false -> is_fail_line l = false.
Proof. unfold is_result_line, is_fail_line. now intros [_ H]%orb_false_iff. Qed.

Lemma count_plain P ls :
  (forall l, is_result_line l = false -> P l = false) ->
  Forall plain_line ls -> count_if P ls = 0.
Proof.
  intros HP Hall. apply count_if_none. eapply Forall_impl; [exact Hall |].
  intros l [_ Hl]. auto.
Qed.

(** One test's block: a single report line, the last one, which reports a
    failure exactly when the test was asked to fail. *)
Lemma generate_test_output_spec test_num module_name should_fail w :
  no_nl module_name = true ->
  returns (generate_test_output test_num module_name should_fail) w
    (fun r w' =>
       same_env w w' /\
       snd r = (if should_fail then "FAIL" else "PASS") /\
       count_lines is_result_line (fst r) = 1 /\
       count_lines is_fail_line (fst r) = (if should_fail then 1 else 0)).
Proof.
  intros Hmod. unfold generate_test_output.
  pose proof (no_nl_test_name module_name test_num Hmod) as Hname.
  set (test_name := "Test" +:+ title module_name +:+ "_Case" +:+ fmt_0d 4 test_num) in *.
  apply returns_bind. eapply returns_mono; [apply uniform_spec; lra |].
  intros duration w1 (E1 & _ & _).
  apply returns_bind. eapply returns_mono; [apply randint_spec; lia |].
  intros n w2 (E2 & _).
  apply returns_bind.
  eapply returns_mono.
  { apply (returns_for_each (fun _ lines w' => same_env w2 w' /\ Forall plain_line lines)).
    - split; [apply same_env_refl |]. repeat constructor. no_nl_solve.
    - intros done i rest lines w' _ [E HF]. apply returns_ret.
      split; [exact E |]. apply Forall_app. split; [exact HF |].
      repeat constructor. no_nl_solve. }
  intros lines w3 (E3 & Hlines). cbv beta in Hlines.
  assert (Hfinish : forall (block : list string) (status : string) (w' : world),
             same_env w w' -> Forall plain_line block ->
             (status = "FAIL" \/ status = "PASS") ->
             let out := join nl (block ++ ["--- " +:+ status +:+ ": " +:+ test_name
                                             +:+ " (" +:+ fmt_f 3 duration +:+ "s)"]) in
             same_env w w' /\ status = status /\
             count_lines is_result_line out = 1 /\
             count_lines is_fail_line out = (if String.eqb status "FAIL" then 1 else 0)).
  { intros block status w' E HB Hst out.
    assert (Hlast : no_nl ("--- " +:+ status +:+ ": " +:+ test_name
                             +:+ " (" +:+ fmt_f 3 duration +:+ "s)") = true).
    { destruct Hst as [-> | ->]; no_nl_solve. }
    assert (Hsplit : split_nl out = block ++ ["--- " +:+ status +:+ ": " +:+ test_name
                                                +:+ " (" +:+ fmt_f 3 duration +:+ "s)"]).
    { apply split_nl_join_lines; [now destruct block |].
      apply Forall_app. split; [| repeat constructor; exact Hlast].
      eapply Forall_impl; [exact HB |]. now intros l [Hl _]. }
    split; [exact E |]. split; [reflexivity |].
    unfold count_lines. rewrite Hsplit, !count_if_app.
    rewrite (count_plain is_result_line block) by (auto || exact HB).
    rewrite (count_plain is_fail_line block) by (exact is_fail_not_result || exact HB).
    destruct Hst as [-> | ->]; split; reflexivity. }
  assert (E03 : same_env w w3) by (eauto using same_env_trans).
  destruct should_fail.
  - apply returns_bind. apply returns_bind.
    eapply returns_mono; [apply randint_spec; lia |]. intros e w4 (E4 & _).
    apply returns_bind.
    eapply returns_mono; [apply randint_spec; lia |]. intros a w5 (E5 & _).
    apply returns_ret. apply returns_ret. simpl fst. simpl snd.
    edestruct (Hfinish
                 (((lines ++ ["    " +:+ test_name +:+ ": assertion failed"])
                     ++ ["        Expected: " +:+ str_int e])
                    ++ ["        Actual: " +:+ str_int a]) "FAIL" w5)
      as (H1 & _ & H3 & H4).
    + eauto using same_env_trans.
    + repeat (apply Forall_app; split); try exact Hlines;
        repeat constructor; no_nl_solve.
    + now left.
    + split; [exact H1 | split; [reflexivity | split; [exact H3 | exact H4]]].
  - apply returns_bind. apply returns_ret. apply returns_ret. simpl fst. simpl snd.
    edestruct (Hfinish lines "PASS" w3) as (H1 & _ & H3 & H4);
      [exact E03 | exact Hlines | now right |].
    split; [exact H1 | split; [reflexivity | split; [exact H3 | exact H4]]].
Qed.

Lemma nth_summary (L : list string) (s o : string) :
  nth (length (L ++ [s; o]) - 2) (L ++ [s; o]) "" = s.
Proof.
  rewrite length_app. simpl length.
  replace (length L + 2 - 2) with (length L) by lia.
  rewrite app_nth2 by lia. now rewrite Nat.sub_diag.
Qed.

Lemma suite_loop_spec module_name tests_per_file failure_rate w :
  no_nl module_name = true ->
  returns
    (for_each (py_range tests_per_file)
       (fun test_num '(lines, num_failures, num_passes) =>
          r ← Random.random;
          let should_fail := lt_float r failure_rate in
          '(output, status) ← generate_test_output test_num module_name should_fail;
          let lines := lines ++ [output] in
          if String.eqb status "FAIL" then mret (lines, (num_failures + 1)%Z, num_passes)
          else mret (lines, num_failures, (num_passes + 1)%Z))
       ([], 0%Z, 0%Z))
    w
    (fun (s : list string * Z * Z) w' =>
       same_env w w' /\
       count_if is_result_line (concat (map split_nl s.1.1)) = Z.to_nat tests_per_file /\
       s.1.2 = Z.of_nat (count_if is_fail_line (concat (map split_nl s.1.1)))).
Proof.
  intros Hmod. eapply returns_mono.
  { apply (returns_for_each
             (fun done (s : list string * Z * Z) w' =>
                same_env w w' /\
                count_if is_result_line (concat (map split_nl s.1.1)) = length done /\
                s.1.2 = Z.of_nat (count_if is_fail_line (concat (map split_nl s.1.1))))).
    - split; [apply same_env_refl | split; reflexivity].
    - intros done test_num rest [[lines nf] np] w1 _ (E1 & Hres & Hnf).
      simpl in Hres, Hnf.
      apply returns_bind. eapply returns_mono; [apply random_spec |].
      intros r w2 (E2 & _). apply returns_bind.
      eapply returns_mono; [apply (generate_test_output_spec _ _ _ _ Hmod) |].
      intros [output status] w3 (E3 & Hst & Hc1 & Hc2). simpl in Hst, Hc1, Hc2.
      unfold count_lines in Hc1, Hc2.
      assert (E : same_env w w3) by (eauto using same_env_trans).
      assert (Hres' : count_if is_result_line (concat (map split_nl (lines ++ [output])))
                      = length (done ++ [test_num])).
      { rewrite map_app, concat_app, count_if_app, length_app. simpl.
        rewrite List.app_nil_r, Hc1, Hres. reflexivity. }
      assert (Hnf' : count_if is_fail_line (concat (map split_nl (lines ++ [output])))
                     = count_if is_fail_line (concat (map split_nl lines))
                       + (if lt_float r failure_rate then 1 else 0)).
      { rewrite map_app, concat_app, count_if_app. simpl.
        rewrite List.app_nil_r, Hc2. reflexivity. }
      subst status. destruct (lt_float r failure_rate); simpl String.eqb; cbv iota;
        apply returns_ret; (split; [exact E |]); (split; [exact Hres' |]);
        simpl; rewrite Hnf', Hnf; lia. }
  intros s w' (E & Hres & Hnf). rewrite length_py_range in Hres. auto.
Qed.

(** One call of [generate_suite_file]: the text is made, which moves only
    the cursor of the random generator, and then written to a path that
    depends on the directory and the file number alone. *)
Lemma generate_suite_file_outcome file_num tests_per_file failure_rate output_dir w :
  exists content failures w1,
    same_env w w1 /\
    suite_text (Z.to_nat tests_per_file) failures content /\
    generate_suite_file file_num tests_per_file failure_rate output_dir w
    = then_write (suite_path output_dir file_num) content (tests_per_file, failures) w1.
Proof.
  assert (Hmod : no_nl ("module_" +:+ fmt_0d 4 file_num) = true) by no_nl_solve.
  destruct (returns_elim _ _ _
              (suite_loop_spec _ tests_per_file failure_rate w Hmod))
    as ([[lines nf] np] & w1 & Hrun1 & E1 & Hres & Hnf).
  simpl in Hres, Hnf.
  destruct (returns_elim _ _ _ (uniform_spec 0.5 5.0 w1 ltac:(lra)))
    as (t & w2 & Hrun2 & E2 & _).
  set (module_name := "module_" +:+ fmt_0d 4 file_num) in *.
  set (summary := if (0 <? nf)%Z then "FAIL" else "PASS").
  set (okline := "ok  " +:+ tab +:+ "github.com/test/" +:+ module_name +:+ tab
                   +:+ fmt_f 3 t +:+ "s").
  set (content := join nl ((lines ++ [summary]) ++ [okline])).
  assert (Hsplit : split_nl content = concat (map split_nl lines) ++ [summary; okline]).
  { unfold content. rewrite split_nl_join by now destruct lines.
    rewrite !map_app, !concat_app. simpl.
    rewrite (split_nl_no_nl summary) by (unfold summary; now destruct (0 <? nf)%Z).
    rewrite (split_nl_no_nl okline) by (unfold okline, tab; no_nl_solve).
    rewrite <- List.app_assoc. reflexivity. }
  exists content, nf, w2. split; [eauto using same_env_trans |]. split; [split; [| split] |].
  - rewrite Hnf. unfold count_lines. rewrite Hsplit, count_if_app. simpl.
    replace (is_fail_line summary) with false
      by (unfold summary; now destruct (0 <? nf)%Z).
    replace (is_fail_line okline) with false by reflexivity. lia.
  - unfold count_lines. rewrite Hsplit, count_if_app. simpl.
    replace (is_result_line summary) with false
      by (unfold summary; now destruct (0 <? nf)%Z).
    replace (is_result_line okline) with false by reflexivity. lia.
  - unfold summary_line. rewrite Hsplit. apply nth_summary.
  - unfold generate_suite_file. fold module_name.
    rewrite (bind_run _ _ _ _ _ Hrun1). cbv beta iota.
    rewrite (bind_run _ _ _ _ _ Hrun2). reflexivity.
Qed.

(** What one call of [generate_suite_file] does when the file can be written. *)
Lemma generate_suite_file_spec file_num tests_per_file failure_rate output_dir w :
  OS.is_dir w (suite_path output_dir file_num) = false ->
  OS.is_dir w (OS.dirname (suite_path output_dir file_num)) = true ->
  returns (generate_suite_file file_num tests_per_file failure_rate output_dir) w
    (fun r w' =>
       exists content failures,
         r = (tests_per_file, failures) /\
         suite_text (Z.to_nat tests_per_file) failures content /\
         files w' = <[suite_path output_dir file_num := content]> (files w) /\
         dirs w' = dirs w /\ stdout w' = stdout w).
Proof.
  intros Hnd Hd.
  destruct (generate_suite_file_outcome file_num tests_per_file failure_rate output_dir w)
    as (content & failures & w1 & E & Htext & Hrun).
  unfold returns at 1. rewrite Hrun.
  pose proof (then_write_ok (suite_path output_dir file_num) content
                (tests_per_file, failures) w1) as Hw.
  rewrite !(is_dir_same_env w w1 _ E) in Hw. specialize (Hw Hnd Hd).
  eapply returns_mono; [exact Hw |]. intros r w' (-> & Hf & Hds & Ho).
  destruct E as (_ & _ & Ed & Ef & Eo).
  exists content, failures. repeat split; try apply Htext; congruence.
Qed.

(** C3. A .suite file written for [tests_per_file >= 0] tests holds that many
    report lines (those that begin with --- PASS: or --- FAIL:), and its
    summary line, the last but one, is FAIL exactly when one of the report
    lines is a --- FAIL: line, and PASS otherwise. *)
Theorem gotest_suite_counts file_num tests_per_file failure_rate output_dir w :
  (0 <= tests_per_file)%Z ->
  OS.is_dir w (suite_path output_dir file_num) = false ->
  OS.is_dir w (OS.dirname (suite_path output_dir file_num)) = true ->
  exists failures content w',
    generate_suite_file file_num tests_per_file failure_rate output_dir w
      = (Ok (tests_per_file, failures), w') /\
    files w' !! suite_path output_dir file_num = Some content /\
    Z.of_nat (count_lines is_result_line content) = tests_per_file /\
    (summary_line content = "FAIL" <-> 0 < count_lines is_fail_line content) /\
    (summary_line content = "PASS" <-> count_lines is_fail_line content = 0).
Proof.
  intros Hn Hnd Hd.
  destruct (returns_elim _ _ _
              (generate_suite_file_spec file_num tests_per_file failure_rate output_dir w Hnd Hd))
    as (r & w' & Hrun & content & failures & -> & (Hfail & Hcount & Hsum) & Hf & _).
  exists failures, content, w'.
  split; [exact Hrun |]. split; [rewrite Hf; apply lookup_insert_eq |].
  split; [rewrite Hcount; lia |].
  rewrite Hsum, Hfail.
  destruct (Z.ltb_spec 0 (Z.of_nat (count_lines is_fail_line content)));
    split; split; intros; (lia || easy).
Qed.

Lemma gotest_suite_counts_witness :
  exists failures content w',
    generate_suite_file 3 2 (Fin 0.5) "." (world_of [0; 1; 2; 3; 4; 2 ^ 52; 7]%N [] [] [])
      = (Ok (2%Z, failures), w') /\
    files w' !! suite_path "." 3 = Some content /\
    Z.of_nat (count_lines is_result_line content) = 2%Z /\
    (summary_line content = "FAIL" <-> 0 < count_lines is_fail_line content) /\
    (summary_line content = "PASS" <-> count_lines is_fail_line content = 0).
Proof.
  apply (gotest_suite_counts 3 2 (Fin 0.5) "." (world_of [0; 1; 2; 3; 4; 2 ^ 52; 7]%N [] [] []));
    [lia | vm_compute; reflexivity | vm_compute; reflexivity].
Defined.

End GoTestFacts.

(** * generate_xunit_files.py: the XML files *)

Module XUnitFacts.
Import PyStrSpec GoTestSpec XUnitSpec PyStrFacts MFacts GoTestFacts XUnit.

(** *** Suffixes *)

Lemma length_app_str (a b : string) :
  String.length (a +:+ b) = String.length a + String.length b.
Proof. induction a as [|x a IH]; [reflexivity |]. rewrite app_cons. simpl. now rewrite IH. Qed.

Lemma eqb_length (p q : string) : String.eqb p q = true -> String.length p = String.length q.
Proof. now intros ->%String.eqb_eq. Qed.

Lemma ends_with_app_r p a b : ends_with p b = true -> ends_with p (a +:+ b) = true.
Proof.
  intros Hb. induction a as [|x a IH]; [exact Hb |].
  rewrite app_cons. simpl. rewrite IH. apply orb_true_r.
Qed.

Lemma ends_with_refl p : ends_with p p = true.
Proof. destruct p; simpl; rewrite ?Ascii.eqb_refl, ?String.eqb_refl; reflexivity. Qed.

(** A suffix no longer than the tail is looked for in the tail alone. *)
Lemma ends_with_app_len p a s :
  String.length p <= String.length s -> ends_with p (a +:+ s) = ends_with p s.
Proof.
  intros Hlen. induction a as [|x a IH]; [reflexivity |].
  rewrite app_cons. simpl ends_with. rewrite IH.
  destruct (String.eqb p (String x (a +:+ s))) eqn:E; [| reflexivity].
  apply eqb_length in E. simpl in E. rewrite length_app_str in E. lia.
Qed.

(** *** Attributes *)

Lemma split_dq a b :
  quote_free a -> split_on "034" (a +:+ dq +:+ b) = a :: split_on "034" b.
Proof.
  intros Ha. unfold dq. rewrite app_cons, app_nil_l, split_on_app_sep.
  now rewrite (split_on_no_sep _ a Ha).
Qed.

Lemma split_attrs attrs : forall pre post,
  quote_free pre -> quote_free post ->
  Forall (fun nv => quote_free (fst nv) /\ quote_free (snd nv)) attrs ->
  split_on "034" (pre +:+ attrs_str attrs post) = attrs_parts pre attrs post.
Proof.
  induction attrs as [|[n v] r IH]; intros pre post Hpre Hpost Hall.
  - simpl. apply split_on_no_sep. unfold quote_free in *.
    fold (avoids "034" (pre +:+ post)). now rewrite avoids_app, Hpre, Hpost.
  - apply Forall_cons in Hall as [[Hn Hv] Hr]. simpl in Hn, Hv.
    simpl attrs_str. simpl attrs_parts. unfold attr.
    replace (pre +:+ (" " +:+ n +:+ "=" +:+ dq +:+ v +:+ dq) +:+ attrs_str r post)
      with ((pre +:+ " " +:+ n +:+ "=") +:+ dq +:+ (v +:+ dq +:+ ("" +:+ attrs_str r post)))
      by (rewrite ?app_assoc, ?app_nil_l; reflexivity).
    rewrite split_dq.
    + rewrite split_dq by exact Hv. rewrite IH; [reflexivity | reflexivity | exact Hpost | exact Hr].
    + unfold quote_free in *. rewrite !avoids_app, Hpre, Hn. reflexivity.
Qed.

(** *** One test case *)

Lemma generate_test_case_spec module_name test_num should_fail w :
  returns (generate_test_case module_name test_num should_fail) w
    (fun r w' =>
       same_env w w' /\ r.2 = should_fail /\ case_of module_name r.1.1 r.1.2 should_fail /\
       (0 <= r.1.2)%Q).
Proof.
  unfold generate_test_case.
  apply returns_bind. eapply returns_mono; [apply uniform_spec; lra |].
  intros duration w1 (E1 & Hd & _).
  assert (Hd0 : (0 <= duration)%Q) by lra.
  destruct should_fail.
  - apply returns_bind. eapply returns_mono; [apply randint_spec; lia |].
    intros line w2 (E2 & _).
    apply returns_bind. eapply returns_mono; [apply randint_spec; lia |].
    intros expected w3 (E3 & _).
    apply returns_bind. eapply returns_mono; [apply randint_spec; lia |].
    intros actual w4 (E4 & _). apply returns_ret.
    split; [eauto using same_env_trans |]. split; [reflexivity |].
    split; [apply case_fail | exact Hd0].
  - apply returns_ret. split; [exact E1 |]. split; [reflexivity |].
    split; [apply case_pass | exact Hd0].
Qed.

Lemma clean_module_name file_num : clean ("module_" +:+ fmt_0d 4 file_num).
Proof. split; [| unfold quote_free]; avoids_solve. Qed.

Section OneCase.
Variable m : string.
Hypothesis Hm : clean m.

Let Hnl : avoids "010" m = true := proj1 Hm.
Let Hdq : avoids "034" m = true := proj2 Hm.

Lemma pass_lines n d :
  split_nl (TESTCASE_PASS_TEMPLATE (classname_of m) (casename_of m n) d)
  = [TESTCASE_PASS_TEMPLATE (classname_of m) (casename_of m n) d].
Proof.
  apply split_nl_no_nl.
  unfold TESTCASE_PASS_TEMPLATE, attr, classname_of, casename_of, dq. avoids_solve.
Qed.

Lemma fail_lines n d line e a :
  split_nl (TESTCASE_FAIL_TEMPLATE (classname_of m) (casename_of m n) d m line e a)
  = TESTCASE_FAIL_LINES (classname_of m) (casename_of m n) d m line e a.
Proof.
  apply split_nl_join_lines; [easy |].
  unfold TESTCASE_FAIL_LINES, attr, classname_of, casename_of, dq.
  repeat constructor; avoids_solve.
Qed.

Lemma open_tag_time pre post n d :
  pre = "  <testcase" -> post = "/>" \/ post = ">" ->
  xml_attr "time"
    (pre +:+ attr "classname" (classname_of m) +:+ attr "name" (casename_of m n)
         +:+ attr "time" (fmt_f 3 d) +:+ post)
  = Some (fmt_f 3 d).
Proof.
  intros -> Hpost. unfold xml_attr.
  change ("  <testcase" +:+ attr "classname" (classname_of m)
            +:+ attr "name" (casename_of m n) +:+ attr "time" (fmt_f 3 d) +:+ post)
    with ("  <testcase" +:+ attrs_str [("classname", classname_of m);
                                        ("name", casename_of m n);
                                        ("time", fmt_f 3 d)] post).
  rewrite split_attrs; [reflexivity | reflexivity | destruct Hpost as [-> | ->]; reflexivity |].
  unfold quote_free, classname_of, casename_of. repeat constructor; simpl; avoids_solve.
Qed.

Lemma pass_self_closed n d :
  ends_with "/>" (TESTCASE_PASS_TEMPLATE (classname_of m) (casename_of m n) d) = true.
Proof.
  unfold TESTCASE_PASS_TEMPLATE. repeat apply ends_with_app_r. reflexivity.
Qed.

Lemma fail_not_self_closed cls name t :
  ends_with "/>" ("  <testcase" +:+ attr "classname" cls +:+ attr "name" name
                    +:+ attr "time" t +:+ ">") = false.
Proof.
  unfold attr.
  replace ("  <testcase" +:+ (" " +:+ "classname" +:+ "=" +:+ dq +:+ cls +:+ dq)
             +:+ (" " +:+ "name" +:+ "=" +:+ dq +:+ name +:+ dq)
             +:+ (" " +:+ "time" +:+ "=" +:+ dq +:+ t +:+ dq) +:+ ">")
    with (("  <testcase" +:+ (" " +:+ "classname" +:+ "=" +:+ dq +:+ cls +:+ dq)
             +:+ (" " +:+ "name" +:+ "=" +:+ dq +:+ name +:+ dq)
             +:+ " " +:+ "time" +:+ "=" +:+ dq +:+ t) +:+ (dq +:+ ">"))
    by (rewrite ?app_assoc; reflexivity).
  rewrite ends_with_app_len; [reflexivity | simpl; lia].
Qed.

Lemma count_failed_plain b l rest :
  is_testcase_open l = false -> is_testcase_close l = false -> is_failure_open l = false ->
  count_failed_from b (l :: rest) = count_failed_from b rest.
Proof. intros H1 H2 H3. simpl. rewrite H1, H2, H3, andb_false_r. reflexivity. Qed.

Lemma count_failed_open b l rest :
  is_testcase_open l = true ->
  count_failed_from b (l :: rest) = count_failed_from (negb (ends_with "/>" l)) rest.
Proof. intros H1. simpl. now rewrite H1. Qed.

Lemma count_failed_close b l rest :
  is_testcase_open l = false -> is_testcase_close l = true ->
  count_failed_from b (l :: rest) = count_failed_from false rest.
Proof. intros H1 H2. simpl. now rewrite H1, H2. Qed.

Lemma count_failed_failure l rest :
  is_testcase_open l = false -> is_testcase_close l = false -> is_failure_open l = true ->
  count_failed_from true (l :: rest) = S (count_failed_from false rest).
Proof. intros H1 H2 H3. simpl. now rewrite H1, H2, H3. Qed.

Lemma filter_keep {A} (P : A -> bool) x l : P x = true -> List.filter P (x :: l) = x :: List.filter P l.
Proof. intros H. simpl. now rewrite H. Qed.

Lemma filter_skip {A} (P : A -> bool) x l : P x = false -> List.filter P (x :: l) = List.filter P l.
Proof. intros H. simpl. now rewrite H. Qed.

Lemma count_if_keep {A} (P : A -> bool) x l : P x = true -> count_if P (x :: l) = S (count_if P l).
Proof. intros H. simpl. now rewrite H. Qed.

Lemma count_if_skip {A} (P : A -> bool) x l : P x = false -> count_if P (x :: l) = count_if P l.
Proof. intros H. simpl. now rewrite H. Qed.

(** What the snippet of one case adds to the three readings of a file. *)
Lemma case_counts xml d failed rest :
  case_of m xml d failed ->
  count_if is_testcase_open (split_nl xml) = 1 /\
  count_failed_from false (split_nl xml ++ rest)
    = (if failed then 1 else 0) + count_failed_from false rest /\
  map (xml_attr "time") (List.filter is_testcase_open (split_nl xml)) = [Some (fmt_f 3 d)] /\
  Forall (fun l => l <> "") (split_nl xml).
Proof.
  intros [n d' | n d' line e a].
  - rewrite pass_lines. split; [| split; [| split]].
    + rewrite count_if_keep by reflexivity. reflexivity.
    + cbn [app]. rewrite count_failed_open by reflexivity.
      now rewrite pass_self_closed.
    + rewrite filter_keep by reflexivity. cbn [List.filter map]. f_equal.
      apply open_tag_time; auto.
    + repeat constructor. discriminate.
  - rewrite fail_lines. unfold TESTCASE_FAIL_LINES. split; [| split; [| split]].
    + rewrite count_if_keep by reflexivity.
      do 9 (rewrite count_if_skip by reflexivity). reflexivity.
    + cbn [app]. rewrite count_failed_open by reflexivity.
      rewrite fail_not_self_closed. cbn [negb].
      rewrite count_failed_failure by reflexivity.
      do 7 (rewrite count_failed_plain by reflexivity).
      rewrite count_failed_close by reflexivity. reflexivity.
    + rewrite filter_keep by reflexivity.
      do 9 (rewrite filter_skip by reflexivity).
      cbn [List.filter map]. f_equal. apply open_tag_time; auto.
    + repeat constructor; discriminate.
Qed.

End OneCase.

(** *** A whole file *)

Lemma generate_cases_spec m tests_per_file failure_rate w :
  returns (generate_cases m tests_per_file failure_rate) w
    (fun s w' =>
       same_env w w' /\
       exists recs,
         cases_ok m recs /\ length recs = Z.to_nat tests_per_file /\
         s = (map xml_of recs, map dur_of recs, Qsum (map dur_of recs),
              Z.of_nat (count_if failed_of recs))).
Proof.
  unfold generate_cases. eapply returns_mono.
  { apply (returns_for_each
             (fun done (s : list string * list Q * Q * Z) w' =>
                same_env w w' /\
                exists recs,
                  cases_ok m recs /\ length recs = length done /\
                  s = (map xml_of recs, map dur_of recs, Qsum (map dur_of recs),
                       Z.of_nat (count_if failed_of recs)))).
    - split; [apply same_env_refl |]. exists []. repeat split. constructor.
    - intros done test_num rest [[[cases durs] total] nf] w1 _ (E1 & recs & Hok & Hlen & Hs).
      injection Hs as -> -> -> ->.
      apply returns_bind. eapply returns_mono; [apply random_spec |].
      intros r w2 (E2 & _). apply returns_bind.
      eapply returns_mono; [apply generate_test_case_spec |].
      intros [[xml d] failed] w3 (E3 & Hf & Hcase & Hd). simpl in Hf, Hcase, Hd.
      apply returns_ret. split; [eauto using same_env_trans |].
      exists (recs ++ [(xml, d, failed)]). split; [| split].
      + apply Forall_app. split; [exact Hok |]. repeat constructor; subst failed; assumption.
      + rewrite !length_app, Hlen. reflexivity.
      + rewrite !map_app, count_if_app. unfold Qsum. rewrite fold_left_app. simpl.
        unfold xml_of, dur_of. simpl. f_equal. destruct failed; lia. }
  intros s w' (E & recs & Hok & Hlen & Hs). rewrite length_py_range in Hlen.
  split; [exact E |]. exists recs. auto.
Qed.

Section OneFile.
Variable m : string.
Hypothesis Hm : clean m.

Lemma cases_lines_count (recs : list Case) :
  cases_ok m recs ->
  count_if is_testcase_open (concat (map split_nl (map xml_of recs))) = length recs.
Proof.
  induction 1 as [|r recs [Hr _] _ IH]; [reflexivity |].
  simpl. rewrite count_if_app, IH.
  destruct (case_counts m Hm _ _ _ [] Hr) as (-> & _). reflexivity.
Qed.

Lemma cases_lines_failed (recs : list Case) rest :
  cases_ok m recs ->
  count_failed_from false (concat (map split_nl (map xml_of recs)) ++ rest)
  = count_if failed_of recs + count_failed_from false rest.
Proof.
  induction 1 as [|r recs [Hr _] _ IH]; [reflexivity |].
  simpl concat. rewrite <- List.app_assoc.
  destruct (case_counts m Hm _ _ _ (concat (map split_nl (map xml_of recs)) ++ rest) Hr)
    as (_ & -> & _).
  rewrite IH. cbn [count_if]. destruct (failed_of r); lia.
Qed.

Lemma cases_lines_times (recs : list Case) :
  cases_ok m recs ->
  map (xml_attr "time")
      (List.filter is_testcase_open (concat (map split_nl (map xml_of recs))))
  = map (fun r => Some (fmt_f 3 (dur_of r))) recs.
Proof.
  induction 1 as [|r recs [Hr _] _ IH]; [reflexivity |].
  simpl concat. rewrite List.filter_app, map_app, IH.
  destruct (case_counts m Hm _ _ _ [] Hr) as (_ & _ & -> & _). reflexivity.
Qed.

(** The lines between the start and the end tag of the testsuite element:
    those of the snippets, or one empty line when there is no case. *)
Lemma body_lines (recs : list Case) :
  split_nl (join nl (map xml_of recs))
  = match recs with
    | [] => [""]
    | _ => concat (map split_nl (map xml_of recs))
    end.
Proof. destruct recs; [reflexivity |]. now apply split_nl_join. Qed.

End OneFile.

Lemma template_lines suite n f t tc :
  no_nl suite = true ->
  split_nl (XUNIT_TEMPLATE suite n f t tc)
  = xml_decl :: suite_tag suite n f t :: split_nl tc ++ ["</testsuite>"; ""].
Proof.
  intros Hs.
  replace (XUNIT_TEMPLATE suite n f t tc)
    with (xml_decl +:+ nl +:+ (suite_tag suite n f t +:+ nl +:+
            (tc +:+ nl +:+ ("</testsuite>" +:+ nl +:+ ""))))
    by (unfold XUNIT_TEMPLATE, xml_decl, suite_tag; rewrite ?app_assoc; reflexivity).
  rewrite !split_nl_app_nl.
  rewrite (split_nl_no_nl xml_decl) by reflexivity.
  rewrite (split_nl_no_nl (suite_tag suite n f t))
    by (unfold suite_tag, attr, dq; avoids_solve).
  reflexivity.
Qed.

Lemma suite_tag_attrs suite n f t :
  quote_free suite ->
  xml_attr "tests" (suite_tag suite n f t) = Some (str_int n) /\
  xml_attr "failures" (suite_tag suite n f t) = Some (str_int f) /\
  xml_attr "time" (suite_tag suite n f t) = Some (fmt_f 3 t).
Proof.
  intros Hs. unfold xml_attr.
  change (suite_tag suite n f t)
    with ("<testsuite" +:+ attrs_str [("name", suite); ("tests", str_int n);
                                       ("failures", str_int f); ("errors", "0");
                                       ("time", fmt_f 3 t)] ">").
  rewrite split_attrs; [repeat split | reflexivity | reflexivity |].
  unfold quote_free in *. repeat constructor; simpl; avoids_solve.
Qed.

(** One call of [generate_xunit_file]: the cases are made, which moves only
    the cursor of the random generator, and the text is then written to a
    path that depends on the directory and the file number alone. *)
Lemma generate_xunit_file_outcome file_num tests_per_file failure_rate output_dir w :
  let m := "module_" +:+ fmt_0d 4 file_num in
  exists recs w1,
    same_env w w1 /\
    cases_ok m recs /\ length recs = Z.to_nat tests_per_file /\
    generate_xunit_file file_num tests_per_file failure_rate output_dir w
    = then_write (xunit_path output_dir file_num) (xunit_text m tests_per_file recs)
        (tests_per_file, Z.of_nat (count_if failed_of recs)) w1.
Proof.
  intros m.
  destruct (returns_elim _ _ _ (generate_cases_spec m tests_per_file failure_rate w))
    as (s & w1 & Hrun & E1 & recs & Hok & Hlen & ->).
  exists recs, w1. split; [exact E1 |]. split; [exact Hok |]. split; [exact Hlen |].
  unfold generate_xunit_file. fold m. rewrite (bind_run _ _ _ _ _ Hrun). reflexivity.
Qed.


(** What one call of [generate_xunit_file] does when the file can be written:
    the file holds the template filled with the generated cases. *)
Lemma generate_xunit_file_spec file_num tests_per_file failure_rate output_dir w :
  OS.is_dir w (xunit_path output_dir file_num) = false ->
  OS.is_dir w (OS.dirname (xunit_path output_dir file_num)) = true ->
  let m := "module_" +:+ fmt_0d 4 file_num in
  returns (generate_xunit_file file_num tests_per_file failure_rate output_dir) w
    (fun r w' =>
       exists recs,
         cases_ok m recs /\ length recs = Z.to_nat tests_per_file /\
         r = (tests_per_file, Z.of_nat (count_if failed_of recs)) /\
         files w' = <[xunit_path output_dir file_num := xunit_text m tests_per_file recs]>
                      (files w) /\
         dirs w' = dirs w /\ stdout w' = stdout w).
Proof.
  intros Hnd Hd m.
  destruct (generate_xunit_file_outcome file_num tests_per_file failure_rate output_dir w)
    as (recs & w1 & E & Hok & Hlen & Hrun).
  unfold returns at 1. rewrite Hrun.
  pose proof (then_write_ok (xunit_path output_dir file_num)
                (xunit_text ("module_" +:+ fmt_0d 4 file_num) tests_per_file recs)
                (tests_per_file, Z.of_nat (count_if failed_of recs)) w1) as Hw.
  rewrite !(is_dir_same_env w w1 _ E) in Hw. specialize (Hw Hnd Hd).
  eapply returns_mono; [exact Hw |]. intros r w' (-> & Hf & Hds & Ho).
  destruct E as (_ & _ & Ed & Ef & Eo).
  exists recs. split; [exact Hok |]. split; [exact Hlen |]. split; [reflexivity |].
  split; [rewrite Hf, Ef; reflexivity |]. split; congruence.
Qed.

(** Reading back a file that holds the template filled with cases. *)
Lemma file_readings (m : string) (recs : list Case) (n f : Z) (t : Q) :
  clean m -> cases_ok m recs ->
  let c := XUNIT_TEMPLATE (classname_of m) n f t (join nl (map xml_of recs)) in
  xml_attr "tests" (testsuite_tag c) = Some (str_int n) /\
  xml_attr "failures" (testsuite_tag c) = Some (str_int f) /\
  xml_attr "time" (testsuite_tag c) = Some (fmt_f 3 t) /\
  count_testcases c = length recs /\
  count_failed_testcases c = count_if failed_of recs /\
  testcase_times c = map (fun r => Some (fmt_f 3 (dur_of r))) recs.
Proof.
  intros Hm Hok c.
  assert (Hnl : no_nl (classname_of m) = true).
  { destruct Hm as [Hm _]. unfold classname_of. avoids_solve. }
  assert (Hq : quote_free (classname_of m)).
  { destruct Hm as [_ Hm]. unfold quote_free, classname_of in *. avoids_solve. }
  assert (Hlines : split_nl c
                   = xml_decl :: suite_tag (classname_of m) n f t
                       :: split_nl (join nl (map xml_of recs)) ++ ["</testsuite>"; ""]).
  { apply template_lines, Hnl. }
  unfold testsuite_tag, count_testcases, count_failed_testcases, testcase_times, count_lines.
  rewrite Hlines. cbn [nth].
  destruct (suite_tag_attrs (classname_of m) n f t Hq) as (-> & -> & ->).
  split; [reflexivity |]. split; [reflexivity |]. split; [reflexivity |].
  rewrite body_lines. destruct recs as [|r recs]; [repeat split |].
  set (rs := r :: recs) in *.
  split; [| split].
  - do 2 (rewrite count_if_skip by reflexivity).
    rewrite count_if_app, (cases_lines_count m Hm rs Hok). simpl. lia.
  - do 2 (rewrite count_failed_plain by reflexivity).
    rewrite (cases_lines_failed m Hm rs _ Hok). simpl. lia.
  - do 2 (rewrite filter_skip by reflexivity).
    rewrite List.filter_app, map_app, (cases_lines_times m Hm rs Hok).
    simpl. now rewrite List.app_nil_r.
Qed.

(** *** Rounding *)

Lemma round_half_even_bound q :
  (inject_Z (round_half_even q) - (1 # 2) <= q)%Q /\
  (q <= inject_Z (round_half_even q) + (1 # 2))%Q.
Proof.
  unfold round_half_even.
  pose proof (Qfloor_le q) as Hlo. pose proof (Qlt_floor q) as Hhi.
  rewrite inject_Z_plus in Hhi. change (inject_Z 1) with 1%Q in Hhi.
  destruct (Qcompare_spec (q - inject_Z (Qfloor q)) (1 # 2)) as [E | L | G].
  - destruct (Z.even (Qfloor q)); rewrite ?inject_Z_plus; change (inject_Z 1) with 1%Q; lra.
  - lra.
  - rewrite inject_Z_plus. change (inject_Z 1) with 1%Q. lra.
Qed.







(** C4, as amended. For [tests_per_file >= 0], the tests attribute of the
    testsuite start tag is the number of testcase elements of the file, and
    its failures attribute is the number of testcase elements that hold a
    failure child. *)
Theorem xunit_counts_consistent file_num tests_per_file failure_rate output_dir w :
  (0 <= tests_per_file)%Z ->
  OS.is_dir w (xunit_path output_dir file_num) = false ->
  OS.is_dir w (OS.dirname (xunit_path output_dir file_num)) = true ->
  exists failures content w',
    generate_xunit_file file_num tests_per_file failure_rate output_dir w
      = (Ok (tests_per_file, failures), w') /\
    files w' !! xunit_path output_dir file_num = Some content /\
    xml_attr "tests" (testsuite_tag content)
      = Some (str_int (Z.of_nat (count_testcases content))) /\
    xml_attr "failures" (testsuite_tag content)
      = Some (str_int (Z.of_nat (count_failed_testcases content))).
Proof.
  intros Hn Hnd Hd.
  destruct (returns_elim _ _ _
              (generate_xunit_file_spec file_num tests_per_file failure_rate output_dir w
                 Hnd Hd))
    as (r & w' & Hrun & recs & Hok & Hlen & -> & Hf & _).
  destruct (file_readings _ recs tests_per_file (Z.of_nat (count_if failed_of recs))
              (Qsum (map dur_of recs)) (clean_module_name file_num) Hok)
    as (Ht & Hfl & _ & Hc & Hcf & _).
  eexists _, _, w'. split; [exact Hrun |].
  split; [rewrite Hf; apply lookup_insert_eq |]. unfold xunit_text.
  rewrite Ht, Hfl, Hc, Hcf, Hlen, Z2Nat.id by exact Hn. split; reflexivity.
Qed.


Lemma xunit_counts_consistent_witness :
  exists failures content w',
    generate_xunit_file 3 2 (Fin 0.5) "." (world_of [0; 0; 1; 2; 3; 2 ^ 52; 2 ^ 52]%N [] [] [])
      = (Ok (2%Z, failures), w') /\
    files w' !! xunit_path "." 3 = Some content /\
    xml_attr "tests" (testsuite_tag content)
      = Some (str_int (Z.of_nat (count_testcases content))) /\
    xml_attr "failures" (testsuite_tag content)
      = Some (str_int (Z.of_nat (count_failed_testcases content))).
Proof.
  apply (xunit_counts_consistent 3 2 (Fin 0.5) "."
           (world_of [0; 0; 1; 2; 3; 2 ^ 52; 2 ^ 52]%N [] [] []));
    [lia | vm_compute; reflexivity | vm_compute; reflexivity].
Defined.

(** With a negative count the loop runs zero times: the tests attribute shows
    the negative number and the file holds no testcase element. *)
Lemma xunit_negative_tests_mismatch :
  exists content w',
    generate_xunit_file 0 (-1) (Fin 0.1) "." (world_of [] [] [] []) = (Ok ((-1)%Z, 0%Z), w') /\
    files w' !! xunit_path "." 0 = Some content /\
    xml_attr "tests" (testsuite_tag content) = Some "-1" /\
    count_testcases content = 0 /\
    xml_attr "tests" (testsuite_tag content)
      <> Some (str_int (Z.of_nat (count_testcases content))).
Proof.
  eexists _, _. split; [vm_compute; reflexivity |].
  split; [vm_compute; reflexivity |].
  split; [vm_compute; reflexivity |]. split; [vm_compute; reflexivity |].
  vm_compute. discriminate.
Qed.



End XUnitFacts.

(** * The json module: what is written reads back *)

Module JsonFacts.
Import PyStrSpec XUnitSpec JsonSpec PyStrFacts XUnitFacts Json.

(** Induction on documents, with the hypothesis for every item. *)
Lemma json_nested_ind (P : json -> Prop) :
  P JNull -> (forall b, P (JBool b)) -> (forall z, P (JInt z)) ->
  (forall f, P (JFloat f)) -> (forall s, P (JStr s)) ->
  (forall items, Forall P items -> P (JArr items)) ->
  (forall members, Forall (fun kv => P (snd kv)) members -> P (JObj members)) ->
  forall v, P v.
Proof.
  intros Hnull Hbool Hint Hfloat Hstr Harr Hobj. fix IH 1.
  intros [ | b | z | f | s | items | members];
    [exact Hnull | apply Hbool | apply Hint | apply Hfloat | apply Hstr | | ].
  - apply Harr. induction items as [|x items IHi]; constructor; [apply IH | exact IHi].
  - apply Hobj. induction members as [|[k x] members IHm]; constructor; [apply IH | exact IHm].
Qed.

(** *** Blanks *)

Lemma skip_ws_all_ws a s : all_ws a = true -> skip_ws (a +:+ s) = skip_ws s.
Proof.
  induction a as [|c a IH]; [reflexivity |]. intros H.
  apply andb_true_iff in H as [Hc Ha]. rewrite app_cons. simpl. rewrite Hc. now apply IH.
Qed.

Lemma skip_ws_start c s : is_ws c = false -> skip_ws (String c s) = String c s.
Proof. intros H. simpl. now rewrite H. Qed.

Lemma all_ws_replicate n : all_ws (replicate_str n " ") = true.
Proof. induction n; [reflexivity |]. exact IHn. Qed.

Lemma all_ws_newline_indent ind level : all_ws (newline_indent ind level) = true.
Proof.
  unfold newline_indent. destruct ind as [n|]; [| reflexivity].
  unfold all_ws. rewrite str_forall_app. simpl. apply all_ws_replicate.
Qed.

(** *** Strings *)

Lemma parse_escape_char c tail :
  parse_string_body (escape_char c +:+ tail)
  = match parse_string_body tail with
    | Some (t, rest) => Some (String c t, rest)
    | None => None
    end.
Proof. destruct c as [[] [] [] [] [] [] [] []]; reflexivity. Qed.

Lemma parse_escape s rest :
  parse_string_body (escape s +:+ dq +:+ rest) = Some (s, rest).
Proof.
  induction s as [|c s IH]; [reflexivity |].
  simpl escape. rewrite app_assoc, parse_escape_char, IH. reflexivity.
Qed.

Lemma parse_encode_string s rest :
  parse_string_body (escape s +:+ dq +:+ rest) = Some (s, rest) /\
  encode_string s +:+ rest = String "034" (escape s +:+ dq +:+ rest).
Proof.
  split; [apply parse_escape |]. unfold encode_string, dq.
  rewrite !app_assoc, !app_cons, !app_nil_l. reflexivity.
Qed.

(** *** Numbers *)

Lemma to_uint_nonnil n : N.to_uint n <> Decimal.Nil.
Proof. destruct n; [discriminate | apply DecimalPos.Unsigned.to_uint_nonnil]. Qed.

Lemma digits_value_str_N n : digits_value (str_N n) = Some (Z.of_N n).
Proof.
  unfold digits_value, str_N.
  rewrite (NilZero.usu _ (to_uint_nonnil n)), DecimalN.Unsigned.of_to. reflexivity.
Qed.

Lemma str_N_first n : exists d s, str_N n = String d s /\ is_digit d = true.
Proof.
  pose proof (digits_value_str_N n) as Hv. pose proof (str_N_digits n) as Hd.
  destruct (str_N n) as [|d s]; [discriminate |].
  exists d, s. split; [reflexivity |]. simpl in Hd. now apply andb_true_iff in Hd.
Qed.

Lemma span_digits_app ds rest :
  str_forall is_digit ds = true -> no_digit_head rest = true ->
  span_digits (ds +:+ rest) = (ds, rest).
Proof.
  intros Hds Hrest. induction ds as [|c ds IH].
  - rewrite app_nil_l. destruct rest as [|c r]; [reflexivity |].
    simpl in *. apply negb_true_iff in Hrest. now rewrite Hrest.
  - simpl in Hds. apply andb_true_iff in Hds as [Hc Hds].
    rewrite app_cons. simpl. rewrite Hc, (IH Hds). reflexivity.
Qed.

Lemma delim_head c r :
  delim (String c r) = true ->
  is_digit c = false /\ Ascii.eqb c "." = false /\ Ascii.eqb c "e" = false /\
  Ascii.eqb c "E" = false.
Proof.
  unfold delim. destruct c as [[] [] [] [] [] [] [] []]; vm_compute; intros H;
    (discriminate H || (repeat split; reflexivity)).
Qed.

Lemma digit_head d :
  is_digit d = true ->
  Ascii.eqb d "-" = false /\ Ascii.eqb d "034" = false /\ Ascii.eqb d "{" = false /\
  Ascii.eqb d "[" = false /\ Ascii.eqb d "n" = false /\ Ascii.eqb d "t" = false /\
  Ascii.eqb d "f" = false /\ is_ws d = false /\ Ascii.eqb d "]" = false /\
  Ascii.eqb d "}" = false.
Proof.
  destruct d as [[] [] [] [] [] [] [] []]; vm_compute; intros H;
    (discriminate H || (repeat split; reflexivity)).
Qed.

Lemma parse_number_N neg n rest :
  delim rest = true ->
  parse_number ((if neg : bool then "-" else "") +:+ str_N n +:+ rest)
  = Some (JInt ((if neg then -1 else 1) * Z.of_N n), rest).
Proof.
  intros Hrest. destruct (str_N_first n) as (d & s & Hs & Hd).
  destruct (digit_head d Hd) as (Hminus & _).
  assert (Hspan : span_digits (str_N n +:+ rest) = (str_N n, rest)).
  { apply span_digits_app; [apply str_N_digits |].
    destruct rest as [|c r]; [reflexivity |]. simpl.
    destruct (delim_head c r Hrest) as (-> & _). reflexivity. }
  unfold parse_number.
  replace (match (if neg then "-" else "") +:+ str_N n +:+ rest with
           | "" => (false, (if neg then "-" else "") +:+ str_N n +:+ rest)
           | String c r =>
               if Ascii.eqb c "-" then (true, r)
               else (false, (if neg then "-" else "") +:+ str_N n +:+ rest)
           end) with (neg, str_N n +:+ rest).
  2:{ destruct neg; [reflexivity |]. rewrite app_nil_l, Hs, app_cons, Hminus. reflexivity. }
  rewrite Hspan, digits_value_str_N, N2Z.id, String.eqb_refl. cbn [negb].
  destruct rest as [|c r]; [reflexivity |].
  destruct (delim_head c r Hrest) as (_ & -> & -> & ->). reflexivity.
Qed.

Lemma str_int_signed z :
  str_int z = (if (z <? 0)%Z then "-" else "") +:+ str_N (Z.abs_N z) /\
  ((if (z <? 0)%Z then -1 else 1) * Z.of_N (Z.abs_N z))%Z = z.
Proof.
  unfold str_int. rewrite N2Z.inj_abs_N.
  destruct (Z.ltb_spec z 0); split; (reflexivity || lia).
Qed.

Lemma parse_number_int z rest :
  delim rest = true -> parse_number (str_int z +:+ rest) = Some (JInt z, rest).
Proof.
  intros Hrest. destruct (str_int_signed z) as [-> Hz].
  rewrite app_assoc, parse_number_N by exact Hrest. now rewrite Hz.
Qed.

(** *** Literal names *)

Lemma prefix_app p rest : String.prefix p (p +:+ rest) = true.
Proof.
  induction p as [|c p IH]; [now destruct rest |].
  rewrite app_cons. simpl. destruct (ascii_dec c c); [exact IH | congruence].
Qed.

Lemma substring_all s : String.substring 0 (String.length s) s = s.
Proof. induction s as [|c s IH]; [reflexivity |]. simpl. now rewrite IH. Qed.

Lemma substring_app p k rest :
  String.substring (String.length p) k (p +:+ rest) = String.substring 0 k rest.
Proof. induction p as [|c p IH]; [reflexivity |]. rewrite app_cons. simpl. exact IH. Qed.

Lemma drop_prefix_app p rest : drop_prefix p (p +:+ rest) = Some rest.
Proof.
  unfold drop_prefix. rewrite prefix_app, substring_app, length_app_str.
  replace (String.length p + String.length rest - String.length p) with (String.length rest)
    by lia.
  now rewrite substring_all.
Qed.

Lemma drop_prefix_head a p c s :
  Ascii.eqb a c = false -> drop_prefix (String a p) (String c s) = None.
Proof.
  intros H. unfold drop_prefix. simpl.
  destruct (ascii_dec a c) as [-> | _]; [| reflexivity].
  now rewrite Ascii.eqb_refl in H.
Qed.

Lemma parse_atom_int z rest :
  delim rest = true -> parse_atom (str_int z +:+ rest) = Some (JInt z, rest).
Proof.
  intros Hrest. unfold parse_atom. rewrite (parse_number_int z rest Hrest).
  destruct (str_int_signed z) as [Hs _]. destruct (str_N_first (Z.abs_N z)) as (d & s & Hd & Hdig).
  destruct (digit_head d Hdig) as (_ & _ & _ & _ & Hn & Ht & Hf & _).
  rewrite Hs, Hd. destruct (z <? 0)%Z.
  - reflexivity.
  - rewrite app_nil_l, app_cons.
    rewrite !drop_prefix_head by (rewrite Ascii.eqb_sym; assumption). reflexivity.
Qed.

(** *** Values *)

Section RoundTrip.
Variable float_repr : Q -> string.
Variable indent : option nat.

Abbreviation enc := (encode float_repr indent).
Abbreviation nli := (newline_indent indent).
Abbreviation sep := (item_separator indent).
Abbreviation gap := (JsonSpec.gap indent).
Abbreviation reads_back := (JsonSpec.reads_back float_repr indent).
Abbreviation member_text := (JsonSpec.member_text float_repr indent).

Lemma sep_gap level : sep +:+ nli level = "," +:+ gap level.
Proof. unfold item_separator, gap, newline_indent. destruct indent; reflexivity. Qed.

Lemma all_ws_gap level : all_ws (gap level) = true.
Proof. unfold gap. destruct indent eqn:E; [| reflexivity]. rewrite <- E. apply all_ws_newline_indent. Qed.

Lemma str_int_head z :
  exists c s, str_int z = String c s /\ value_head c /\ atom_head c.
Proof.
  destruct (str_int_signed z) as [-> _].
  destruct (str_N_first (Z.abs_N z)) as (d & s & -> & Hd).
  destruct (z <? 0)%Z.
  - eexists _, _. split; [reflexivity |]. repeat split.
  - exists d, s. split; [reflexivity |].
    destruct (digit_head d Hd) as (_ & ? & ? & ? & _ & _ & _ & ? & ? & ?). repeat split; assumption.
Qed.

Lemma encode_head level v :
  plain v -> exists c s, enc level v = String c s /\ value_head c.
Proof.
  destruct v as [ | [] | z | f | t | [|x xs] | [|kv kvs]]; intros Hp;
    try (eexists _, _; split; [reflexivity | repeat split]).
  - destruct (str_int_head z) as (c & s & Hs & Hv & _). exists c, s. split; assumption.
  - destruct Hp.
Qed.

Lemma skip_ws_encode level v tail :
  plain v -> skip_ws (enc level v +:+ tail) = enc level v +:+ tail.
Proof.
  intros Hp. destruct (encode_head level v Hp) as (c & s & -> & Hc & _).
  rewrite app_cons. now apply skip_ws_start.
Qed.

Lemma parse_value_atom f c r :
  atom_head c -> parse_value (S f) (String c r) = parse_atom (String c r).
Proof. intros (H1 & H2 & H3). simpl. now rewrite H1, H2, H3. Qed.

Lemma parse_elements_S f s acc :
  parse_elements (S f) s acc
  = match parse_value f s with
    | Some (v, r) =>
        match skip_ws r with
        | "" => None
        | String c r' =>
            if Ascii.eqb c "," then parse_elements f (skip_ws r') (acc ++ [v])
            else if Ascii.eqb c "]" then Some (JArr (acc ++ [v]), r')
            else None
        end
    | None => None
    end.
Proof. reflexivity. Qed.

Lemma parse_members_S f q r acc :
  parse_members (S f) (String q r) acc
  = if negb (Ascii.eqb q "034") then None
    else
      match parse_string_body r with
      | Some (k, r0) =>
          match skip_ws r0 with
          | "" => None
          | String c0 r1 =>
              if negb (Ascii.eqb c0 ":") then None
              else
                match parse_value f (skip_ws r1) with
                | Some (v, r2) =>
                    match skip_ws r2 with
                    | "" => None
                    | String c r' =>
                        if Ascii.eqb c "," then parse_members f (skip_ws r') (dict_set k v acc)
                        else if Ascii.eqb c "}" then Some (JObj (dict_set k v acc), r')
                        else None
                    end
                | None => None
                end
          end
      | None => None
      end.
Proof. reflexivity. Qed.

Lemma join_head (s : string) (a : string) (l : list string) :
  exists t, join s (a :: l) = a +:+ t.
Proof.
  destruct l as [|b l]; [exists ""; simpl; now rewrite app_nil_r |].
  eexists. apply join_cons2.
Qed.

Lemma parse_elements_ok level (items : list json) :
  Forall reads_back items -> Forall plain items -> items <> [] ->
  forall acc fuel rest,
    items_weight items <= fuel ->
    parse_elements fuel
      (join (sep +:+ nli (S level)) (map (enc (S level)) items) +:+ nli level +:+ "]" +:+ rest)
      acc
    = Some (JArr (acc ++ items), rest).
Proof.
  induction items as [|x xs IH]; [easy |]. intros Hrb Hpl _ acc fuel rest Hfuel.
  apply Forall_cons in Hrb as [Hx Hxs]. apply Forall_cons in Hpl as [Hpx Hpxs].
  destruct fuel as [|f]; [simpl in Hfuel; lia |]. simpl in Hfuel.
  rewrite parse_elements_S. destruct xs as [|y ys].
  - simpl join. rewrite Hx; [| lia |].
    + rewrite (skip_ws_all_ws _ _ (all_ws_newline_indent indent level)). reflexivity.
    + destruct indent; reflexivity.
  - cbn [map]. rewrite join_cons2.
    destruct (join_head (sep +:+ nli (S level)) (enc (S level) y) (map (enc (S level)) ys))
      as [t Ht].
    assert (Hskip : forall tail,
               skip_ws (join (sep +:+ nli (S level)) (map (enc (S level)) (y :: ys))
                          +:+ tail)
               = join (sep +:+ nli (S level)) (map (enc (S level)) (y :: ys)) +:+ tail).
    { intros tail. cbn [map]. rewrite Ht, app_assoc. apply skip_ws_encode.
      now apply Forall_cons in Hpxs as [Hpy _]. }
    change (enc (S level) y :: map (enc (S level)) ys) with (map (enc (S level)) (y :: ys)).
    set (J := join (sep +:+ nli (S level)) (map (enc (S level)) (y :: ys))) in *.
    rewrite sep_gap, !app_assoc.
    rewrite Hx; [| lia | reflexivity].
    rewrite app_cons, app_nil_l. rewrite skip_ws_start by reflexivity.
    cbn [Ascii.eqb Bool.eqb]. cbv iota.
    rewrite (skip_ws_all_ws _ _ (all_ws_gap (S level))).
    rewrite Hskip. subst J.
    rewrite (IH Hxs Hpxs ltac:(easy) (acc ++ [x]) f rest) by (simpl in *; lia).
    now rewrite <- List.app_assoc.
Qed.

Lemma dict_set_fresh k v (d : list (string * json)) :
  ~ In k (map fst d) -> dict_set k v d = d ++ [(k, v)].
Proof.
  induction d as [|[k' v'] d IH]; [reflexivity |]. simpl. intros Hk.
  destruct (String.eqb_spec k k') as [-> | _]; [tauto |].
  rewrite IH by tauto. reflexivity.
Qed.

Lemma skip_ws_member level kv tail :
  skip_ws (member_text level kv +:+ tail) = member_text level kv +:+ tail.
Proof.
  unfold member_text, encode_string, dq. rewrite !app_assoc, app_cons.
  now apply skip_ws_start.
Qed.

Lemma parse_members_ok level (members : list (string * json)) :
  Forall (fun kv => reads_back (snd kv)) members ->
  Forall (fun kv => plain (snd kv)) members -> members <> [] ->
  forall acc fuel rest,
    members_weight members <= fuel ->
    NoDup (map fst (acc ++ members)) ->
    parse_members fuel
      (join (sep +:+ nli (S level)) (map (member_text level) members)
         +:+ nli level +:+ "}" +:+ rest)
      acc
    = Some (JObj (acc ++ members), rest).
Proof.
  induction members as [|[k x] ms IH]; [easy |]. intros Hrb Hpl _ acc fuel rest Hfuel Hnd.
  apply Forall_cons in Hrb as [Hx Hxs]. apply Forall_cons in Hpl as [Hpx Hpxs].
  simpl in Hx, Hpx.
  destruct fuel as [|f]; [simpl in Hfuel; lia |]. simpl in Hfuel.
  assert (Hfresh : dict_set k x acc = acc ++ [(k, x)]).
  { apply dict_set_fresh. rewrite map_app in Hnd. apply NoDup_app in Hnd as (_ & Hd & _).
    intros Hin. apply (Hd k); [now apply list_elem_of_In | simpl; left]. }
  assert (Hkey : forall tail,
             parse_members (S f) (member_text level (k, x) +:+ tail) acc
             = match parse_value f (enc (S level) x +:+ tail) with
               | Some (v, r2) =>
                   match skip_ws r2 with
                   | "" => None
                   | String c r' =>
                       if Ascii.eqb c "," then parse_members f (skip_ws r') (dict_set k v acc)
                       else if Ascii.eqb c "}" then Some (JObj (dict_set k v acc), r')
                       else None
                   end
               | None => None
               end).
  { intros tail. unfold member_text. cbn [fst snd].
    destruct (parse_encode_string k (": " +:+ enc (S level) x +:+ tail)) as [Hp He].
    rewrite !app_assoc, He, parse_members_S, Hp. cbn [Ascii.eqb Bool.eqb negb].
    rewrite !app_cons, app_nil_l. rewrite skip_ws_start by reflexivity.
    cbn [Ascii.eqb Bool.eqb negb].
    change (skip_ws (String " " (enc (S level) x +:+ tail)))
      with (skip_ws (enc (S level) x +:+ tail)).
    now rewrite (skip_ws_encode _ _ _ Hpx). }
  destruct ms as [|m ms].
  - simpl join. rewrite Hkey, Hx; [| lia |].
    + rewrite (skip_ws_all_ws _ _ (all_ws_newline_indent indent level)).
      rewrite Hfresh. reflexivity.
    + destruct indent; reflexivity.
  - cbn [map]. rewrite join_cons2.
    destruct (join_head (sep +:+ nli (S level)) (member_text level m)
                (map (member_text level) ms)) as [t Ht].
    assert (Hskip : forall tail,
               skip_ws (join (sep +:+ nli (S level)) (map (member_text level) (m :: ms))
                          +:+ tail)
               = join (sep +:+ nli (S level)) (map (member_text level) (m :: ms)) +:+ tail).
    { intros tail. cbn [map]. rewrite Ht, app_assoc. apply skip_ws_member. }
    change (member_text level m :: map (member_text level) ms)
      with (map (member_text level) (m :: ms)).
    set (J := join (sep +:+ nli (S level)) (map (member_text level) (m :: ms))) in *.
    rewrite sep_gap, !app_assoc.
    rewrite Hkey, Hx; [| lia | reflexivity].
    rewrite app_cons, app_nil_l. rewrite skip_ws_start by reflexivity.
    cbn [Ascii.eqb Bool.eqb]. cbv iota.
    rewrite (skip_ws_all_ws _ _ (all_ws_gap (S level))).
    rewrite Hskip, Hfresh. subst J.
    rewrite (IH Hxs Hpxs ltac:(easy) (acc ++ [(k, x)]) f rest).
    + now rewrite <- List.app_assoc.
    + simpl in *. lia.
    + now rewrite <- List.app_assoc.
Qed.

Lemma plain_items items :
  fold_right (fun x acc => plain x /\ acc) True items -> Forall plain items.
Proof. induction items as [|x xs IH]; [constructor |]. intros [Hx Hxs]. constructor; auto. Qed.

Lemma plain_members (members : list (string * json)) :
  fold_right (fun kv acc => plain (snd kv) /\ acc) True members ->
  Forall (fun kv => plain (snd kv)) members.
Proof. induction members as [|x xs IH]; [constructor |]. intros [Hx Hxs]. constructor; auto. Qed.

(** Every plain document reads back from its text. *)
Lemma parse_encode v : plain v -> reads_back v.
Proof.
  induction v as [ | b | z | f | s | items IH | members IH] using json_nested_ind;
    intros Hp level fuel rest Hfuel Hrest;
    (destruct fuel as [|fuel]; [simpl in Hfuel; lia |]).
  - change (enc level JNull +:+ rest) with (String "n" ("ull" +:+ rest)).
    rewrite parse_value_atom by (repeat split).
    change (String "n" ("ull" +:+ rest)) with ("null" +:+ rest).
    unfold parse_atom. now rewrite drop_prefix_app.
  - destruct b.
    + change (enc level (JBool true) +:+ rest) with (String "t" ("rue" +:+ rest)).
      rewrite parse_value_atom by (repeat split).
      change (String "t" ("rue" +:+ rest)) with ("true" +:+ rest).
      unfold parse_atom.
      replace (drop_prefix "null" ("true" +:+ rest)) with (@None string) by reflexivity.
      now rewrite drop_prefix_app.
    + change (enc level (JBool false) +:+ rest) with (String "f" ("alse" +:+ rest)).
      rewrite parse_value_atom by (repeat split).
      change (String "f" ("alse" +:+ rest)) with ("false" +:+ rest).
      unfold parse_atom.
      replace (drop_prefix "null" ("false" +:+ rest)) with (@None string) by reflexivity.
      replace (drop_prefix "true" ("false" +:+ rest)) with (@None string) by reflexivity.
      now rewrite drop_prefix_app.
  - cbn [encode]. destruct (str_int_head z) as (c & s & Hs & _ & Ha).
    rewrite Hs, app_cons, parse_value_atom by exact Ha.
    rewrite <- app_cons, <- Hs. now apply parse_atom_int.
  - destruct Hp.
  - cbn [encode]. destruct (parse_encode_string s rest) as [Hps He].
    rewrite He. simpl. now rewrite Hps.
  - destruct items as [|x xs]; [reflexivity |].
    cbn [plain] in Hp. apply plain_items in Hp.
    assert (Hrb : Forall reads_back (x :: xs)).
    { clear -IH Hp. induction Hp as [|y ys Hy _ IHp]; [constructor |].
      apply Forall_cons in IH as [IHy IHys]. constructor; auto. }
    remember (x :: xs) as items eqn:Hitems.
    assert (Hne : items <> []) by (subst; easy).
    replace (enc level (JArr items))
      with ("[" +:+ nli (S level)
              +:+ join (sep +:+ nli (S level)) (map (enc (S level)) items)
              +:+ nli level +:+ "]") by (subst; reflexivity).
    rewrite !app_assoc, app_cons, app_nil_l. cbn [parse_value Ascii.eqb Bool.eqb]. cbv iota.
    rewrite (skip_ws_all_ws _ _ (all_ws_newline_indent indent (S level))).
    assert (Hhead : exists c s,
               join (sep +:+ nli (S level)) (map (enc (S level)) items)
                 +:+ nli level +:+ "]" +:+ rest = String c s /\ value_head c).
    { subst items. cbn [map].
      destruct (join_head (sep +:+ nli (S level)) (enc (S level) x) (map (enc (S level)) xs))
        as [t ->].
      apply Forall_cons in Hp as [Hpx _].
      destruct (encode_head (S level) x Hpx) as (c & s & -> & Hc).
      exists c. eexists. rewrite !app_cons. split; [reflexivity | exact Hc]. }
    destruct Hhead as (c & s & Hcs & Hws & Hbr & _).
    pose proof (parse_elements_ok level items Hrb Hp Hne [] fuel rest) as Hel.
    rewrite Hcs in *. rewrite skip_ws_start by exact Hws. rewrite Hbr.
    apply Hel. simpl in Hfuel. unfold items_weight. lia.
  - destruct members as [|m ms]; [reflexivity |].
    cbn [plain] in Hp. destruct Hp as [Hnd Hp]. apply plain_members in Hp.
    assert (Hrb : Forall (fun kv => reads_back (snd kv)) (m :: ms)).
    { clear -IH Hp. induction Hp as [|y ys Hy _ IHp]; [constructor |].
      apply Forall_cons in IH as [IHy IHys]. constructor; auto. }
    remember (m :: ms) as members eqn:Hmembers.
    assert (Hne : members <> []) by (subst; easy).
    replace (enc level (JObj members))
      with ("{" +:+ nli (S level)
              +:+ join (sep +:+ nli (S level)) (map (member_text level) members)
              +:+ nli level +:+ "}") by (subst; reflexivity).
    rewrite !app_assoc, app_cons, app_nil_l. cbn [parse_value Ascii.eqb Bool.eqb]. cbv iota.
    rewrite (skip_ws_all_ws _ _ (all_ws_newline_indent indent (S level))).
    assert (Hhead : exists s,
               join (sep +:+ nli (S level)) (map (member_text level) members)
                 +:+ nli level +:+ "}" +:+ rest = String "034" s).
    { subst members. cbn [map].
      destruct (join_head (sep +:+ nli (S level)) (member_text level m)
                  (map (member_text level) ms)) as [t ->].
      unfold member_text, encode_string, dq. rewrite !app_assoc, !app_cons. eexists. reflexivity. }
    destruct Hhead as (s & Hs).
    pose proof (parse_members_ok level members Hrb Hp Hne [] fuel rest) as Hel.
    rewrite Hs in *. rewrite skip_ws_start by reflexivity.
    cbn [Ascii.eqb Bool.eqb]. cbv iota.
    apply Hel; [simpl in Hfuel; unfold members_weight; lia | exact Hnd].
Qed.

(** *** The fuel [loads] gives is enough *)

Lemma length_join_cons2 (s a b : string) (l : list string) :
  String.length (join s (a :: b :: l))
  = String.length a + String.length s + String.length (join s (b :: l)).
Proof. rewrite join_cons2, !length_app_str. lia. Qed.

Lemma length_sep level : 1 <= String.length (sep +:+ nli level).
Proof. rewrite sep_gap, app_cons. simpl. lia. Qed.

Lemma items_weight_le level (items : list json) :
  Forall (fun x => forall l, weight x <= String.length (enc l x)) items -> items <> [] ->
  items_weight items
  <= S (String.length (join (sep +:+ nli (S level)) (map (enc (S level)) items))).
Proof.
  induction 1 as [|x xs Hx _ IH]; [easy | intros _].
  destruct xs as [|y ys].
  - simpl. specialize (Hx (S level)). lia.
  - cbn [map]. rewrite length_join_cons2.
    pose proof (length_sep (S level)). specialize (Hx (S level)).
    specialize (IH ltac:(easy)). cbn [map] in IH. simpl items_weight in *. lia.
Qed.

Lemma length_member level kv :
  String.length (enc (S level) (snd kv)) <= String.length (member_text level kv).
Proof. unfold member_text. rewrite !length_app_str. lia. Qed.

Lemma members_weight_le level (members : list (string * json)) :
  Forall (fun kv => forall l, weight (snd kv) <= String.length (enc l (snd kv))) members ->
  members <> [] ->
  members_weight members
  <= S (String.length (join (sep +:+ nli (S level)) (map (member_text level) members))).
Proof.
  induction 1 as [|x xs Hx _ IH]; [easy | intros _].
  pose proof (length_member level x) as Hm. specialize (Hx (S level)).
  destruct xs as [|y ys].
  - unfold join. cbn [String.concat map]. simpl members_weight. lia.
  - cbn [map]. rewrite length_join_cons2.
    pose proof (length_sep (S level)).
    specialize (IH ltac:(easy)). cbn [map] in IH. simpl members_weight in *. lia.
Qed.

Lemma weight_le_length v : plain v -> forall level, weight v <= String.length (enc level v).
Proof.
  induction v as [ | b | z | f | s | items IH | members IH] using json_nested_ind;
    intros Hp level.
  - simpl. lia.
  - destruct b; simpl; lia.
  - cbn [encode weight]. destruct (str_int_head z) as (c & s & -> & _). simpl. lia.
  - destruct Hp.
  - cbn [encode weight]. unfold encode_string, dq. rewrite app_cons. simpl. lia.
  - destruct items as [|x xs]; [simpl; lia |].
    cbn [plain] in Hp. apply plain_items in Hp.
    assert (Hall : Forall (fun x => forall l, weight x <= String.length (enc l x)) (x :: xs)).
    { clear -IH Hp. induction Hp as [|y ys Hy _ IHp]; [constructor |].
      apply Forall_cons in IH as [IHy IHys]. constructor; auto. }
    pose proof (items_weight_le level (x :: xs) Hall ltac:(easy)) as Hw.
    replace (enc level (JArr (x :: xs)))
      with ("[" +:+ nli (S level)
              +:+ join (sep +:+ nli (S level)) (map (enc (S level)) (x :: xs))
              +:+ nli level +:+ "]") by reflexivity.
    set (J := join (sep +:+ nli (S level)) (map (enc (S level)) (x :: xs))) in *.
    rewrite !length_app_str. cbn [weight]. fold (items_weight (x :: xs)).
    change (String.length "[") with 1. change (String.length "]") with 1. lia.
  - destruct members as [|m ms]; [simpl; lia |].
    cbn [plain] in Hp. destruct Hp as [_ Hp]. apply plain_members in Hp.
    assert (Hall : Forall (fun kv => forall l, weight (snd kv) <= String.length (enc l (snd kv)))
                     (m :: ms)).
    { clear -IH Hp. induction Hp as [|y ys Hy _ IHp]; [constructor |].
      apply Forall_cons in IH as [IHy IHys]. constructor; auto. }
    pose proof (members_weight_le level (m :: ms) Hall ltac:(easy)) as Hw.
    replace (enc level (JObj (m :: ms)))
      with ("{" +:+ nli (S level)
              +:+ join (sep +:+ nli (S level)) (map (member_text level) (m :: ms))
              +:+ nli level +:+ "}") by reflexivity.
    set (J := join (sep +:+ nli (S level)) (map (member_text level) (m :: ms))) in *.
    rewrite !length_app_str. cbn [weight]. fold (members_weight (m :: ms)).
    change (String.length "{") with 1. change (String.length "}") with 1. lia.
Qed.

(** [json.loads(json.dumps(v, indent=indent)) == v] for a document with no
    float in it. *)
Lemma loads_dumps v : plain v -> loads (dumps float_repr indent v) = Some v.
Proof.
  intros Hp. unfold loads, dumps.
  rewrite <- (app_nil_r (enc 0 v)) at 2.
  rewrite (skip_ws_encode 0 v "" Hp).
  rewrite (parse_encode v Hp 0 _ ""); [reflexivity | | reflexivity].
  pose proof (weight_le_length v Hp 0). lia.
Qed.

End RoundTrip.

End JsonFacts.

(** * generate_trace_files.py: the .jsonl files *)

Module TraceFacts.
Import PyStrSpec GoTestSpec XUnitSpec JsonSpec TraceSpec PyStrFacts MFacts GoTestFacts XUnitFacts Json JsonFacts Trace.

(** *** More of the random module *)

Lemma choice_spec {A} (xs : list A) w :
  xs <> [] -> returns (Random.choice xs) w (fun _ w' => same_env w w').
Proof.
  destruct xs as [|x xs]; [easy | intros _]. unfold Random.choice.
  apply returns_bind. eapply returns_mono; [apply raw_spec |]. intros r w' E.
  apply returns_ret. exact E.
Qed.

Lemma choices_spec {A} (xs : list A) k w :
  xs <> [] -> returns (Random.choices xs k) w (fun _ w' => same_env w w').
Proof.
  destruct xs as [|x xs]; [easy | intros _]. unfold Random.choices.
  eapply returns_mono.
  { apply (returns_for_each (fun _ _ w' => same_env w w')); [apply same_env_refl |].
    intros done i rest acc w1 _ E1.
    apply returns_bind. eapply returns_mono; [apply random_spec |]. intros r w2 (E2 & _).
    apply returns_ret. eauto using same_env_trans. }
  intros cs w' E. exact E.
Qed.

Lemma time_time_spec w : returns time_time w (fun _ w' => same_env w w').
Proof. unfold returns, time_time. repeat split. Qed.

(** *** The text of a plain document with no indent holds no newline *)

Lemma no_nl_escape_char c : no_nl (escape_char c) = true.
Proof. destruct c as [[] [] [] [] [] [] [] []]; reflexivity. Qed.

Lemma no_nl_escape s : no_nl (escape s) = true.
Proof.
  induction s as [|c s IH]; [reflexivity |]. simpl.
  now rewrite no_nl_app, no_nl_escape_char, IH.
Qed.

Lemma no_nl_encode_string s : no_nl (encode_string s) = true.
Proof. unfold encode_string, dq. now rewrite !no_nl_app, no_nl_escape. Qed.

Lemma no_nl_join (s : string) (l : list string) :
  no_nl s = true -> Forall (fun x => no_nl x = true) l -> no_nl (join s l) = true.
Proof.
  intros Hs. induction 1 as [|x xs Hx Hxs IH]; [reflexivity |].
  destruct xs as [|y ys]; [exact Hx |].
  rewrite join_cons2, !no_nl_app, Hx, Hs, IH. reflexivity.
Qed.

Lemma no_nl_encode fr v : plain v -> forall level, no_nl (encode fr None level v) = true.
Proof.
  induction v as [ | b | z | f | s | items IH | members IH] using json_nested_ind;
    intros Hp level.
  - reflexivity.
  - now destruct b.
  - cbn [encode]. avoids_solve.
  - destruct Hp.
  - apply no_nl_encode_string.
  - destruct items as [|x xs]; [reflexivity |].
    cbn [plain] in Hp. apply plain_items in Hp.
    replace (encode fr None level (JArr (x :: xs)))
      with ("[" +:+ "" +:+ join (", " +:+ "") (map (encode fr None (S level)) (x :: xs))
              +:+ "" +:+ "]") by reflexivity.
    rewrite !no_nl_app, no_nl_join; [reflexivity | reflexivity |].
    apply Forall_map. clear -IH Hp. induction Hp as [|y ys Hy _ IHp]; [constructor |].
    apply Forall_cons in IH as [IHy IHys]. constructor; auto.
  - destruct members as [|m ms]; [reflexivity |].
    cbn [plain] in Hp. destruct Hp as [_ Hp]. apply plain_members in Hp.
    replace (encode fr None level (JObj (m :: ms)))
      with ("{" +:+ "" +:+ join (", " +:+ "")
                            (map (fun kv => encode_string (fst kv) +:+ ": "
                                              +:+ encode fr None (S level) (snd kv)) (m :: ms))
              +:+ "" +:+ "}") by reflexivity.
    rewrite !no_nl_app, no_nl_join; [reflexivity | reflexivity |].
    apply Forall_map. clear -IH Hp. induction Hp as [|y ys Hy _ IHp]; [constructor |].
    apply Forall_cons in IH as [IHy IHys]. constructor; [| auto].
    simpl. rewrite !no_nl_app, no_nl_encode_string, IHy by exact Hy. reflexivity.
Qed.

Lemma no_nl_dumps fr v : plain v -> no_nl (dumps fr None v) = true.
Proof. intros Hp. now apply no_nl_encode. Qed.

(** *** Spans and trace objects *)

(** Decides that the strings of a closed list are distinct. *)
Ltac nodup :=
  match goal with
  | |- NoDup ?l => apply (bool_decide_unpack (NoDup l)); vm_compute; exact I
  end.

Lemma plain_string_attr k v : plain (string_attr k v).
Proof. unfold string_attr. simpl. repeat split; try exact I; nodup. Qed.

Lemma generate_span_spec trace_id parent span_num start w :
  plain parent ->
  returns (generate_span trace_id parent span_num start) w
    (fun span w' =>
       same_env w w' /\ plain span /\ exists id, get_key "spanId" span = Some (JStr id)).
Proof.
  intros Hparent. unfold generate_span, generate_span_id.
  apply returns_bind. apply returns_bind.
  eapply returns_mono; [apply choices_spec; easy |]. intros cs w1 E1. cbv beta in E1.
  apply returns_ret.
  apply returns_bind. eapply returns_mono; [apply randint_spec; lia |]. intros d w2 (E2 & _).
  apply returns_bind. eapply returns_mono; [apply randint_spec; lia |]. intros k w3 (E3 & _).
  apply returns_bind. eapply returns_mono; [apply choice_spec; easy |]. intros op w4 E4.
  cbv beta in E4.
  apply returns_ret. split; [eauto using same_env_trans |]. split; [| eexists; reflexivity].
  simpl. repeat split; try exact I; try exact Hparent; nodup.
Qed.

Lemma plain_arr items : Forall plain items -> plain (JArr items).
Proof. induction 1 as [|x xs Hx _ IH]; [exact I |]. split; assumption. Qed.

Lemma generate_trace_data_spec num_spans w :
  returns (generate_trace_data num_spans) w
    (fun doc w' => same_env w w' /\ trace_doc (Z.to_nat num_spans) doc).
Proof.
  unfold generate_trace_data, generate_trace_id.
  apply returns_bind. apply returns_bind.
  eapply returns_mono; [apply choices_spec; easy |]. intros cs w1 E1. cbv beta in E1.
  apply returns_ret.
  apply returns_bind. eapply returns_mono; [apply time_time_spec |]. intros now w2 E2.
  cbv beta in E2.
  assert (E02 : same_env w w2) by eauto using same_env_trans.
  apply returns_bind. eapply returns_mono.
  { apply (returns_for_each
             (fun done (s : list json * json) w' =>
                same_env w w' /\ Forall plain s.1 /\ plain s.2 /\ length s.1 = length done)).
    - repeat split; [apply E02 .. | constructor].
    - intros done i rest [spans parent] w3 _ (E3 & Hspans & Hparent & Hlen).
      simpl in Hspans, Hparent, Hlen.
      apply returns_bind. eapply returns_mono; [apply generate_span_spec, Hparent |].
      intros span w4 (E4 & Hspan & id & Hid).
      assert (Hspans' : Forall plain (spans ++ [span])).
      { apply Forall_app. split; [exact Hspans | repeat constructor; exact Hspan]. }
      assert (Hlen' : length (spans ++ [span]) = length (done ++ [i])).
      { rewrite !length_app, Hlen. reflexivity. }
      apply returns_bind. eapply returns_mono; [apply random_spec |]. intros r w5 (E5 & _).
      assert (E05 : same_env w w5) by eauto using same_env_trans.
      destruct (lt_float r (Fin 0.3)).
      + rewrite Hid. apply returns_bind. apply returns_ret. apply returns_ret.
        repeat split; try apply E05; assumption.
      + apply returns_bind. eapply returns_mono; [apply random_spec |].
        intros r' w6 (E6 & _).
        assert (E06 : same_env w w6) by eauto using same_env_trans.
        destruct (lt_float r' (Fin 0.5)); apply returns_ret;
          repeat split; try apply E06; assumption. }
  intros [spans parent] w3 (E3 & Hspans & _ & Hlen). simpl in Hspans, Hlen.
  rewrite length_py_range in Hlen.
  apply returns_ret. split; [exact E3 |]. split.
  - simpl. repeat split; try exact I; try nodup. apply (plain_arr spans Hspans).
  - exists spans. split; [reflexivity | exact Hlen].
Qed.

(** The lines of a file that is newline-free lines, each followed by a
    newline. *)
Lemma file_lines_join (lines : list string) :
  lines <> [] -> Forall (fun l => no_nl l = true) lines ->
  file_lines (join nl lines +:+ nl) = lines.
Proof.
  intros Hne Hall. unfold file_lines.
  replace (join nl lines +:+ nl) with (join nl lines +:+ nl +:+ "")
    by (now rewrite (app_nil_r nl)).
  rewrite split_nl_app_nl, (split_nl_join_lines lines Hne Hall).
  apply removelast_last.
Qed.

Section File.
Variable float_repr : Q -> string.
Abbreviation trace_text := (TraceSpec.trace_text float_repr).

Lemma trace_loop_spec spans_per_file w :
  returns
    (for_each (py_range (Z.max 1 (spans_per_file / spans_per_object)))
       (fun (_ : Z) '(lines, actual_spans) =>
          trace_data ← generate_trace_data spans_per_object;
          mret (lines ++ [dumps float_repr None trace_data],
                (actual_spans + spans_per_object)%Z))
       ([], 0%Z))
    w
    (fun (s : list string * Z) w' =>
       same_env w w' /\
       exists docs,
         Forall (trace_doc 275) docs /\
         length docs = Z.to_nat (Z.max 1 (spans_per_file / spans_per_object)) /\
         s = (map (dumps float_repr None) docs,
              (spans_per_object * Z.of_nat (length docs))%Z)).
Proof.
  eapply returns_mono.
  { apply (returns_for_each
             (fun done (s : list string * Z) w' =>
                same_env w w' /\
                exists docs,
                  Forall (trace_doc 275) docs /\ length docs = length done /\
                  s = (map (dumps float_repr None) docs,
                       (spans_per_object * Z.of_nat (length docs))%Z))).
    - split; [apply same_env_refl |]. exists []. repeat split. constructor.
    - intros done i rest [lines actual] w1 _ (E1 & docs & Hdocs & Hlen & Hs).
      injection Hs as -> ->.
      apply returns_bind. eapply returns_mono; [apply generate_trace_data_spec |].
      intros doc w2 (E2 & Hdoc). apply returns_ret.
      split; [eauto using same_env_trans |].
      exists (docs ++ [doc]). split; [| split].
      + apply Forall_app. split; [exact Hdocs | constructor; [exact Hdoc | constructor]].
      + rewrite !length_app, Hlen. reflexivity.
      + rewrite map_app, length_app. simpl. f_equal. unfold spans_per_object. lia. }
  intros s w' (E & docs & Hdocs & Hlen & Hs). rewrite length_py_range in Hlen.
  split; [exact E |]. exists docs. auto.
Qed.

(** One call of [generate_trace_file]: the objects are made, which moves
    only the cursors of the generator and the clock, and their text is then
    written to a path that depends on the directory and the file number
    alone. *)
Lemma generate_trace_file_outcome file_num spans_per_file output_dir w :
  exists docs w1,
    same_env w w1 /\
    Forall (trace_doc 275) docs /\
    length docs = Z.to_nat (Z.max 1 (spans_per_file / spans_per_object)) /\
    generate_trace_file float_repr file_num spans_per_file output_dir w
    = then_write (trace_path output_dir file_num) (trace_text docs)
        (spans_per_object * Z.of_nat (length docs))%Z w1.
Proof.
  destruct (returns_elim _ _ _ (trace_loop_spec spans_per_file w))
    as (s & w1 & Hrun & E1 & docs & Hdocs & Hlen & ->).
  exists docs, w1. split; [exact E1 |]. split; [exact Hdocs |]. split; [exact Hlen |].
  unfold generate_trace_file. rewrite (bind_run _ _ _ _ _ Hrun). reflexivity.
Qed.

Lemma generate_trace_file_spec file_num spans_per_file output_dir w :
  OS.is_dir w (trace_path output_dir file_num) = false ->
  OS.is_dir w (OS.dirname (trace_path output_dir file_num)) = true ->
  returns (generate_trace_file float_repr file_num spans_per_file output_dir) w
    (fun r w' =>
       exists docs,
         Forall (trace_doc 275) docs /\
         length docs = Z.to_nat (Z.max 1 (spans_per_file / spans_per_object)) /\
         r = (spans_per_object * Z.of_nat (length docs))%Z /\
         files w' = <[trace_path output_dir file_num := trace_text docs]> (files w) /\
         dirs w' = dirs w /\ stdout w' = stdout w).
Proof.
  intros Hnd Hd.
  destruct (generate_trace_file_outcome file_num spans_per_file output_dir w)
    as (docs & w1 & E & Hdocs & Hlen & Hrun).
  unfold returns at 1. rewrite Hrun.
  pose proof (then_write_ok (trace_path output_dir file_num) (trace_text docs)
                (spans_per_object * Z.of_nat (length docs))%Z w1) as Hw.
  rewrite !(is_dir_same_env w w1 _ E) in Hw. specialize (Hw Hnd Hd).
  eapply returns_mono; [exact Hw |]. intros r w' (-> & Hf & Hds & Ho).
  destruct E as (_ & _ & Ed & Ef & Eo).
  exists docs. split; [exact Hdocs |]. split; [exact Hlen |]. split; [reflexivity |].
  split; [rewrite Hf, Ef; reflexivity |]. split; congruence.
Qed.

(** Reading back a file that holds the dumps of trace objects. *)
Lemma trace_file_readings (docs : list json) :
  docs <> [] -> Forall (trace_doc 275) docs ->
  let content := trace_text docs in
  file_lines content = map (dumps float_repr None) docs /\
  Forall (fun line =>
            exists doc spans,
              loads line = Some doc /\ spans_of doc = Some (JArr spans) /\
              Z.of_nat (length spans) = spans_per_object)
         (file_lines content) /\
  count_spans content = 275 * length docs.
Proof.
  intros Hne Hdocs content.
  assert (Hlines : file_lines content = map (dumps float_repr None) docs).
  { apply file_lines_join; [now destruct docs |].
    apply Forall_map. eapply Forall_impl; [exact Hdocs |].
    intros d [Hp _]. now apply no_nl_dumps. }
  split; [exact Hlines |]. unfold count_spans. rewrite Hlines. clear Hlines Hne content.
  induction Hdocs as [|d ds [Hp (spans & Hs & Hlen)] _ [IH1 IH2]]; [split; [constructor | reflexivity] |].
  assert (Hload : loads (dumps float_repr None d) = Some d) by now apply loads_dumps.
  split.
  - constructor; [| exact IH1]. exists d, spans. rewrite Hlen. repeat split; assumption.
  - cbn [map fold_right length]. rewrite IH2. unfold line_spans.
    rewrite Hload. simpl. rewrite Hs, Hlen. lia.
Qed.

Lemma docs_nonempty spans_per_file (docs : list json) :
  length docs = Z.to_nat (Z.max 1 (spans_per_file / spans_per_object)) -> docs <> [].
Proof. intros Hlen ->. simpl in Hlen. lia. Qed.

(** C1. Every line of a file written by [generate_trace_file] parses as JSON,
    and in the parsed object resourceSpans[0].scopeSpans[0].spans is a list
    of 275 spans (the fixed [spans_per_object]), whatever [spans_per_file]
    is.  The file is exactly these lines, each ended by a newline. *)
Theorem trace_lines_are_json file_num spans_per_file output_dir w :
  OS.is_dir w (trace_path output_dir file_num) = false ->
  OS.is_dir w (OS.dirname (trace_path output_dir file_num)) = true ->
  exists n content w',
    generate_trace_file float_repr file_num spans_per_file output_dir w = (Ok n, w') /\
    files w' !! trace_path output_dir file_num = Some content /\
    content = join nl (file_lines content) +:+ nl /\
    file_lines content <> [] /\
    Forall (fun line =>
              exists doc spans,
                loads line = Some doc /\ spans_of doc = Some (JArr spans) /\
                Z.of_nat (length spans) = spans_per_object)
           (file_lines content).
Proof.
  intros Hnd Hd.
  destruct (returns_elim _ _ _
              (generate_trace_file_spec file_num spans_per_file output_dir w Hnd Hd))
    as (r & w' & Hrun & docs & Hdocs & Hlen & -> & Hf & _).
  pose proof (docs_nonempty _ _ Hlen) as Hne.
  destruct (trace_file_readings docs Hne Hdocs) as (Hlines & Hall & _).
  eexists _, _, w'. split; [exact Hrun |].
  split; [rewrite Hf; apply lookup_insert_eq |].
  rewrite Hlines in *. split; [reflexivity |]. split; [| exact Hall].
  now destruct docs.
Qed.

(** C10. [generate_trace_file] writes max(1, spans_per_file // 275) lines and
    returns 275 times that number, which is the number of spans the file
    holds: at least 275, and more than was asked for when [spans_per_file] is
    under 275.  (Nothing here needs [spans_per_file >= 0].) *)
Theorem trace_file_size file_num spans_per_file output_dir w :
  OS.is_dir w (trace_path output_dir file_num) = false ->
  OS.is_dir w (OS.dirname (trace_path output_dir file_num)) = true ->
  exists content w',
    generate_trace_file float_repr file_num spans_per_file output_dir w
      = (Ok (275 * Z.max 1 (spans_per_file / 275))%Z, w') /\
    files w' !! trace_path output_dir file_num = Some content /\
    Z.of_nat (length (file_lines content)) = Z.max 1 (spans_per_file / 275) /\
    Z.of_nat (count_spans content) = (275 * Z.max 1 (spans_per_file / 275))%Z /\
    (275 <= Z.of_nat (count_spans content))%Z /\
    ((spans_per_file < 275)%Z -> (spans_per_file < Z.of_nat (count_spans content))%Z).
Proof.
  intros Hnd Hd.
  destruct (returns_elim _ _ _
              (generate_trace_file_spec file_num spans_per_file output_dir w Hnd Hd))
    as (r & w' & Hrun & docs & Hdocs & Hlen & -> & Hf & _).
  pose proof (docs_nonempty _ _ Hlen) as Hne.
  destruct (trace_file_readings docs Hne Hdocs) as (Hlines & _ & Hcount).
  unfold spans_per_object in *.
  assert (Hn : Z.of_nat (length docs) = Z.max 1 (spans_per_file / 275)) by lia.
  eexists _, w'. split; [rewrite Hrun, Hn; reflexivity |].
  split; [rewrite Hf; apply lookup_insert_eq |].
  rewrite Hlines, Hcount, length_map. lia.
Qed.

End File.

Lemma trace_lines_are_json_witness :
  exists n content w',
    generate_trace_file (fun _ => "") 7 100 "out" (world_of [3; 1; 4; 1; 5]%N [1.5%Q] ["out"] [])
      = (Ok n, w') /\
    files w' !! trace_path "out" 7 = Some content /\
    content = join nl (file_lines content) +:+ nl /\
    file_lines content <> [] /\
    Forall (fun line =>
              exists doc spans,
                loads line = Some doc /\ spans_of doc = Some (JArr spans) /\
                Z.of_nat (length spans) = spans_per_object)
           (file_lines content).
Proof.
  apply (trace_lines_are_json (fun _ => "") 7 100 "out"
           (world_of [3; 1; 4; 1; 5]%N [1.5%Q] ["out"] []));
    vm_compute; reflexivity.
Defined.

Lemma trace_file_size_witness :
  exists content w',
    generate_trace_file (fun _ => "") 7 100 "out" (world_of [3; 1; 4; 1; 5]%N [1.5%Q] ["out"] [])
      = (Ok (275 * Z.max 1 (100 / 275))%Z, w') /\
    files w' !! trace_path "out" 7 = Some content /\
    Z.of_nat (length (file_lines content)) = Z.max 1 (100 / 275) /\
    Z.of_nat (count_spans content) = (275 * Z.max 1 (100 / 275))%Z /\
    (275 <= Z.of_nat (count_spans content))%Z /\
    ((100 < 275)%Z -> (100 < Z.of_nat (count_spans content))%Z).
Proof.
  apply (trace_file_size (fun _ => "") 7 100 "out"
           (world_of [3; 1; 4; 1; 5]%N [1.5%Q] ["out"] []));
    vm_compute; reflexivity.
Defined.

End TraceFacts.

(** * The drivers: what a run leaves in the file system *)

Module MainFacts.
Import PyStrSpec GoTestSpec XUnitSpec JsonSpec TraceSpec.
Import PyStrFacts MFacts GoTestFacts XUnitFacts Json JsonFacts TraceFacts.

Lemma same_fs_refl w : same_fs w w.
Proof. split; reflexivity. Qed.

Lemma same_fs_trans w1 w2 w3 : same_fs w1 w2 -> same_fs w2 w3 -> same_fs w1 w3.
Proof. intros [? ?] [? ?]. split; congruence. Qed.

Lemma same_env_fs w w' : same_env w w' -> same_fs w w'.
Proof. intros (_ & _ & ? & ? & _). split; assumption. Qed.

Lemma print_spec line w : returns (print line) w (fun _ w' => same_fs w w').
Proof. unfold returns, print. split; reflexivity. Qed.

Lemma time_fs_spec w : returns time_time w (fun _ w' => same_fs w w').
Proof. eapply returns_mono; [apply time_time_spec |]. intros t w'. apply same_env_fs. Qed.

Lemma can_write_same w w' p : dirs w' = dirs w -> can_write w' p = can_write w p.
Proof. intros H. unfold can_write, OS.is_dir. now rewrite H. Qed.

Lemma can_write_split w p :
  can_write w p = true ->
  OS.is_dir w p = false /\ OS.is_dir w (OS.dirname p) = true.
Proof.
  unfold can_write. intros [H1 H2]%andb_true_iff. now apply negb_true_iff in H1.
Qed.

Lemma wrote_nil w w' : same_fs w w' -> wrote [] w w'.
Proof. intros [Hd Hf]. split; [exact Hd |]. split; [easy |]. intros p _. now rewrite Hf. Qed.

Lemma wrote_same_fs paths w w' w'' : wrote paths w w' -> same_fs w' w'' -> wrote paths w w''.
Proof.
  intros (Hd & Hin & Hout) [Hd' Hf']. split; [congruence |].
  split; intros p Hp; rewrite Hf'; auto.
Qed.

Lemma wrote_fs_same paths w w' w'' : same_fs w w' -> wrote paths w' w'' -> wrote paths w w''.
Proof.
  intros [Hd' Hf'] (Hd & Hin & Hout). split; [congruence |].
  split; [exact Hin |]. intros p Hp. rewrite Hout by exact Hp. now rewrite Hf'.
Qed.

Lemma wrote_step paths w w' w'' p c :
  wrote paths w w' -> dirs w'' = dirs w' -> files w'' = <[p := c]> (files w') ->
  wrote (paths ++ [p]) w w''.
Proof.
  intros (Hd & Hin & Hout) Hd' Hf'. split; [congruence |]. split.
  - intros q [Hq | [<- | []]]%in_app_or; rewrite Hf'.
    + destruct (decide (p = q)) as [-> | Hne];
        [rewrite lookup_insert_eq; eauto | rewrite lookup_insert_ne by exact Hne; auto].
    + rewrite lookup_insert_eq. eauto.
  - intros q Hq. rewrite Hf'.
    rewrite lookup_insert_ne by (intros ->; apply Hq, in_or_app; right; now left).
    apply Hout. intros Hq'. apply Hq, in_or_app. now left.
Qed.

(** A loop whose every round writes the file of its index, and touches
    nothing else of the file system, writes the files of all its indices. *)
Lemma write_loop_spec {S} (path : Z -> string) (round : Z -> S -> M S)
    (ks : list Z) (s0 : S) (w : world) :
  (forall k s w1, In k ks -> dirs w1 = dirs w ->
     returns (round k s) w1
       (fun _ w2 => dirs w2 = dirs w1 /\ exists c, files w2 = <[path k := c]> (files w1))) ->
  returns (for_each ks round s0) w (fun _ w' => wrote (map path ks) w w').
Proof.
  intros Hround.
  apply (returns_for_each (fun done _ w' => wrote (map path done) w w')).
  - apply wrote_nil, same_fs_refl.
  - intros done k rest s w1 Hks Hw.
    assert (Hin : In k ks) by (rewrite Hks; apply in_or_app; right; now left).
    eapply returns_mono; [apply (Hround k s w1 Hin), Hw |].
    intros s' w2 (Hd & c & Hf). rewrite map_app. simpl.
    eapply wrote_step; eassumption.
Qed.

(** *** Arguments *)

Lemma float_of_int_spec n w :
  Qle_bool float_overflow (Qabs (inject_Z n)) = false ->
  returns (float_of_int n) w (fun t w' => t = Fin (inject_Z n) /\ w' = w).
Proof. intros H. unfold float_of_int. rewrite H. apply returns_ret. auto. Qed.

Lemma expected_spec n rate w :
  expected_ok n rate = true ->
  returns (total ← float_of_int n; int_of_float (fmul total rate)) w (fun _ w' => w' = w).
Proof.
  unfold expected_ok. destruct rate as [q | | |]; try discriminate.
  intros [H1 H2]%andb_true_iff. apply negb_true_iff in H1, H2.
  apply returns_bind. eapply returns_mono; [apply float_of_int_spec, H1 |].
  intros t w' [-> ->]. simpl. unfold clamp. rewrite H2. apply returns_ret. reflexivity.
Qed.

Lemma int_of_float_fmul_spec n rate w :
  expected_ok n rate = true ->
  returns (int_of_float (fmul (Fin (inject_Z n)) rate)) w (fun _ w' => w' = w).
Proof.
  unfold expected_ok. destruct rate as [q | | |]; try discriminate.
  intros [H1 H2]%andb_true_iff. apply negb_true_iff in H2.
  simpl. unfold clamp. rewrite H2. apply returns_ret. reflexivity.
Qed.

Lemma expected_ok_int n rate :
  expected_ok n rate = true -> Qle_bool float_overflow (Qabs (inject_Z n)) = false.
Proof.
  unfold expected_ok. destruct rate; try discriminate.
  intros [H1 _]%andb_true_iff. now apply negb_true_iff in H1.
Qed.

(** A step that leaves the file system alone, then the rest. *)
Lemma returns_after {A B} (c : M A) (f : A -> M B) w (Q : B -> world -> Prop) :
  returns c w (fun _ w' => same_fs w w') ->
  (forall a w1, same_fs w w1 -> returns (f a) w1 Q) ->
  returns (c ≫= f) w Q.
Proof.
  intros Hc Hf. apply returns_bind. eapply returns_mono; [exact Hc |].
  intros a w1 Hfs. now apply Hf.
Qed.

Lemma progress_spec (b : bool) line w :
  returns (if b then print line else mret tt) w (fun _ w' => same_fs w w').
Proof. destruct b; [apply print_spec | apply returns_ret, same_fs_refl]. Qed.

(** The preamble of the three drivers that take a failure rate: arguments,
    three lines of output, the expected number of failures, the clock. *)
Ltac preamble H1 H2 H3 He :=
  rewrite H1, H2, H3;
  do 3 (apply returns_bind, returns_ret);
  apply returns_after; [apply print_spec | intros ? w1 F1];
  apply returns_after; [apply print_spec | intros ? w2 F2];
  apply returns_bind;
  (eapply returns_mono; [apply float_of_int_spec, (expected_ok_int _ _ He) |]);
  intros ? ? [-> ->];
  apply returns_bind;
  (eapply returns_mono; [apply int_of_float_fmul_spec, He |]);
  intros ? ? ->;
  apply returns_after; [apply print_spec | intros ? w3 F3];
  apply returns_after; [apply print_spec | intros ? w4 F4];
  apply returns_after; [apply time_fs_spec | intros ? w5 F5].

(** The closing lines of those drivers. *)
Ltac closing :=
  repeat (apply returns_after; [first [apply print_spec | apply time_fs_spec] | intros ? ? ?]).

Lemma gotest_main_spec argv num_files tests_per_file rate w :
  arg_or argv 1 py_int 10%Z = mret num_files ->
  arg_or argv 2 py_int 100%Z = mret tests_per_file ->
  arg_or argv 3 py_float (Fin 0.1) = mret rate ->
  expected_ok (num_files * tests_per_file) rate = true ->
  Forall (fun k => can_write w (GoTest.suite_path "." k) = true) (py_range num_files) ->
  returns (GoTest.main argv) w
    (fun _ w' => wrote (map (GoTest.suite_path ".") (py_range num_files)) w w').
Proof.
  intros H1 H2 H3 He Hw. unfold GoTest.main. preamble H1 H2 H3 He.
  assert (F05 : same_fs w w5) by eauto using same_fs_trans.
  apply returns_bind. eapply returns_mono.
  { apply (write_loop_spec (GoTest.suite_path ".")). intros k [t f] wa Hk Hd.
    rewrite Forall_forall in Hw. specialize (Hw k (proj2 (list_elem_of_In _ _) Hk)).
    rewrite <- (can_write_same w wa) in Hw by (destruct F05; congruence).
    apply can_write_split in Hw as [Hnd Hdir].
    apply returns_bind.
    eapply returns_mono; [apply (generate_suite_file_spec _ _ _ _ _ Hnd Hdir) |].
    intros r wb (content & failures & -> & _ & Hf & Hds & _).
    apply returns_bind. eapply returns_mono; [apply progress_spec |].
    intros ? wc [Hdc Hfc]. apply returns_ret.
    split; [congruence |]. exists content. congruence. }
  intros [tt ff] w6 Hwrote.
  assert (H06 : wrote (map (GoTest.suite_path ".") (py_range num_files)) w w6)
    by (eapply wrote_fs_same; eassumption).
  apply returns_after; [apply time_fs_spec | intros ? w7 F7].
  apply returns_after; [apply print_spec | intros ? w8 F8].
  apply returns_after; [apply print_spec | intros ? w9 F9].
  apply returns_after; [apply print_spec | intros ? w10 F10].
  apply returns_after; [apply print_spec | intros ? w11 F11].
  apply returns_after; [apply print_spec | intros ? w12 F12].
  eapply returns_mono; [apply print_spec |]. intros ? w13 F13.
  eapply wrote_same_fs; [exact H06 |]. eauto 10 using same_fs_trans.
Qed.

Lemma xunit_main_spec argv num_files tests_per_file rate w :
  arg_or argv 1 py_int 100%Z = mret num_files ->
  arg_or argv 2 py_int 50%Z = mret tests_per_file ->
  arg_or argv 3 py_float (Fin 0.1) = mret rate ->
  expected_ok (num_files * tests_per_file) rate = true ->
  Forall (fun k => can_write w (XUnit.xunit_path "." k) = true) (py_range num_files) ->
  returns (XUnit.main argv) w
    (fun _ w' => wrote (map (XUnit.xunit_path ".") (py_range num_files)) w w').
Proof.
  intros H1 H2 H3 He Hw. unfold XUnit.main. preamble H1 H2 H3 He.
  assert (F05 : same_fs w w5) by eauto using same_fs_trans.
  apply returns_bind. eapply returns_mono.
  { apply (write_loop_spec (XUnit.xunit_path ".")). intros k [t f] wa Hk Hd.
    rewrite Forall_forall in Hw. specialize (Hw k (proj2 (list_elem_of_In _ _) Hk)).
    rewrite <- (can_write_same w wa) in Hw by (destruct F05; congruence).
    apply can_write_split in Hw as [Hnd Hdir].
    apply returns_bind.
    eapply returns_mono; [apply (generate_xunit_file_spec _ _ _ _ _ Hnd Hdir) |].
    intros r wb (recs & _ & _ & -> & Hf & Hds & _).
    apply returns_bind. eapply returns_mono; [apply progress_spec |].
    intros ? wc [Hdc Hfc]. apply returns_ret.
    split; [congruence |]. eexists. rewrite Hfc. exact Hf. }
  intros [tt ff] w6 Hwrote.
  assert (H06 : wrote (map (XUnit.xunit_path ".") (py_range num_files)) w w6)
    by (eapply wrote_fs_same; eassumption).
  apply returns_after; [apply time_fs_spec | intros ? w7 F7].
  apply returns_after; [apply print_spec | intros ? w8 F8].
  apply returns_after; [apply print_spec | intros ? w9 F9].
  apply returns_after; [apply print_spec | intros ? w10 F10].
  apply returns_after; [apply print_spec | intros ? w11 F11].
  apply returns_after; [apply print_spec | intros ? w12 F12].
  eapply returns_mono; [apply print_spec |]. intros ? w13 F13.
  eapply wrote_same_fs; [exact H06 |]. eauto 10 using same_fs_trans.
Qed.

(** *** Paths *)

Lemma rsplit_slash_none name : avoids "/" name = true -> OS.rsplit_slash name = None.
Proof.
  induction name as [|c name IH]; [reflexivity |]. unfold avoids. simpl.
  intros [Hc Hn]%andb_true_iff. apply negb_true_iff in Hc.
  rewrite (IH Hn), Hc. reflexivity.
Qed.

Lemma rsplit_slash_app pre name :
  avoids "/" name = true ->
  OS.rsplit_slash (pre +:+ "/" +:+ name) = Some (pre +:+ "/", name).
Proof.
  intros Hn. induction pre as [|c pre IH].
  - rewrite app_nil_l, app_cons, app_nil_l. simpl. now rewrite (rsplit_slash_none name Hn).
  - change (String c pre +:+ "/" +:+ name) with (String c (pre +:+ "/" +:+ name)).
    simpl. now rewrite IH.
Qed.

Lemma dirname_trace_path k : OS.dirname (Trace.trace_path Trace.output_dir k) = Trace.output_dir.
Proof.
  unfold Trace.trace_path.
  replace (OS.path_join Trace.output_dir ("traces_" +:+ fmt_0d 4 k +:+ ".jsonl"))
    with (Trace.output_dir +:+ "/" +:+ ("traces_" +:+ fmt_0d 4 k +:+ ".jsonl"))
    by reflexivity.
  unfold OS.dirname. rewrite rsplit_slash_app by avoids_solve. reflexivity.
Qed.

Lemma trace_path_fresh k :
  Trace.trace_path Trace.output_dir k <> Trace.output_dir /\
  Trace.trace_path Trace.output_dir k <> "../build".
Proof.
  unfold Trace.trace_path.
  replace (OS.path_join Trace.output_dir ("traces_" +:+ fmt_0d 4 k +:+ ".jsonl"))
    with (Trace.output_dir +:+ "/" +:+ ("traces_" +:+ fmt_0d 4 k +:+ ".jsonl"))
    by reflexivity.
  split; intros E; pose proof (f_equal String.length E) as El; revert El;
    rewrite !length_app_str; simpl; lia.
Qed.

(** *** The directory of the trace files *)

Lemma makedirs_spec w :
  can_make w "../build" = true -> can_make w Trace.output_dir = true ->
  returns (OS.makedirs_exist_ok Trace.output_dir) w
    (fun _ w' =>
       files w' = files w /\ stdout w' = stdout w /\
       dirs w' = {[Trace.output_dir]} ∪ ({["../build"]} ∪ dirs w)).
Proof.
  unfold can_make. intros Hb Ho. unfold returns, OS.makedirs_exist_ok.
  change (String.eqb Trace.output_dir "") with false. cbv iota.
  change (OS.path_prefixes Trace.output_dir) with [".."; "../build"; Trace.output_dir].
  cbn [for_each]. unfold mbind, M_bind.
  change (OS.is_dir w "..") with true. cbv iota.
  assert (Hin : forall (ds : gset string) p, bool_decide (p ∈ ds) = true -> {[p]} ∪ ds = ds).
  { intros ds p Hp. apply bool_decide_eq_true in Hp. apply leibniz_equiv.
    intros x. rewrite elem_of_union, elem_of_singleton. split; [intros [-> | ?] | ]; auto. }
  destruct (OS.is_dir w "../build") eqn:Eb.
  - assert (Hbd : {["../build"]} ∪ dirs w = dirs w) by (apply Hin; exact Eb).
    destruct (OS.is_dir w Trace.output_dir) eqn:Eo.
    + simpl. repeat split. rewrite Hbd. symmetry. apply Hin. exact Eo.
    + simpl in Ho. apply negb_true_iff in Ho. rewrite Ho.
      simpl. repeat split. now rewrite Hbd.
  - simpl in Hb. apply negb_true_iff in Hb. rewrite Hb. cbv iota.
    replace (OS.is_file (OS.set_dirs ({["../build"]} ∪ dirs w) w) Trace.output_dir)
      with (OS.is_file w Trace.output_dir) by reflexivity.
    destruct (OS.is_dir (OS.set_dirs ({["../build"]} ∪ dirs w) w) Trace.output_dir) eqn:Eo.
    + simpl. repeat split. symmetry. apply Hin. exact Eo.
    + assert (Eo' : OS.is_dir w Trace.output_dir = false).
      { unfold OS.is_dir in *. apply orb_false_iff in Eo as [Ha Hn].
        rewrite Ha. simpl. apply bool_decide_eq_false. apply bool_decide_eq_false in Hn.
        intros Hx. apply Hn. simpl. apply elem_of_union. now right. }
      rewrite Eo' in Ho. simpl in Ho. apply negb_true_iff in Ho. rewrite Ho.
      simpl. repeat split.
Qed.

Lemma listdir_spec d w :
  d <> "" -> OS.is_dir w d = true -> returns (OS.listdir d) w (fun _ w' => same_fs w w').
Proof.
  intros Hd H. unfold returns, OS.listdir.
  destruct (String.eqb_spec d "") as [E|_]; [contradiction |].
  rewrite H. apply same_fs_refl.
Qed.

Section TraceMain.
Variable float_repr : Q -> string.

Lemma trace_main_spec argv num_files spans_per_file w :
  arg_or argv 1 py_int 10%Z = mret num_files ->
  arg_or argv 2 py_int 100%Z = mret spans_per_file ->
  can_make w "../build" = true -> can_make w Trace.output_dir = true ->
  Forall (fun k => OS.is_dir w (Trace.trace_path Trace.output_dir k) = false)
         (py_range num_files) ->
  returns (Trace.main float_repr argv) w
    (fun _ w' =>
       dirs w' = {[Trace.output_dir]} ∪ ({["../build"]} ∪ dirs w) /\
       (forall p, In p (map (Trace.trace_path Trace.output_dir) (py_range num_files)) ->
                  is_Some (files w' !! p)) /\
       (forall p, ~ In p (map (Trace.trace_path Trace.output_dir) (py_range num_files)) ->
                  files w' !! p = files w !! p)).
Proof.
  intros H1 H2 Hb Ho Hw. unfold Trace.main. rewrite H1, H2.
  do 2 (apply returns_bind, returns_ret).
  apply returns_bind. eapply returns_mono; [apply (makedirs_spec w Hb Ho) |].
  intros ? w0 (Hf0 & _ & Hd0).
  assert (Hdir0 : OS.is_dir w0 Trace.output_dir = true).
  { unfold OS.is_dir. rewrite Hd0. apply orb_true_iff. right.
    apply bool_decide_eq_true. apply elem_of_union. left. now apply elem_of_singleton. }
  assert (Hpaths : forall k, In k (py_range num_files) ->
                     OS.is_dir w0 (Trace.trace_path Trace.output_dir k) = false).
  { intros k Hk. rewrite Forall_forall in Hw.
    specialize (Hw k (proj2 (list_elem_of_In _ _) Hk)).
    unfold OS.is_dir in *. rewrite Hd0. apply orb_false_iff in Hw as [Ha Hn].
    rewrite Ha. simpl. apply bool_decide_eq_false. apply bool_decide_eq_false in Hn.
    destruct (trace_path_fresh k) as [Hne1 Hne2].
    rewrite !elem_of_union, !elem_of_singleton. intros [? | [? | ?]]; auto. }
  apply returns_after; [apply print_spec | intros ? w1 F1].
  apply returns_after; [apply print_spec | intros ? w2 F2].
  apply returns_after; [apply print_spec | intros ? w3 F3].
  apply returns_after; [apply print_spec | intros ? w4 F4].
  apply returns_after; [apply time_fs_spec | intros ? w5 F5].
  assert (F05 : same_fs w0 w5) by eauto using same_fs_trans.
  apply returns_bind. eapply returns_mono.
  { apply (write_loop_spec (Trace.trace_path Trace.output_dir)). intros k t wa Hk Hd.
    assert (Hda : dirs wa = dirs w0) by (destruct F05; congruence).
    assert (Hnd : OS.is_dir wa (Trace.trace_path Trace.output_dir k) = false).
    { unfold OS.is_dir. rewrite Hda. apply (Hpaths k Hk). }
    assert (Hdir : OS.is_dir wa (OS.dirname (Trace.trace_path Trace.output_dir k)) = true).
    { rewrite dirname_trace_path. unfold OS.is_dir. rewrite Hda. exact Hdir0. }
    apply returns_bind.
    eapply returns_mono; [apply (generate_trace_file_spec float_repr _ _ _ _ Hnd Hdir) |].
    intros r wb (docs & _ & _ & -> & Hf & Hds & _).
    apply returns_bind. eapply returns_mono; [apply progress_spec |].
    intros ? wc [Hdc Hfc]. apply returns_ret.
    split; [congruence |]. eexists. rewrite Hfc. exact Hf. }
  intros total w6 Hwrote.
  assert (H06 : wrote (map (Trace.trace_path Trace.output_dir) (py_range num_files)) w0 w6)
    by (eapply wrote_fs_same; eassumption).
  apply returns_after; [apply time_fs_spec | intros ? w7 F7].
  apply returns_after; [apply print_spec | intros ? w8 F8].
  apply returns_after; [apply print_spec | intros ? w9 F9].
  apply returns_after; [apply print_spec | intros ? w10 F10].
  assert (F610 : same_fs w6 w10) by eauto using same_fs_trans.
  apply returns_after.
  { apply listdir_spec; [discriminate |]. unfold OS.is_dir. destruct F610 as [-> _].
    destruct H06 as [-> _]. exact Hdir0. }
  intros ? w11 F11.
  apply returns_after; [apply print_spec | intros ? w12 F12].
  apply returns_after; [apply print_spec | intros ? w13 F13].
  eapply returns_mono; [apply print_spec |]. intros ? w14 F14.
  assert (Hfin : wrote (map (Trace.trace_path Trace.output_dir) (py_range num_files)) w0 w14).
  { eapply wrote_same_fs; [exact H06 |]. eauto 10 using same_fs_trans. }
  destruct Hfin as (Hd & Hin & Hout). split; [congruence |]. split; [exact Hin |].
  intros p Hp. rewrite (Hout p Hp). now rewrite Hf0.
Qed.

End TraceMain.

(** *** The three generators of numbered files *)

Lemma main_spec float_repr g argv num_files w :
  accepts g argv num_files -> ready g num_files w ->
  returns (run_main float_repr g argv) w (fun _ w' => generated g num_files w w').
Proof.
  destruct g; simpl.
  - intros (t & rate & H1 & H2 & H3 & He) Hw.
    eapply returns_mono.
    { apply (gotest_main_spec argv num_files t rate w H1 H2 H3 He).
      unfold output_names in Hw. now rewrite Forall_map in Hw. }
    intros ? w' (Hd & Hin & Hout). split; [|split]; try assumption.
    rewrite Hd. simpl. now rewrite (left_id_L ∅ (∪)).
  - intros (t & rate & H1 & H2 & H3 & He) Hw.
    eapply returns_mono.
    { apply (xunit_main_spec argv num_files t rate w H1 H2 H3 He).
      unfold output_names in Hw. now rewrite Forall_map in Hw. }
    intros ? w' (Hd & Hin & Hout). split; [|split]; try assumption.
    rewrite Hd. simpl. now rewrite (left_id_L ∅ (∪)).
  - intros (spf & H1 & H2) (Hb & Ho & Hw).
    eapply returns_mono.
    { apply (trace_main_spec float_repr argv num_files spf w H1 H2 Hb Ho).
      unfold output_names in Hw. now rewrite Forall_map in Hw. }
    intros ? w' (Hd & Hin & Hout). split; [|split]; try assumption.
    rewrite Hd. simpl. now rewrite (assoc_L (∪)).
Qed.

(** After a run the generator can run again, whatever the generator of
    random numbers and the clock. *)
Lemma ready_again g num_files w w1 w2 :
  ready g num_files w -> generated g num_files w w1 -> same_fs w1 w2 ->
  ready g num_files w2.
Proof.
  intros Hr (Hd & _ & _) [Hd2 _].
  assert (Hgo : made_dirs g = ∅ ->
                Forall (fun p => can_write w p = true) (output_names g num_files) ->
                Forall (fun p => can_write w2 p = true) (output_names g num_files)).
  { intros Hm Hw. eapply Forall_impl; [exact Hw |]. intros p Hp. simpl in Hp.
    rewrite <- Hp. apply can_write_same. rewrite Hd2, Hd, Hm.
    now rewrite (left_id_L ∅ (∪)). }
  destruct g; simpl in *; try (apply Hgo; [reflexivity | exact Hr]).
  destruct Hr as (_ & _ & Hw).
  assert (Hin : forall p, p ∈ ({[Trace.output_dir]} ∪ {["../build"]} : gset string) ->
                          OS.is_dir w2 p = true).
  { intros p Hp. unfold OS.is_dir. apply orb_true_iff. right.
    apply bool_decide_eq_true. rewrite Hd2, Hd. apply elem_of_union. now left. }
  split; [|split].
  - unfold can_make. rewrite Hin; [reflexivity |].
    apply elem_of_union. right. now apply elem_of_singleton.
  - unfold can_make. rewrite Hin; [reflexivity |].
    apply elem_of_union. left. now apply elem_of_singleton.
  - unfold output_names in *. rewrite Forall_map in *.
    eapply Forall_impl; [exact Hw |]. intros k Hk. simpl in *.
    unfold OS.is_dir in *. apply orb_false_iff in Hk as [Ha Hn]. rewrite Ha. simpl.
    apply bool_decide_eq_false. apply bool_decide_eq_false in Hn.
    rewrite Hd2, Hd. destruct (trace_path_fresh k) as [Hne1 Hne2].
    rewrite !elem_of_union, !elem_of_singleton. intros [[? | ?] | ?]; auto.
Qed.

Lemma generated_twice g num_files w w1 w2 w3 :
  generated g num_files w w1 -> same_fs w1 w2 -> generated g num_files w2 w3 ->
  dirs w3 = dirs w1 /\ dom (files w3) = dom (files w1) /\
  (forall p, ~ In p (output_names g num_files) -> files w3 !! p = files w1 !! p).
Proof.
  intros (Hd1 & Hin1 & Hout1) [Hd2 Hf2] (Hd3 & Hin3 & Hout3). split; [|split].
  - rewrite Hd3, Hd2, Hd1. rewrite (assoc_L (∪)). now rewrite (idemp_L (∪)).
  - apply leibniz_equiv. intros p. rewrite !elem_of_dom.
    destruct (in_dec string_dec p (output_names g num_files)) as [Hp | Hp].
    + split; intros _; auto.
    + rewrite (Hout3 p Hp), Hf2. reflexivity.
  - intros p Hp. rewrite (Hout3 p Hp), Hf2. reflexivity.
Qed.

(** *** The assemblers *)





(** C9. The names of the files of a generator are a function of the
    generator and of the number of files asked for ([output_names]), whatever
    the random numbers and the clock: a run writes the files of these names;
    a second run for the same number of files, from the file system the
    first one left and any state of the generator of random numbers and of
    the clock, returns without an exception, writes the files of the same
    names, and leaves the same directories and the same set of files. *)
Theorem rerun_overwrites_same_names float_repr g argv argv' num_files w :
  accepts g argv num_files -> accepts g argv' num_files -> ready g num_files w ->
  returns (run_main float_repr g argv) w
    (fun _ w1 =>
       (forall p, In p (output_names g num_files) -> is_Some (files w1 !! p)) /\
       forall w2, same_fs w1 w2 ->
         returns (run_main float_repr g argv') w2
           (fun _ w3 =>
              (forall p, In p (output_names g num_files) -> is_Some (files w3 !! p)) /\
              dirs w3 = dirs w1 /\ dom (files w3) = dom (files w1) /\
              (forall p, ~ In p (output_names g num_files) ->
                         files w3 !! p = files w1 !! p))).
Proof.
  intros Ha Ha' Hr. eapply returns_mono; [apply (main_spec float_repr g argv _ w Ha Hr) |].
  intros ? w1 H1. cbv beta. split; [apply H1 |]. intros w2 F2.
  eapply returns_mono.
  { apply (main_spec float_repr g argv' num_files w2 Ha').
    exact (ready_again g num_files w w1 w2 Hr H1 F2). }
  intros ? w3 H3. cbv beta. split; [apply H3 |].
  exact (generated_twice g num_files w w1 w2 w3 H1 F2 H3).
Qed.

Lemma rerun_overwrites_same_names_witness :
  returns (run_main (fun _ => "") TraceFiles ["prog"; "2"; "300"]) empty_world
    (fun _ w1 =>
       (forall p, In p (output_names TraceFiles 2) -> is_Some (files w1 !! p)) /\
       forall w2, same_fs w1 w2 ->
         returns (run_main (fun _ => "") TraceFiles ["prog"; "2"]) w2
           (fun _ w3 =>
              (forall p, In p (output_names TraceFiles 2) -> is_Some (files w3 !! p)) /\
              dirs w3 = dirs w1 /\ dom (files w3) = dom (files w1) /\
              (forall p, ~ In p (output_names TraceFiles 2) ->
                         files w3 !! p = files w1 !! p))).
Proof.
  apply (rerun_overwrites_same_names (fun _ => "") TraceFiles
           ["prog"; "2"; "300"] ["prog"; "2"] 2 empty_world).
  - exists 300%Z. split; reflexivity.
  - exists 100%Z. split; reflexivity.
  - split; [reflexivity | split; [reflexivity |]].
    repeat (constructor; [vm_compute; reflexivity |]). constructor.
Defined.

End MainFacts.

(** * Binary64 rounding *)

Module B64Facts.
Import MFacts XUnitFacts B64.

Local Open Scope Q_scope.

(** *** Powers of two *)

Lemma pow2_nonneg e : (0 <= e)%Z -> pow2 e = inject_Z (2 ^ e).
Proof. intros H. unfold pow2. destruct (Z.leb_spec 0 e); [reflexivity | lia]. Qed.

Lemma pow2_pos e : 0 < pow2 e.
Proof.
  unfold pow2. destruct (Z.leb_spec 0 e) as [H | H]; [| reflexivity].
  pose proof (Z.pow_pos_nonneg 2 e ltac:(lia) H). unfold Qlt. simpl. lia.
Qed.

Lemma pow2_plus e k : (0 <= k)%Z -> pow2 (e + k) == pow2 e * inject_Z (2 ^ k).
Proof.
  intros Hk. unfold pow2.
  destruct (Z.leb_spec 0 e) as [He | He]; destruct (Z.leb_spec 0 (e + k)) as [Hs | Hs];
    try lia.
  - rewrite Z.pow_add_r by lia. now rewrite inject_Z_mult.
  - pose proof (Z.pow_pos_nonneg 2 (- e) ltac:(lia) ltac:(lia)) as Hp.
    unfold Qeq, Qmult. simpl. rewrite Pos2Z.inj_mul, Z2Pos.id by exact Hp.
    assert (Hx : (2 ^ k = 2 ^ (e + k) * 2 ^ (- e))%Z)
      by (rewrite <- Z.pow_add_r by lia; f_equal; lia).
    rewrite Hx. ring.
  - pose proof (Z.pow_pos_nonneg 2 (- e) ltac:(lia) ltac:(lia)) as Hp.
    pose proof (Z.pow_pos_nonneg 2 (- (e + k)) ltac:(lia) ltac:(lia)) as Hq.
    unfold Qeq, Qmult. simpl. rewrite Pos2Z.inj_mul, !Z2Pos.id by assumption.
    assert (Hx : (2 ^ (- e) = 2 ^ k * 2 ^ (- (e + k)))%Z)
      by (rewrite <- Z.pow_add_r by lia; f_equal; lia).
    rewrite Hx. ring.
Qed.

Lemma pow2_le a b : (a <= b)%Z -> pow2 a <= pow2 b.
Proof.
  intros H. replace b with (a + (b - a))%Z by lia.
  rewrite (pow2_plus a (b - a)) by lia.
  pose proof (pow2_pos a) as Ha.
  assert (Hk : 1 <= inject_Z (2 ^ (b - a))).
  { pose proof (Z.pow_pos_nonneg 2 (b - a) ltac:(lia) ltac:(lia)).
    unfold Qle. simpl. lia. }
  nra.
Qed.

Lemma pow2_lt_inv a b : pow2 a < pow2 b -> (a < b)%Z.
Proof.
  intros H. destruct (Z.lt_ge_cases a b) as [L | G]; [exact L | exfalso].
  pose proof (pow2_le b a ltac:(lia)). lra.
Qed.

(** *** The binade of a positive rational *)

Lemma Q_num_den (q : Q) : inject_Z (Qnum q) == q * inject_Z (Zpos (Qden q)).
Proof. destruct q as [n d]. unfold Qeq, Qmult. simpl. lia. Qed.

Lemma ilog2_spec q : 0 < q -> pow2 (ilog2 q) <= q /\ q < pow2 (ilog2 q + 1).
Proof.
  intros Hq. unfold ilog2.
  assert (Hn : (0 < Qnum q)%Z) by (destruct q as [n d]; unfold Qlt in Hq; simpl in *; lia).
  pose proof (Z.log2_spec (Qnum q) Hn) as [Ha1 Ha2].
  pose proof (Z.log2_spec (Zpos (Qden q)) ltac:(lia)) as [Hb1 Hb2].
  pose proof (Z.log2_nonneg (Qnum q)) as Ha0.
  pose proof (Z.log2_nonneg (Zpos (Qden q))) as Hb0.
  set (a := Z.log2 (Qnum q)) in *. set (b := Z.log2 (Zpos (Qden q))) in *.
  pose proof (Q_num_den q) as Hnd.
  assert (HD : 0 < inject_Z (Zpos (Qden q))) by (unfold Qlt; simpl; lia).
  destruct (Qle_bool (pow2 (a - b)) q) eqn:E.
  - apply Qle_bool_iff in E. split; [exact E |].
    pose proof (pow2_plus (a - b + 1) b Hb0) as Hp.
    replace (a - b + 1 + b)%Z with (Z.succ a) in Hp by lia.
    rewrite pow2_nonneg in Hp by lia.
    pose proof (pow2_pos (a - b + 1)) as Hpos.
    assert (HN : inject_Z (Qnum q) < inject_Z (2 ^ Z.succ a)) by (rewrite <- Zlt_Qlt; lia).
    assert (HB : inject_Z (2 ^ b) <= inject_Z (Zpos (Qden q))) by (rewrite <- Zle_Qle; lia).
    assert (HB0 : 0 < inject_Z (2 ^ b)).
    { pose proof (Z.pow_pos_nonneg 2 b ltac:(lia) Hb0). unfold Qlt. simpl. lia. }
    apply Qnot_le_lt. intros Hge.
    revert Hp Hnd HN HB HB0 Hpos HD Hq Hge.
    generalize (pow2 (a - b + 1)) (inject_Z (2 ^ Z.succ a)) (inject_Z (2 ^ b))
      (inject_Z (Qnum q)) (inject_Z (Zpos (Qden q))).
    intros P A B N D. intros. nra.
  - assert (E' : q < pow2 (a - b)).
    { apply Qnot_le_lt. intros H. apply Qle_bool_iff in H. congruence. }
    replace (a - b - 1 + 1)%Z with (a - b)%Z by lia. split; [| exact E'].
    pose proof (pow2_plus (a - b - 1) (Z.succ b) ltac:(lia)) as Hp.
    replace (a - b - 1 + Z.succ b)%Z with a in Hp by lia.
    rewrite pow2_nonneg in Hp by lia.
    pose proof (pow2_pos (a - b - 1)) as Hpos.
    assert (HN : inject_Z (2 ^ a) <= inject_Z (Qnum q)) by (rewrite <- Zle_Qle; lia).
    assert (HB : inject_Z (Zpos (Qden q)) < inject_Z (2 ^ Z.succ b))
      by (rewrite <- Zlt_Qlt; lia).
    apply Qnot_lt_le. intros Hlt.
    revert Hp Hnd HN HB Hpos HD Hq Hlt.
    generalize (pow2 (a - b - 1)) (inject_Z (2 ^ a)) (inject_Z (2 ^ Z.succ b))
      (inject_Z (Qnum q)) (inject_Z (Zpos (Qden q))).
    intros P A B N D. intros. nra.
Qed.

Lemma Qabs_of_pos q : 0 < q -> Qabs q = q.
Proof.
  destruct q as [[|p|p] d]; unfold Qlt; simpl; intros H; try lia. reflexivity.
Qed.

(** *** Rounding to an integer *)

Lemma round_half_even_int q n : q == inject_Z n -> round_half_even q = n.
Proof.
  intros E. pose proof (round_half_even_bound q) as [H1 H2].
  set (m := round_half_even q) in *. clearbody m.
  assert (G1 : inject_Z m - (1 # 2) <= inject_Z n) by lra.
  assert (G2 : inject_Z n <= inject_Z m + (1 # 2)) by lra.
  revert G1 G2. unfold Qle, Qminus, Qplus, Qopp. simpl. lia.
Qed.

(** *** Rounding to a float *)

Lemma round_zero q : q == 0 -> round q = Fin q.
Proof. intros E. unfold round. apply Qeq_bool_iff in E. now rewrite E. Qed.

Lemma Qeq_bool_pos q : 0 < q -> Qeq_bool q 0 = false.
Proof.
  intros H. destruct (Qeq_bool q 0) eqn:E; [| reflexivity].
  apply Qeq_bool_iff in E. lra.
Qed.

Lemma below_overflow r : r <= inject_Z (2 ^ 61) -> Qle_bool (pow2 1024) r = false.
Proof.
  intros H. destruct (Qle_bool (pow2 1024) r) eqn:E; [| reflexivity].
  apply Qle_bool_iff in E.
  assert (inject_Z (2 ^ 61) < pow2 1024) by (vm_compute; reflexivity). lra.
Qed.


(** A multiple of one half below [2^52] is a float. *)
Lemma round_exact n q :
  (0 <= n < 2 ^ 53)%Z -> q == inject_Z n * (1 # 2) -> round q = Fin q.
Proof.
  intros Hn E. destruct (Z.eq_dec n 0%Z) as [-> | Hn0].
  { apply round_zero. rewrite E. reflexivity. }
  assert (Hn1 : 1 <= inject_Z n) by (unfold Qle; simpl; lia).
  assert (Hn2 : inject_Z n < inject_Z (2 ^ 53)) by (rewrite <- Zlt_Qlt; lia).
  change (inject_Z (2 ^ 53)) with 9007199254740992 in Hn2.
  assert (Hq : 0 < q) by lra.
  unfold round. rewrite (Qeq_bool_pos q Hq), (Qabs_of_pos q Hq).
  pose proof (ilog2_spec q Hq) as [He1 He2]. unfold ulp.
  assert (Hlo : (-1 <= ilog2 q)%Z).
  { assert (pow2 (-1) < pow2 (ilog2 q + 1)).
    { change (pow2 (-1)) with (1 # 2). lra. }
    apply pow2_lt_inv in H. lia. }
  assert (Hhi : (ilog2 q < 52)%Z).
  { apply pow2_lt_inv. change (pow2 52) with 4503599627370496. lra. }
  rewrite Z.max_l by lia.
  set (e := ilog2 q) in *. set (u := pow2 (e - 52)).
  pose proof (pow2_pos (e - 52)) as Hu. fold u in Hu.
  pose proof (pow2_plus (e - 52) (51 - e) ltac:(lia)) as Hk.
  replace (e - 52 + (51 - e))%Z with (-1)%Z in Hk by lia. fold u in Hk.
  change (pow2 (-1)) with (1 # 2) in Hk.
  assert (Hint : q / u == inject_Z (n * 2 ^ (51 - e))).
  { rewrite inject_Z_mult, E, Hk. field. lra. }
  rewrite (round_half_even_int _ _ Hint).
  assert (Hr : inject_Z (n * 2 ^ (51 - e)) * u == q).
  { rewrite <- Hint. field. lra. }
  rewrite below_overflow
    by (rewrite Hr; change (inject_Z (2 ^ 61)) with 2305843009213693952; lra).
  apply Qeq_bool_iff in Hr. rewrite Hr. reflexivity.
Qed.


(** *** The times of generate_results_file.py *)

Lemma result_start_exact k :
  (0 <= k < 2 ^ 52)%Z -> result_start k = Fin (1700000000 + inject_Z k * 0.5).
Proof.
  intros Hk. unfold result_start.
  assert (H1 : round (inject_Z k) = Fin (inject_Z k)).
  { apply (round_exact (2 * k)); [lia |].
    rewrite inject_Z_mult. change (inject_Z 2) with 2. lra. }
  rewrite H1. cbn [mul].
  assert (H2 : round (inject_Z k * 0.5) = Fin (inject_Z k * 0.5)).
  { apply (round_exact k); [lia | lra]. }
  rewrite H2. cbn [add].
  apply (round_exact (3400000000 + k)); [lia |].
  rewrite inject_Z_plus. change (inject_Z 3400000000) with 3400000000. lra.
Qed.




End B64Facts.

(** * generate_results_file.py *)

Module ResultsFacts.
Import PyStrSpec GoTestSpec XUnitSpec JsonSpec TraceSpec.
Import PyStrFacts MFacts Json JsonFacts TraceFacts MainFacts B64Facts Results.



Section Records.
Variable float_repr : Q -> string.
Variable strftime : Q -> string.


(** One call of [generate_test_result] for a number a float can hold: two
    draws decide the status and the duration, then the log is made. *)
Lemma generate_test_result_run test_num failure_rate log_lines w :
  Qle_bool float_overflow (Qabs (inject_Z test_num)) = false ->
  exists w2,
    same_env w w2 /\
    generate_test_result strftime test_num failure_rate log_lines w
    = (log_content ← generate_log_content strftime (result_test_name test_num) log_lines
                       (lt_float (next_random w 0) failure_rate);
       mret (JObj [ ("test_file", JStr (result_test_name test_num));
                    ("status", JStr (if lt_float (next_random w 0) failure_rate
                                     then "fail" else "pass"));
                    ("start", JFloat (result_start test_num));
                    ("end", JFloat (B64.add (result_start test_num)
                                      (result_duration (next_random w 1))));
                    ("log_raw", JStr log_content) ])) w2.
Proof.
  intros H.
  exists (mkWorld (rand w) (S (S (rand_pos w))) (clock w) (clock_pos w) (dirs w) (files w)
            (stdout w)).
  split; [repeat split |].
  unfold generate_test_result. fold (result_test_name test_num).
  unfold next_random. rewrite Nat.add_0_r, Nat.add_1_r.
  unfold Random.random, Random.uniform_b64, Random.random, Random.raw, float_of_int_b64.
  unfold mbind at 1 2 3 4 5, M_bind at 1 2 3 4 5. simpl rand. simpl rand_pos.
  unfold mret at 1, M_ret at 1. unfold mbind at 1, M_bind at 1.
  rewrite H. reflexivity.
Qed.

Lemma next_random_grid w k :
  exists z, (0 <= z < 2 ^ 53)%Z /\ next_random w k = (z # 2 ^ 53)%Q.
Proof.
  unfold next_random. eexists. split; [| reflexivity].
  pose proof (N.mod_upper_bound (rand w (rand_pos w + k)) (2 ^ 53)%N ltac:(easy)) as Hlt.
  split; [apply N2Z.is_nonneg |]. apply N2Z.inj_lt in Hlt. exact Hlt.
Qed.

Lemma next_random_range w k : (0 <= next_random w k)%Q /\ (next_random w k < 1)%Q.
Proof.
  destruct (next_random_grid w k) as (z & Hz & ->).
  unfold Qle, Qlt. simpl. change (Z.pos (2 ^ 53)) with (2 ^ 53)%Z. lia.
Qed.

Lemma no_float_overflow k :
  (0 <= k <= 2 ^ 60)%Z -> Qle_bool float_overflow (Qabs (inject_Z k)) = false.
Proof.
  intros Hk. destruct (Qle_bool float_overflow (Qabs (inject_Z k))) eqn:E; [| reflexivity].
  apply Qle_bool_iff in E. exfalso. revert E.
  unfold float_overflow, Qle. simpl. rewrite Z.abs_eq by lia.
  assert (2 ^ 60 < 2 ^ 1024 - 2 ^ 970)%Z by (vm_compute; reflexivity). lia.
Qed.


Lemma returns_eq {A} (c c' : M A) w w' (Q : A -> world -> Prop) :
  c w = c' w' -> returns c' w' Q -> returns c w Q.
Proof. unfold returns. now intros ->. Qed.




End Records.


(** The record of test number 10^17, with the longest duration there is (the
    second draw is the largest): its start is 50000001700000000, where the
    floats are 8 apart, so that adding a duration of 2 seconds gives the
    start back. *)
Lemma record_end_equals_start :
  exists r w' (s e : Q),
    generate_test_result (fun _ => "") 100000000000000000 (Fin 0.1) 20
      (world_of [0; 2 ^ 53 - 1]%N [] [] [])
    = (Ok r, w') /\
    get_key "start" r = Some (JFloat (Fin s)) /\
    get_key "end" r = Some (JFloat (Fin e)) /\
    (s == 50000001700000000)%Q /\ (e == s)%Q /\ ~ record_ok r.
Proof.
  eexists _, _, _, _. split; [vm_compute; reflexivity |].
  split; [reflexivity |]. split; [reflexivity |].
  split; [vm_compute; reflexivity |]. split; [vm_compute; reflexivity |].
  intros (s & e & Hs & He & Hlt). injection Hs as <-. injection He as <-.
  revert Hlt. vm_compute. discriminate.
Qed.

End ResultsFacts.

(** * generate_test_results.py *)

Module TestResultsFacts.
Import PyStrSpec GoTestSpec XUnitSpec JsonSpec TraceSpec.
Import PyStrFacts MFacts Json JsonFacts TraceFacts MainFacts TestResults.

Lemma read_text_spec path content w :
  OS.is_dir w path = false -> files w !! path = Some content ->
  returns (OS.read_text path) w (fun r w' => r = content /\ w' = w).
Proof.
  intros H1 H2. unfold returns, OS.read_text.
  rewrite (not_dir_nonempty _ _ H1), H1, H2. auto.
Qed.

Lemma loads_sample_input :
  loads sample_input
  = Some (JObj [("tests", JArr [JObj [("name", JStr "A")]; JObj [("name", JStr "B")]])]).
Proof. vm_compute. reflexivity. Qed.

Section Scenario.
Variable float_repr : Q -> string.

(** C7. Given a file that holds the JSON text of the scenario, the script
    returns, and test_selection_results.json then holds a JSON document
    whose results are exactly two entries, for the tests A and B in this
    order, each with the status pass and with its start equal to its end. *)
Theorem test_results_scenario prog path w :
  OS.is_dir w path = false -> files w !! path = Some sample_input ->
  can_write w output_file = true ->
  returns (main float_repr [prog; path]) w
    (fun _ w' =>
       exists content doc entries,
         files w' !! output_file = Some content /\
         loads content = Some doc /\
         get_key "results" doc = Some (JArr entries) /\
         length entries = 2%nat /\
         Forall passed_at_once entries /\
         map (get_key "test_file") entries = [Some (JStr "A"); Some (JStr "B")]).
Proof.
  intros Hnd Hfile Hw. unfold main.
  change (length [prog; path] <? 2)%nat with false. cbv iota.
  apply returns_bind, returns_ret.
  change (nth_error [prog; path] 1) with (Some path).
  apply returns_bind, returns_ret.
  apply returns_bind. eapply returns_mono; [apply (read_text_spec _ _ _ Hnd Hfile) |].
  intros text w0 [-> ->]. rewrite loads_sample_input.
  apply returns_bind, returns_ret. apply returns_bind, returns_ret.
  apply returns_bind, returns_ret. apply returns_bind, returns_ret.
  apply returns_bind. simpl app. cbn [for_each]. apply returns_bind.
  apply returns_bind. eapply returns_mono; [apply time_time_spec |].
  intros t1 w1 E1. cbv beta in E1. apply returns_ret.
  apply returns_bind. apply returns_bind. eapply returns_mono; [apply time_time_spec |].
  intros t2 w2 E2. cbv beta in E2. apply returns_ret. apply returns_ret. simpl app.
  assert (E : same_env w w2) by (eapply same_env_trans; eassumption).
  apply can_write_split in Hw as [Hwd Hdir].
  rewrite <- (is_dir_same_env w w2 _ E) in Hwd.
  rewrite <- (is_dir_same_env w w2 _ E) in Hdir.
  eapply returns_mono; [apply (write_text_ok _ _ _ Hwd Hdir) |].
  intros ? w3 (Hf & _). eexists _, _, _.
  split; [rewrite Hf; apply lookup_insert_eq |].
  split; [apply loads_dumps; simpl; repeat split; try nodup |].
  split; [reflexivity |]. split; [reflexivity |].
  split; [| reflexivity].
  repeat (constructor; [split; [reflexivity | eexists; split; reflexivity] |]).
  constructor.
Qed.

End Scenario.

Lemma test_results_scenario_witness :
  returns (main (fun _ => "") ["prog"; "in.json"])
    (world_of [] [5.5%Q; 7.25%Q] [] [("in.json", sample_input)])
    (fun _ w' =>
       exists content doc entries,
         files w' !! output_file = Some content /\
         loads content = Some doc /\
         get_key "results" doc = Some (JArr entries) /\
         length entries = 2%nat /\
         Forall passed_at_once entries /\
         map (get_key "test_file") entries = [Some (JStr "A"); Some (JStr "B")]).
Proof.
  apply (test_results_scenario (fun _ => "") "prog" "in.json"
           (world_of [] [5.5%Q; 7.25%Q] [] [("in.json", sample_input)]));
    vm_compute; reflexivity.
Defined.

End TestResultsFacts.

(** * How the scripts end *)

Module ExitFacts.
Import MFacts Json.

Create HintDb no_exit discriminated.

Lemma no_exit_ret {A} (a : A) : no_exit (mret a).
Proof. intros w code. discriminate. Qed.

Lemma no_exit_bind {A B} (c : M A) (f : A -> M B) :
  no_exit c -> (forall a, no_exit (f a)) -> no_exit (c ≫= f).
Proof.
  intros Hc Hf w code. unfold mbind, M_bind. specialize (Hc w code).
  destruct (c w) as [[a | e] w1]; [apply Hf |].
  simpl in *. intros E. apply Hc. inversion E. reflexivity.
Qed.

Lemma no_exit_for_each {A S} (xs : list A) (body : A -> S -> M S) (s : S) :
  (forall x s, no_exit (body x s)) -> no_exit (for_each xs body s).
Proof.
  intros Hbody. revert s. induction xs as [|x xs IH]; intros s; simpl.
  - apply no_exit_ret.
  - apply no_exit_bind; [apply Hbody | exact IH].
Qed.

Lemma no_exit_raise {A} (e : exn) :
  match e with SystemExit _ => False | _ => True end -> no_exit (@raise A e).
Proof. intros He w code. unfold raise. simpl. intros E. inversion E; subst. exact He. Qed.

Lemma no_exit_of_option {A} (e : exn) (o : option A) :
  match e with SystemExit _ => False | _ => True end -> no_exit (of_option e o).
Proof. intros He. destruct o; [apply no_exit_ret | now apply no_exit_raise]. Qed.

Lemma no_exit_raw : no_exit Random.raw.
Proof. intros w code. discriminate. Qed.

Lemma no_exit_time : no_exit time_time.
Proof. intros w code. discriminate. Qed.

Lemma no_exit_print line : no_exit (print line).
Proof. intros w code. discriminate. Qed.

Lemma no_exit_write_text path content : no_exit (OS.write_text path content).
Proof.
  intros w code. unfold OS.write_text.
  destruct (String.eqb path ""); [discriminate |].
  destruct (OS.is_dir w path); [discriminate |].
  destruct (OS.is_dir w (OS.dirname path)); [discriminate |].
  destruct (OS.is_file w (OS.dirname path)); discriminate.
Qed.

Lemma no_exit_read_text path : no_exit (OS.read_text path).
Proof.
  intros w code. unfold OS.read_text.
  destruct (String.eqb path ""); [discriminate |].
  destruct (OS.is_dir w path); [discriminate |].
  destruct (files w !! path); discriminate.
Qed.

Lemma no_exit_listdir d : no_exit (OS.listdir d).
Proof.
  intros w code. unfold OS.listdir.
  destruct (String.eqb d ""); [discriminate |].
  destruct (OS.is_dir w d); [discriminate |].
  destruct (OS.is_file w d); discriminate.
Qed.

Lemma no_exit_makedirs path : no_exit (OS.makedirs_exist_ok path).
Proof.
  unfold OS.makedirs_exist_ok.
  destruct (String.eqb path ""); [now apply no_exit_raise |].
  apply no_exit_for_each. intros p [] w code.
  destruct (OS.is_dir w p); [discriminate |].
  destruct (OS.is_file w p); [| discriminate].
  destruct (String.eqb p path); discriminate.
Qed.

#[local] Hint Resolve no_exit_raw no_exit_time no_exit_print no_exit_write_text
  no_exit_read_text no_exit_listdir no_exit_makedirs : no_exit.

Lemma no_exit_arg_or {A} argv i (conv : string -> M A) d :
  (forall s, no_exit (conv s)) -> no_exit (arg_or argv i conv d).
Proof. intros H. unfold arg_or. destruct (nth_error argv i); [apply H | apply no_exit_ret]. Qed.

(** One step through a computation written with the monad. *)
Ltac no_exit_step :=
  cbv zeta;
  lazymatch goal with
  | |- no_exit (mret _) => simple apply @no_exit_ret
  | |- no_exit (_ ≫= _) => simple apply @no_exit_bind; [| intros ?]
  | |- no_exit (for_each _ _ _) => simple apply @no_exit_for_each; intros ? ?
  | |- no_exit (raise _) => simple apply @no_exit_raise; exact I
  | |- no_exit (of_option _ _) => simple apply @no_exit_of_option; exact I
  | |- no_exit (arg_or _ _ _ _) => simple apply @no_exit_arg_or; intros ?
  | |- no_exit (if ?b then _ else _) => destruct b
  | |- no_exit (match ?x with _ => _ end) => destruct x
  | |- no_exit _ => solve [auto 1 with no_exit nocore]
  end.

Ltac no_exit_tac := repeat no_exit_step.

Lemma no_exit_random : no_exit Random.random.
Proof. unfold Random.random. no_exit_tac. Qed.
#[local] Hint Resolve no_exit_random : no_exit.

Lemma no_exit_uniform a b : no_exit (Random.uniform a b).
Proof. unfold Random.uniform. no_exit_tac. Qed.

Lemma no_exit_randint a b : no_exit (Random.randint a b).
Proof. unfold Random.randint. no_exit_tac. Qed.

Lemma no_exit_choice {A} (xs : list A) : no_exit (Random.choice xs).
Proof. unfold Random.choice. no_exit_tac. Qed.

Lemma no_exit_choices {A} (xs : list A) k : no_exit (Random.choices xs k).
Proof. unfold Random.choices. no_exit_tac. Qed.

Lemma no_exit_py_int s : no_exit (py_int s).
Proof. unfold py_int. no_exit_tac. Qed.

Lemma no_exit_py_float s : no_exit (py_float s).
Proof. unfold py_float. no_exit_tac. Qed.

Lemma no_exit_float_of_int z : no_exit (float_of_int z).
Proof. unfold float_of_int. no_exit_tac. Qed.

Lemma no_exit_int_of_float f : no_exit (int_of_float f).
Proof. unfold int_of_float. no_exit_tac. Qed.

Lemma no_exit_float_of_int_b64 z : no_exit (float_of_int_b64 z).
Proof. unfold float_of_int_b64. no_exit_tac. Qed.

Lemma no_exit_uniform_b64 a b : no_exit (Random.uniform_b64 a b).
Proof. unfold Random.uniform_b64. no_exit_tac. Qed.

#[local] Hint Resolve no_exit_uniform no_exit_randint no_exit_choice no_exit_choices
  no_exit_py_int no_exit_py_float no_exit_float_of_int no_exit_int_of_float
  no_exit_float_of_int_b64 no_exit_uniform_b64 : no_exit.

(** *** generate_gotest_files.py *)

Lemma no_exit_generate_test_output n m f : no_exit (GoTest.generate_test_output n m f).
Proof. unfold GoTest.generate_test_output. no_exit_tac. Qed.
#[local] Hint Resolve no_exit_generate_test_output : no_exit.

Lemma no_exit_generate_suite_file k n r d : no_exit (GoTest.generate_suite_file k n r d).
Proof. unfold GoTest.generate_suite_file. no_exit_tac. Qed.
#[local] Hint Resolve no_exit_generate_suite_file : no_exit.

Lemma no_exit_gotest_main argv : no_exit (GoTest.main argv).
Proof. unfold GoTest.main. no_exit_tac. Qed.

(** *** generate_xunit_files.py *)

Lemma no_exit_generate_test_case n m f : no_exit (XUnit.generate_test_case n m f).
Proof. unfold XUnit.generate_test_case. no_exit_tac. Qed.
#[local] Hint Resolve no_exit_generate_test_case : no_exit.

Lemma no_exit_generate_cases m n r : no_exit (XUnit.generate_cases m n r).
Proof. unfold XUnit.generate_cases. no_exit_tac. Qed.
#[local] Hint Resolve no_exit_generate_cases : no_exit.

Lemma no_exit_generate_xunit_file k n r d : no_exit (XUnit.generate_xunit_file k n r d).
Proof. unfold XUnit.generate_xunit_file. no_exit_tac. Qed.
#[local] Hint Resolve no_exit_generate_xunit_file : no_exit.

Lemma no_exit_xunit_main argv : no_exit (XUnit.main argv).
Proof. unfold XUnit.main. no_exit_tac. Qed.

(** *** generate_trace_files.py *)

Lemma no_exit_generate_trace_id : no_exit Trace.generate_trace_id.
Proof. unfold Trace.generate_trace_id. no_exit_tac. Qed.

Lemma no_exit_generate_span_id : no_exit Trace.generate_span_id.
Proof. unfold Trace.generate_span_id. no_exit_tac. Qed.
#[local] Hint Resolve no_exit_generate_trace_id no_exit_generate_span_id : no_exit.

Lemma no_exit_generate_span t p n s : no_exit (Trace.generate_span t p n s).
Proof. unfold Trace.generate_span. no_exit_tac. Qed.
#[local] Hint Resolve no_exit_generate_span : no_exit.

Lemma no_exit_generate_trace_data n : no_exit (Trace.generate_trace_data n).
Proof. unfold Trace.generate_trace_data. no_exit_tac. Qed.
#[local] Hint Resolve no_exit_generate_trace_data : no_exit.

Section Libraries.
Variable float_repr : Q -> string.
Variable strftime : Q -> string.

Lemma no_exit_generate_trace_file k n d :
  no_exit (Trace.generate_trace_file float_repr k n d).
Proof. unfold Trace.generate_trace_file. no_exit_tac. Qed.
#[local] Hint Resolve no_exit_generate_trace_file : no_exit.

Lemma no_exit_trace_main argv : no_exit (Trace.main float_repr argv).
Proof. unfold Trace.main. no_exit_tac. Qed.

(** *** generate_results_file.py *)

Lemma no_exit_generate_log_content t n f :
  no_exit (Results.generate_log_content strftime t n f).
Proof. unfold Results.generate_log_content. no_exit_tac. Qed.
#[local] Hint Resolve no_exit_generate_log_content : no_exit.

Lemma no_exit_generate_test_result k r l :
  no_exit (Results.generate_test_result strftime k r l).
Proof. unfold Results.generate_test_result. no_exit_tac. Qed.
#[local] Hint Resolve no_exit_generate_test_result : no_exit.

Lemma no_exit_results_main argv : no_exit (Results.main float_repr strftime argv).
Proof. unfold Results.main. no_exit_tac. Qed.

(** *** generate_test_results.py *)

Lemma no_exit_py_get v k d : no_exit (TestResults.py_get v k d).
Proof. unfold TestResults.py_get. no_exit_tac. Qed.

Lemma no_exit_py_iter v : no_exit (TestResults.py_iter v).
Proof. unfold TestResults.py_iter. no_exit_tac. Qed.

Lemma no_exit_py_getitem v k : no_exit (TestResults.py_getitem v k).
Proof. unfold TestResults.py_getitem. no_exit_tac. Qed.
#[local] Hint Resolve no_exit_py_get no_exit_py_iter no_exit_py_getitem : no_exit.

(** With its argument given the script never exits by itself. *)
Lemma no_exit_test_results_main argv :
  (length argv <? 2)%nat = false -> no_exit (TestResults.main float_repr argv).
Proof. intros H. unfold TestResults.main. rewrite H. no_exit_tac. Qed.

(** Without it the script prints how it is used and exits with 1. *)
Lemma test_results_usage argv w :
  (length argv <? 2)%nat = true ->
  TestResults.main float_repr argv w
  = (Raise (SystemExit 1),
     mkWorld (rand w) (rand_pos w) (clock w) (clock_pos w) (dirs w) (files w)
             (stdout w ++ [usage])).
Proof. intros H. unfold TestResults.main. rewrite H. reflexivity. Qed.

Lemma length_lt_2 argv (path : string) :
  nth_error argv 1 = Some path -> (length argv <? 2)%nat = false.
Proof.
  intros H. apply Nat.ltb_ge. destruct argv as [|a [|b argv]]; try discriminate.
  simpl. lia.
Qed.



(** *** Arguments that are no numbers *)

Lemma arg_or_int argv i d :
  (exists v, arg_or argv i py_int d = mret v) \/
  arg_or argv i py_int d = raise ValueError.
Proof.
  unfold arg_or, py_int, of_option. destruct (nth_error argv i) as [str|]; [| eauto].
  destruct (PyNum.int_of_str str); eauto.
Qed.

Lemma arg_or_float argv i d :
  (exists v, arg_or argv i py_float d = mret v) \/
  arg_or argv i py_float d = raise ValueError.
Proof.
  unfold arg_or, py_float, of_option. destruct (nth_error argv i) as [str|]; [| eauto].
  destruct (PyNum.float_of_str str); eauto.
Qed.

Lemma mret_not_raise {A} (v : A) e : @mret M _ A v <> raise e.
Proof.
  intros E.
  pose proof (f_equal (fun c : M A => fst (c empty_world)) E) as E'. discriminate.
Qed.

Lemma bad_int argv i d str v :
  nth_error argv i = Some str -> parses IntArg str = false ->
  arg_or argv i py_int d <> mret v.
Proof.
  intros Ha Hp. unfold arg_or, py_int, of_option. rewrite Ha.
  simpl in Hp. apply bool_decide_eq_false in Hp.
  destruct (PyNum.int_of_str str); [exfalso; apply Hp; eauto |].
  intros E. symmetry in E. exact (mret_not_raise _ _ E).
Qed.

Lemma bad_float argv i d str v :
  nth_error argv i = Some str -> parses FloatArg str = false ->
  arg_or argv i py_float d <> mret v.
Proof.
  intros Ha Hp. unfold arg_or, py_float, of_option. rewrite Ha.
  simpl in Hp. apply bool_decide_eq_false in Hp.
  destruct (PyNum.float_of_str str); [exfalso; apply Hp; eauto |].
  intros E. symmetry in E. exact (mret_not_raise _ _ E).
Qed.

Ltac read_int argv i d :=
  let v := fresh "v" in let E := fresh "E" in
  destruct (arg_or_int argv i d) as [[v E] | E]; rewrite E; [| reflexivity].

Ltac read_float argv i d :=
  let v := fresh "v" in let E := fresh "E" in
  destruct (arg_or_float argv i d) as [[v E] | E]; rewrite E; [| reflexivity].

Ltac bad_arg_absurd Hin Ha Hp :=
  exfalso; simpl in Hin;
  repeat (destruct Hin as [Hin | Hin];
          [ inversion Hin; subst;
            solve [ eapply bad_int; eassumption | eapply bad_float; eassumption ] | ]);
  exact Hin.

Lemma bad_argument_raises s argv w :
  bad_argument s argv -> script_main float_repr strftime s argv w = (Raise ValueError, w).
Proof.
  intros (i & k & str & Hin & Ha & _ & Hp). destruct s; simpl script_main.
  - unfold GoTest.main. read_int argv 1%nat 10%Z. read_int argv 2%nat 100%Z.
    read_float argv 3%nat (Fin 0.1). bad_arg_absurd Hin Ha Hp.
  - unfold XUnit.main. read_int argv 1%nat 100%Z. read_int argv 2%nat 50%Z.
    read_float argv 3%nat (Fin 0.1). bad_arg_absurd Hin Ha Hp.
  - unfold Trace.main. read_int argv 1%nat 10%Z. read_int argv 2%nat 100%Z.
    bad_arg_absurd Hin Ha Hp.
  - unfold Results.main. read_int argv 1%nat 500%Z. read_float argv 2%nat (Fin 0.1).
    read_int argv 3%nat 20%Z. bad_arg_absurd Hin Ha Hp.
  - destruct Hin.
Qed.

(** *** The exit status *)

Lemma no_exit_script s argv :
  (s = TestResultsScript -> (length argv <? 2)%nat = false) ->
  no_exit (script_main float_repr strftime s argv).
Proof.
  destruct s; simpl; intros H.
  - apply no_exit_gotest_main.
  - apply no_exit_xunit_main.
  - apply no_exit_trace_main.
  - apply no_exit_results_main.
  - apply no_exit_test_results_main, H. reflexivity.
Qed.

Lemma only_exit s argv w code :
  outcome float_repr strftime s argv w = Raise (SystemExit code) ->
  s = TestResultsScript /\ (length argv < 2)%nat /\ code = 1%Z.
Proof.
  unfold outcome. intros H.
  destruct (length argv <? 2)%nat eqn:El.
  - destruct s;
      try (exfalso; revert H; apply no_exit_script; discriminate).
    simpl in H. rewrite (test_results_usage argv w El) in H. simpl in H.
    inversion H. apply Nat.ltb_lt in El. auto.
  - exfalso. revert H. apply no_exit_script. intros _. exact El.
Qed.

Lemma exit_zero_iff s argv w :
  exit_status (outcome float_repr strftime s argv w) = 0%Z
  <-> exists v, outcome float_repr strftime s argv w = Ok v.
Proof.
  destruct (outcome float_repr strftime s argv w) as [v | e] eqn:E.
  - split; [eauto | reflexivity].
  - split; [| intros [v Hv]; discriminate].
    destruct e; simpl; try discriminate.
    apply only_exit in E as (_ & _ & ->). discriminate.
Qed.

Lemma arg_given_int prog rest i str d :
  nth_error (prog :: rest) (S i) = Some str -> PyNum.int_of_str str = Some d ->
  arg_or (prog :: rest) (S i) py_int d = arg_or [prog] (S i) py_int d.
Proof.
  intros Ha Hp. unfold arg_or, py_int, of_option. rewrite Ha, Hp.
  now destruct i.
Qed.

Lemma arg_given_float prog rest i str d :
  nth_error (prog :: rest) (S i) = Some str -> PyNum.float_of_str str = Some d ->
  arg_or (prog :: rest) (S i) py_float d = arg_or [prog] (S i) py_float d.
Proof.
  intros Ha Hp. unfold arg_or, py_float, of_option. rewrite Ha, Hp.
  now destruct i.
Qed.

Ltac given_int rest i str d :=
  match goal with
  | prog : string |- _ =>
      rewrite (arg_given_int prog rest i str d) by (vm_compute; reflexivity)
  end.
Ltac given_float rest i str d :=
  match goal with
  | prog : string |- _ =>
      rewrite (arg_given_float prog rest i str d) by (vm_compute; reflexivity)
  end.

Lemma defaults_stand_in s prog :
  s <> TestResultsScript ->
  script_main float_repr strftime s [prog]
  = script_main float_repr strftime s (prog :: default_args s).
Proof.
  intros _. destruct s; cbn [script_main default_args].
  - unfold GoTest.main.
    given_int ["10"; "100"; "0.1"] 0%nat "10" 10%Z.
    given_int ["10"; "100"; "0.1"] 1%nat "100" 100%Z.
    given_float ["10"; "100"; "0.1"] 2%nat "0.1" (Fin 0.1).
    reflexivity.
  - unfold XUnit.main.
    given_int ["100"; "50"; "0.1"] 0%nat "100" 100%Z.
    given_int ["100"; "50"; "0.1"] 1%nat "50" 50%Z.
    given_float ["100"; "50"; "0.1"] 2%nat "0.1" (Fin 0.1).
    reflexivity.
  - unfold Trace.main.
    given_int ["10"; "100"] 0%nat "10" 10%Z.
    given_int ["10"; "100"] 1%nat "100" 100%Z.
    reflexivity.
  - unfold Results.main.
    given_int ["500"; "0.1"; "20"] 0%nat "500" 500%Z.
    given_float ["500"; "0.1"; "20"] 1%nat "0.1" (Fin 0.1).
    given_int ["500"; "0.1"; "20"] 2%nat "20" 20%Z.
    reflexivity.
  - reflexivity.
Qed.

(** C8. Only generate_test_results.py has an argument it cannot do without:
    run with fewer than two entries in [argv] it prints the usage line and
    exits with 1, and no script exits by itself in any other case (the other
    scripts take their defaults for what is not given).  The exit status is 0
    exactly when [main] returns; an argument that is given, is written in
    ASCII, and is not a number of its kind makes the script raise
    [ValueError], and every exception that leaves [main] gives an exit status
    that is not 0. *)
Theorem exit_behaviour s argv w :
  (s = TestResultsScript -> (length argv < 2)%nat ->
   outcome float_repr strftime s argv w = Raise (SystemExit 1) /\
   stdout (snd (script_main float_repr strftime s argv w)) = stdout w ++ [usage]) /\
  (forall code, outcome float_repr strftime s argv w = Raise (SystemExit code) ->
                s = TestResultsScript /\ (length argv < 2)%nat /\ code = 1%Z) /\
  (s <> TestResultsScript ->
   forall prog, script_main float_repr strftime s [prog]
                = script_main float_repr strftime s (prog :: default_args s)) /\
  (exit_status (outcome float_repr strftime s argv w) = 0%Z
   <-> exists v, outcome float_repr strftime s argv w = Ok v) /\
  (bad_argument s argv -> outcome float_repr strftime s argv w = Raise ValueError) /\
  (forall e, outcome float_repr strftime s argv w = Raise e ->
             exit_status (outcome float_repr strftime s argv w) <> 0%Z).
Proof.
  split; [| split; [| split; [| split; [| split]]]].
  - intros -> Hlen. apply Nat.ltb_lt in Hlen. unfold outcome. simpl.
    rewrite (test_results_usage argv w Hlen). split; reflexivity.
  - apply only_exit.
  - intros Hs prog. now apply defaults_stand_in.
  - apply exit_zero_iff.
  - intros Hbad. unfold outcome. now rewrite (bad_argument_raises s argv w Hbad).
  - intros e He H0. apply exit_zero_iff in H0 as [v Hv]. congruence.
Qed.

End Libraries.

End ExitFacts.

(** * More on generate_gotest_files.py *)

Module GoTestMore.
Import PyStrSpec GoTestSpec PyStrFacts MFacts GoTestFacts GoTest.

(** Two facts about one run hold together. *)
Lemma returns_both {A} (c : M A) w (Q1 Q2 : A -> world -> Prop) :
  returns c w Q1 -> returns c w Q2 -> returns c w (fun a w' => Q1 a w' /\ Q2 a w').
Proof. unfold returns. destruct (c w) as [[a | e] w']; auto. Qed.

Lemma returns_run {A} (c : M A) w (Q : A -> world -> Prop) a w' :
  returns c w Q -> c w = (Ok a, w') -> Q a w'.
Proof. unfold returns. intros H E. now rewrite E in H. Qed.

(** A loop that only appends. *)
Lemma for_each_append {A B} (xs : list A) (f : A -> B) (acc : list B) w :
  for_each xs (fun x acc => mret (acc ++ [f x])) acc w = (Ok (acc ++ map f xs), w).
Proof.
  revert acc. induction xs as [|x xs IH]; intros acc; simpl.
  - now rewrite List.app_nil_r.
  - unfold mbind, M_bind. simpl. rewrite IH, <- List.app_assoc. reflexivity.
Qed.

Lemma lt_float_never rate r :
  never_below rate -> (0 <= r)%Q -> lt_float r rate = false.
Proof.
  destruct rate as [q | | |]; simpl; try easy. intros Hq Hr.
  destruct (Qlt_le_dec r q) as [H | H]; [lra | reflexivity].
Qed.

Lemma lt_float_always rate r :
  always_below rate -> (r < 1)%Q -> lt_float r rate = true.
Proof.
  destruct rate as [q | | |]; simpl; try easy. intros Hq Hr.
  destruct (Qlt_le_dec r q) as [H | H]; [reflexivity | lra].
Qed.

Lemma count_if_le {A} (P Q : A -> bool) l :
  (forall x, P x = true -> Q x = true) -> count_if P l <= count_if Q l.
Proof.
  intros H. induction l as [|x l IH]; simpl; [lia |].
  destruct (P x) eqn:E; [rewrite (H x E); lia | destruct (Q x); lia].
Qed.

Lemma fail_line_is_result l : is_fail_line l = true -> is_result_line l = true.
Proof. unfold is_result_line, is_fail_line. intros ->. apply orb_true_r. Qed.

(** *** The lines of one test *)

Lemma generate_test_output_lines test_num module_name should_fail w :
  no_nl module_name = true ->
  returns (generate_test_output test_num module_name should_fail) w
    (fun r w' =>
       let name := go_test_name module_name test_num in
       exists (d : Q) (n : Z) (block : list string),
         (0.001 <= d)%Q /\ (d <= 0.5)%Q /\ (2 <= n <= 8)%Z /\
         length block = (if should_fail then 3 else 0) /\
         Forall (fun l => is_result_line l = false) block /\
         snd r = (if should_fail then "FAIL" else "PASS") /\
         split_nl (fst r)
         = ("=== RUN   " +:+ name)
             :: map (fun i => "    " +:+ name +:+ ": log line " +:+ str_int (i + 1)
                                +:+ ": processing step " +:+ str_int (i + 1))
                    (py_range n)
             ++ block ++ [go_result_line (snd r) name d]).
Proof.
  intros Hmod. unfold generate_test_output.
  pose proof (no_nl_test_name module_name test_num Hmod) as Hname.
  fold (go_test_name module_name test_num) in *.
  set (name := go_test_name module_name test_num) in *.
  apply returns_bind. eapply returns_mono; [apply uniform_spec; lra |].
  intros d w1 (_ & Hd1 & Hd2).
  apply returns_bind. eapply returns_mono; [apply randint_spec; lia |].
  intros n w2 (_ & Hn). cbv beta.
  apply returns_bind. unfold returns at 1. rewrite for_each_append.
  set (logs := map (fun i => "    " +:+ name +:+ ": log line " +:+ str_int (i + 1)
                               +:+ ": processing step " +:+ str_int (i + 1)) (py_range n)).
  assert (Hlogs : Forall (fun l => no_nl l = true) logs).
  { apply Forall_map, Forall_forall. intros i _. simpl. no_nl_solve. }
  assert (Hfinish : forall (block : list string) (status : string),
             Forall (fun l => no_nl l = true) block ->
             (status = "FAIL" \/ status = "PASS") ->
             split_nl (join nl ((([] ++ ["=== RUN   " +:+ name]) ++ logs) ++ block
                                  ++ [go_result_line status name d]))
             = ("=== RUN   " +:+ name) :: logs ++ block ++ [go_result_line status name d]).
  { intros block status HB Hst. simpl app.
    rewrite split_nl_join_lines; [reflexivity | discriminate |].
    constructor; [no_nl_solve |]. apply Forall_app. split; [exact Hlogs |].
    apply Forall_app. split; [exact HB |]. constructor; [| constructor].
    unfold go_result_line. destruct Hst as [-> | ->]; no_nl_solve. }
  destruct should_fail.
  - apply returns_bind. apply returns_bind.
    eapply returns_mono; [apply randint_spec; lia |]. intros e w4 _.
    apply returns_bind.
    eapply returns_mono; [apply randint_spec; lia |]. intros a w5 _.
    apply returns_ret. apply returns_ret. simpl fst. simpl snd.
    exists d, n, ["    " +:+ name +:+ ": assertion failed";
                  "        Expected: " +:+ str_int e; "        Actual: " +:+ str_int a].
    do 4 (split; [assumption || reflexivity || lia |]).
    split; [repeat constructor |]. split; [reflexivity |].
    rewrite <- Hfinish; [| repeat constructor; no_nl_solve | now left].
    unfold go_result_line. rewrite <- !List.app_assoc. reflexivity.
  - apply returns_bind. apply returns_ret. apply returns_ret. simpl fst. simpl snd.
    exists d, n, []. do 4 (split; [assumption || reflexivity || lia |]).
    split; [constructor |]. split; [reflexivity |].
    rewrite <- Hfinish; [| constructor | now right].
    unfold go_result_line. rewrite <- !List.app_assoc. reflexivity.
Qed.

(** X1. For a module name with no newline in it, [generate_test_output]
    returns the status FAIL exactly when it is asked for a failure, and a
    text whose first line announces the test, whose last line reports the
    status with a duration of 0.001 to 0.5 seconds, and which has 4 to 10
    lines for a test that passes and 7 to 13 for one that fails. *)
Theorem test_output_shape test_num module_name should_fail w :
  no_nl module_name = true ->
  returns (generate_test_output test_num module_name should_fail) w
    (fun r w' =>
       let name := go_test_name module_name test_num in
       let lines := split_nl (fst r) in
       (snd r = "FAIL" <-> should_fail = true) /\
       (snd r = "PASS" <-> should_fail = false) /\
       hd "" lines = "=== RUN   " +:+ name /\
       (exists d : Q, (0.001 <= d)%Q /\ (d <= 0.5)%Q /\
                      List.last lines "" = go_result_line (snd r) name d) /\
       (if should_fail then 7 <= length lines <= 13 else 4 <= length lines <= 10)).
Proof.
  intros Hmod.
  eapply returns_mono; [apply (generate_test_output_lines _ _ _ _ Hmod) |].
  intros [text status] w' (d & n & block & Hd1 & Hd2 & Hn & Hb & _ & Hs & Hl).
  simpl in *. rewrite Hl. subst status.
  split; [destruct should_fail; split; congruence |].
  split; [destruct should_fail; split; congruence |].
  split; [reflexivity |]. split.
  - exists d. split; [exact Hd1 |]. split; [exact Hd2 |].
    rewrite !app_comm_cons, !List.app_assoc. apply List.last_last.
  - simpl length. rewrite !length_app, length_map, length_py_range, Hb. simpl.
    destruct should_fail; lia.
Qed.

Lemma test_output_shape_witness :
  returns (generate_test_output 7 "module_0003" true) empty_world
    (fun r w' =>
       let name := go_test_name "module_0003" 7 in
       let lines := split_nl (fst r) in
       (snd r = "FAIL" <-> true = true) /\
       (snd r = "PASS" <-> true = false) /\
       hd "" lines = "=== RUN   " +:+ name /\
       (exists d : Q, (0.001 <= d)%Q /\ (d <= 0.5)%Q /\
                      List.last lines "" = go_result_line (snd r) name d) /\
       7 <= length lines <= 13).
Proof. apply (test_output_shape 7 "module_0003" true empty_world). reflexivity. Defined.

Lemma filter_none {A} (P : A -> bool) l :
  Forall (fun x => P x = false) l -> List.filter P l = [].
Proof.
  induction 1 as [|x l Hx _ IH]; [reflexivity |]. simpl. now rewrite Hx.
Qed.

Lemma generate_test_output_report test_num module_name should_fail w :
  no_nl module_name = true ->
  returns (generate_test_output test_num module_name should_fail) w
    (fun r _ =>
       exists l, List.filter is_result_line (split_nl (fst r)) = [l] /\
                 reports_test module_name test_num l).
Proof.
  intros Hmod.
  eapply returns_mono; [apply (generate_test_output_lines _ _ _ _ Hmod) |].
  intros [text status] w' (d & n & block & Hd1 & Hd2 & _ & _ & Hblock & Hs & Hl).
  simpl in *. rewrite Hl. subst status.
  exists (go_result_line (if should_fail then "FAIL" else "PASS")
            (go_test_name module_name test_num) d).
  split.
  - rewrite app_comm_cons, !List.filter_app.
    rewrite (filter_none _ block Hblock).
    rewrite (filter_none _ (_ :: map _ _)).
    + simpl. now destruct should_fail.
    + constructor; [reflexivity |]. apply Forall_map, Forall_forall. now intros.
  - exists (if should_fail then "FAIL" else "PASS"), d.
    split; [destruct should_fail; auto |]. auto.
Qed.

(** *** The failures of a suite *)

Lemma suite_loop_order module_name tests_per_file failure_rate w :
  no_nl module_name = true ->
  returns
    (for_each (py_range tests_per_file)
       (fun test_num '(lines, num_failures, num_passes) =>
          r ← Random.random;
          let should_fail := lt_float r failure_rate in
          '(output, status) ← generate_test_output test_num module_name should_fail;
          let lines := lines ++ [output] in
          if String.eqb status "FAIL" then mret (lines, (num_failures + 1)%Z, num_passes)
          else mret (lines, num_failures, (num_passes + 1)%Z))
       ([], 0%Z, 0%Z))
    w
    (fun (s : list string * Z * Z) _ =>
       Forall2 (reports_test module_name) (py_range tests_per_file)
               (List.filter is_result_line (concat (map split_nl s.1.1)))).
Proof.
  intros Hmod.
  apply (returns_for_each
           (fun (done : list Z) (s : list string * Z * Z) (_ : world) =>
              Forall2 (reports_test module_name) done
                      (List.filter is_result_line (concat (map split_nl s.1.1))))).
  - constructor.
  - intros done k rest [[lines nf] np] w1 _ Hdone. simpl in Hdone.
    apply returns_bind. eapply returns_mono; [apply random_spec |].
    intros r w2 _. cbv beta zeta.
    apply returns_bind.
    eapply returns_mono; [apply (generate_test_output_report _ _ _ _ Hmod) |].
    intros [out status] w3 (l & Hfilter & Hl). simpl in Hfilter.
    assert (Hnew : Forall2 (reports_test module_name) (done ++ [k])
                     (List.filter is_result_line
                        (concat (map split_nl (lines ++ [out]))))).
    { rewrite map_app, concat_app, List.filter_app. simpl.
      rewrite List.app_nil_r, Hfilter.
      apply Forall2_app; [exact Hdone | constructor; [exact Hl | constructor]]. }
    destruct (String.eqb status "FAIL"); apply returns_ret; exact Hnew.
Qed.


Lemma suite_loop_rate module_name tests_per_file failure_rate (b : bool) w :
  no_nl module_name = true ->
  (forall r : Q, (0 <= r)%Q -> (r < 1)%Q -> lt_float r failure_rate = b) ->
  returns
    (for_each (py_range tests_per_file)
       (fun test_num '(lines, num_failures, num_passes) =>
          r ← Random.random;
          let should_fail := lt_float r failure_rate in
          '(output, status) ← generate_test_output test_num module_name should_fail;
          let lines := lines ++ [output] in
          if String.eqb status "FAIL" then mret (lines, (num_failures + 1)%Z, num_passes)
          else mret (lines, num_failures, (num_passes + 1)%Z))
       ([], 0%Z, 0%Z))
    w
    (fun (s : list string * Z * Z) w' =>
       s.1.2 = if b then Z.of_nat (Z.to_nat tests_per_file) else 0%Z).
Proof.
  intros Hmod Hrate.
  eapply returns_mono.
  { apply (returns_for_each
             (fun (done : list Z) (s : list string * Z * Z) (_ : world) =>
                s.1.2 = if b then Z.of_nat (length done) else 0%Z)).
    - now destruct b.
    - intros done k rest [[lines nf] np] w1 _ Hnf. simpl in Hnf.
      apply returns_bind. eapply returns_mono; [apply random_spec |].
      intros r w2 (_ & Hr0 & Hr1). cbv beta zeta. rewrite (Hrate r Hr0 Hr1).
      apply returns_bind.
      eapply returns_mono; [apply (generate_test_output_spec _ _ _ _ Hmod) |].
      intros [out status] w3 (_ & Hs & _). simpl in Hs. subst status.
      rewrite length_app. simpl length.
      destruct b; simpl; apply returns_ret; simpl; lia. }
  intros s w' Hs. cbv beta in Hs. now rewrite length_py_range in Hs.
Qed.

(** What [generate_suite_file] writes, line by line. *)
Lemma generate_suite_file_text file_num tests_per_file failure_rate output_dir w :
  exists (lines : list string) (nf : Z) (t : Q) w1,
    let summary := if (0 <? nf)%Z then "FAIL" else "PASS" in
    let content := join nl ((lines ++ [summary]) ++ [go_ok_line file_num t]) in
    same_env w w1 /\ (0.5 <= t)%Q /\ (t <= 5)%Q /\
    split_nl content = concat (map split_nl lines) ++ [summary; go_ok_line file_num t] /\
    nf = Z.of_nat (count_if is_fail_line (concat (map split_nl lines))) /\
    count_if is_result_line (concat (map split_nl lines)) = Z.to_nat tests_per_file /\
    Forall2 (reports_test ("module_" +:+ fmt_0d 4 file_num)) (py_range tests_per_file)
            (List.filter is_result_line (concat (map split_nl lines))) /\
    (never_below failure_rate -> nf = 0%Z) /\
    (always_below failure_rate -> nf = Z.of_nat (Z.to_nat tests_per_file)) /\
    generate_suite_file file_num tests_per_file failure_rate output_dir w
    = then_write (suite_path output_dir file_num) content (tests_per_file, nf) w1.
Proof.
  assert (Hmod : no_nl ("module_" +:+ fmt_0d 4 file_num) = true) by no_nl_solve.
  destruct (returns_elim _ _ _
              (suite_loop_spec _ tests_per_file failure_rate w Hmod))
    as ([[lines nf] np] & w1 & Hrun1 & E1 & Hres & Hnf).
  simpl in Hres, Hnf.
  destruct (returns_elim _ _ _ (uniform_spec 0.5 5.0 w1 ltac:(lra)))
    as (t & w2 & Hrun2 & E2 & Ht1 & Ht2).
  exists lines, nf, t, w2. cbv zeta.
  set (summary := if (0 <? nf)%Z then "FAIL" else "PASS").
  split; [eauto using same_env_trans |]. split; [exact Ht1 |]. split; [lra |].
  split.
  { rewrite split_nl_join by now destruct lines.
    rewrite !map_app, !concat_app. simpl.
    rewrite (split_nl_no_nl summary) by (unfold summary; now destruct (0 <? nf)%Z).
    rewrite (split_nl_no_nl (go_ok_line file_num t))
      by (unfold go_ok_line, tab; no_nl_solve).
    rewrite <- List.app_assoc. reflexivity. }
  split; [exact Hnf |]. split; [exact Hres |].
  split; [exact (returns_run _ _ _ _ _
                   (suite_loop_order _ tests_per_file failure_rate w Hmod) Hrun1) |].
  split; [| split].
  - intros Hr.
    exact (returns_run _ _ _ _ _
             (suite_loop_rate _ tests_per_file failure_rate false w Hmod
                (fun r H0 _ => lt_float_never _ r Hr H0)) Hrun1).
  - intros Hr.
    exact (returns_run _ _ _ _ _
             (suite_loop_rate _ tests_per_file failure_rate true w Hmod
                (fun r _ H1 => lt_float_always _ r Hr H1)) Hrun1).
  - unfold generate_suite_file.
    rewrite (bind_run _ _ _ _ _ Hrun1). cbv beta iota.
    rewrite (bind_run _ _ _ _ _ Hrun2). reflexivity.
Qed.

Lemma generate_suite_file_written file_num tests_per_file failure_rate output_dir w :
  OS.is_dir w (suite_path output_dir file_num) = false ->
  OS.is_dir w (OS.dirname (suite_path output_dir file_num)) = true ->
  exists (lines : list string) (nf : Z) (t : Q) w',
    let summary := if (0 <? nf)%Z then "FAIL" else "PASS" in
    let content := join nl ((lines ++ [summary]) ++ [go_ok_line file_num t]) in
    (0.5 <= t)%Q /\ (t <= 5)%Q /\
    split_nl content = concat (map split_nl lines) ++ [summary; go_ok_line file_num t] /\
    nf = Z.of_nat (count_if is_fail_line (concat (map split_nl lines))) /\
    count_if is_result_line (concat (map split_nl lines)) = Z.to_nat tests_per_file /\
    Forall2 (reports_test ("module_" +:+ fmt_0d 4 file_num)) (py_range tests_per_file)
            (List.filter is_result_line (concat (map split_nl lines))) /\
    (never_below failure_rate -> nf = 0%Z) /\
    (always_below failure_rate -> nf = Z.of_nat (Z.to_nat tests_per_file)) /\
    generate_suite_file file_num tests_per_file failure_rate output_dir w
    = (Ok (tests_per_file, nf), w') /\
    files w' !! suite_path output_dir file_num = Some content.
Proof.
  intros Hnd Hd.
  destruct (generate_suite_file_text file_num tests_per_file failure_rate output_dir w)
    as (lines & nf & t & w1 & E & Ht1 & Ht2 & Hsplit & Hnf & Hres & Hord & Hnever & Halways
        & Hrun).
  cbv zeta in *.
  pose proof (then_write_ok (suite_path output_dir file_num)
                (join nl ((lines ++ [if (0 <? nf)%Z then "FAIL" else "PASS"])
                            ++ [go_ok_line file_num t]))
                (tests_per_file, nf) w1) as Hw.
  rewrite !(is_dir_same_env w w1 _ E) in Hw. specialize (Hw Hnd Hd).
  apply returns_elim in Hw as (r & w' & Hw & -> & Hf & _).
  exists lines, nf, t, w'. cbv zeta.
  repeat (split; [assumption |]). split; [congruence |].
  rewrite Hf. apply lookup_insert_eq.
Qed.

(** X2. The number of failures [generate_suite_file] returns is the number
    of lines of the file it wrote that begin with "--- FAIL:"; it is at
    least 0 and at most [tests_per_file] (0 when that is negative). *)
Theorem suite_failures_counted file_num tests_per_file failure_rate output_dir w :
  OS.is_dir w (suite_path output_dir file_num) = false ->
  OS.is_dir w (OS.dirname (suite_path output_dir file_num)) = true ->
  exists failures content w',
    generate_suite_file file_num tests_per_file failure_rate output_dir w
      = (Ok (tests_per_file, failures), w') /\
    files w' !! suite_path output_dir file_num = Some content /\
    failures = Z.of_nat (count_lines is_fail_line content) /\
    (0 <= failures <= Z.max 0 tests_per_file)%Z.
Proof.
  intros Hnd Hd.
  destruct (generate_suite_file_written file_num tests_per_file failure_rate output_dir w
              Hnd Hd)
    as (lines & nf & t & w' & _ & _ & Hsplit & Hnf & Hres & _ & _ & _ & Hrun & Hf).
  cbv zeta in *. eexists nf, _, w'. split; [exact Hrun |]. split; [exact Hf |].
  assert (Hcount : count_lines is_fail_line
                     (join nl ((lines ++ [if (0 <? nf)%Z then "FAIL" else "PASS"])
                                 ++ [go_ok_line file_num t]))
                   = count_if is_fail_line (concat (map split_nl lines))).
  { unfold count_lines. rewrite Hsplit, count_if_app. simpl.
    replace (is_fail_line (if (0 <? nf)%Z then "FAIL" else "PASS")) with false
      by (now destruct (0 <? nf)%Z).
    replace (is_fail_line (go_ok_line file_num t)) with false by reflexivity. lia. }
  split; [rewrite Hcount; exact Hnf |].
  pose proof (count_if_le is_fail_line is_result_line (concat (map split_nl lines))
                fail_line_is_result) as Hle.
  lia.
Qed.

Lemma suite_failures_counted_witness :
  exists failures content w',
    generate_suite_file 3 2 (Fin 0.5) "." (world_of [0; 1; 2; 3; 4; 2 ^ 52; 7]%N [] [] [])
      = (Ok (2%Z, failures), w') /\
    files w' !! suite_path "." 3 = Some content /\
    failures = Z.of_nat (count_lines is_fail_line content) /\
    (0 <= failures <= Z.max 0 2)%Z.
Proof.
  apply (suite_failures_counted 3 2 (Fin 0.5) "."
           (world_of [0; 1; 2; 3; 4; 2 ^ 52; 7]%N [] [] []));
    vm_compute; reflexivity.
Defined.

(** X3. With a failure rate of zero or less (or one that is no number) no
    test of the suite fails: [generate_suite_file] returns 0 failures and the
    summary line is PASS.  With a failure rate of one or more every test
    fails: it returns [tests_per_file] failures (0 when that is negative). *)
Theorem suite_rate_extremes file_num tests_per_file failure_rate output_dir w :
  OS.is_dir w (suite_path output_dir file_num) = false ->
  OS.is_dir w (OS.dirname (suite_path output_dir file_num)) = true ->
  exists failures content w',
    generate_suite_file file_num tests_per_file failure_rate output_dir w
      = (Ok (tests_per_file, failures), w') /\
    files w' !! suite_path output_dir file_num = Some content /\
    (never_below failure_rate -> failures = 0%Z /\ summary_line content = "PASS") /\
    (always_below failure_rate -> failures = Z.max 0 tests_per_file).
Proof.
  intros Hnd Hd.
  destruct (generate_suite_file_written file_num tests_per_file failure_rate output_dir w
              Hnd Hd)
    as (lines & nf & t & w' & _ & _ & Hsplit & _ & _ & _ & Hnever & Halways & Hrun & Hf).
  cbv zeta in *. eexists nf, _, w'. split; [exact Hrun |]. split; [exact Hf |]. split.
  - intros Hr. specialize (Hnever Hr). split; [exact Hnever |].
    unfold summary_line. rewrite Hsplit, nth_summary. now rewrite Hnever.
  - intros Hr. rewrite (Halways Hr). lia.
Qed.

Lemma suite_rate_extremes_witness :
  exists failures content w',
    generate_suite_file 0 3 (Fin 1) "." empty_world = (Ok (3%Z, failures), w') /\
    files w' !! suite_path "." 0 = Some content /\
    (never_below (Fin 1) -> failures = 0%Z /\ summary_line content = "PASS") /\
    (always_below (Fin 1) -> failures = Z.max 0 3).
Proof.
  apply (suite_rate_extremes 0 3 (Fin 1) "." empty_world); vm_compute; reflexivity.
Defined.

(** X4. The last line of every .suite file begins with ok, names the module
    and gives a time of 0.5 to 5 seconds, also when the summary line before
    it is FAIL; no newline follows it. *)
Theorem suite_last_line file_num tests_per_file failure_rate output_dir w :
  OS.is_dir w (suite_path output_dir file_num) = false ->
  OS.is_dir w (OS.dirname (suite_path output_dir file_num)) = true ->
  exists failures content (t : Q) w',
    generate_suite_file file_num tests_per_file failure_rate output_dir w
      = (Ok (tests_per_file, failures), w') /\
    files w' !! suite_path output_dir file_num = Some content /\
    (0.5 <= t)%Q /\ (t <= 5)%Q /\
    List.last (split_nl content) "" = go_ok_line file_num t /\
    summary_line content = (if (0 <? failures)%Z then "FAIL" else "PASS").
Proof.
  intros Hnd Hd.
  destruct (generate_suite_file_written file_num tests_per_file failure_rate output_dir w
              Hnd Hd)
    as (lines & nf & t & w' & Ht1 & Ht2 & Hsplit & _ & _ & _ & _ & _ & Hrun & Hf).
  cbv zeta in *. eexists nf, _, t, w'. split; [exact Hrun |]. split; [exact Hf |].
  split; [exact Ht1 |]. split; [exact Ht2 |]. split.
  - rewrite Hsplit.
    change [if (0 <? nf)%Z then "FAIL" else "PASS"; go_ok_line file_num t]
      with ([if (0 <? nf)%Z then "FAIL" else "PASS"] ++ [go_ok_line file_num t]).
    rewrite List.app_assoc. apply List.last_last.
  - unfold summary_line. rewrite Hsplit. apply nth_summary.
Qed.

Lemma suite_last_line_witness :
  exists failures content (t : Q) w',
    generate_suite_file 0 3 (Fin 1) "." empty_world = (Ok (3%Z, failures), w') /\
    files w' !! suite_path "." 0 = Some content /\
    (0.5 <= t)%Q /\ (t <= 5)%Q /\
    List.last (split_nl content) "" = go_ok_line 0 t /\
    summary_line content = (if (0 <? failures)%Z then "FAIL" else "PASS").
Proof.
  apply (suite_last_line 0 3 (Fin 1) "." empty_world); vm_compute; reflexivity.
Defined.

(** X21. The lines of a .suite file that report a test come in the order of
    the tests: the k-th of them reports the test TestModule_NNNN_CaseKKKK
    with KKKK the number k (from 0) in four digits, as PASS or FAIL and with a
    duration of 0.001 to 0.5 seconds. *)
Theorem suite_reports_in_order file_num tests_per_file failure_rate output_dir w :
  OS.is_dir w (suite_path output_dir file_num) = false ->
  OS.is_dir w (OS.dirname (suite_path output_dir file_num)) = true ->
  exists failures content w',
    generate_suite_file file_num tests_per_file failure_rate output_dir w
      = (Ok (tests_per_file, failures), w') /\
    files w' !! suite_path output_dir file_num = Some content /\
    Forall2 (reports_test ("module_" +:+ fmt_0d 4 file_num)) (py_range tests_per_file)
            (List.filter is_result_line (split_nl content)).
Proof.
  intros Hnd Hd.
  destruct (generate_suite_file_written file_num tests_per_file failure_rate output_dir w
              Hnd Hd)
    as (lines & nf & t & w' & _ & _ & Hsplit & _ & _ & Hord & _ & _ & Hrun & Hf).
  cbv zeta in *. eexists nf, _, w'. split; [exact Hrun |]. split; [exact Hf |].
  rewrite Hsplit, List.filter_app.
  replace (List.filter is_result_line
             [if (0 <? nf)%Z then "FAIL" else "PASS"; go_ok_line file_num t])
    with (@nil string) by (now destruct (0 <? nf)%Z).
  now rewrite List.app_nil_r.
Qed.

Lemma suite_reports_in_order_witness :
  exists failures content w',
    generate_suite_file 0 3 (Fin 1) "." empty_world = (Ok (3%Z, failures), w') /\
    files w' !! suite_path "." 0 = Some content /\
    Forall2 (reports_test ("module_" +:+ fmt_0d 4 0)) (py_range 3)
            (List.filter is_result_line (split_nl content)).
Proof.
  apply (suite_reports_in_order 0 3 (Fin 1) "." empty_world); vm_compute; reflexivity.
Defined.

End GoTestMore.

(** * More on generate_xunit_files.py *)

Module XUnitMore.
Import PyStrSpec GoTestSpec XUnitSpec PyStrFacts MFacts GoTestFacts XUnitFacts GoTestMore XUnit.

Lemma count_if_length {A} (P : A -> bool) l : count_if P l <= length l.
Proof. induction l as [|x l IH]; simpl; [lia | destruct (P x); lia]. Qed.

Lemma generate_test_case_range module_name test_num should_fail w :
  returns (generate_test_case module_name test_num should_fail) w
    (fun r _ => (0.001 <= r.1.2)%Q /\ (r.1.2 <= 0.5)%Q).
Proof.
  unfold generate_test_case.
  apply returns_bind. eapply returns_mono; [apply uniform_spec; lra |].
  intros duration w1 (_ & Hd1 & Hd2).
  destruct should_fail.
  - apply returns_bind. eapply returns_mono; [apply randint_spec; lia |]. intros ? w2 _.
    apply returns_bind. eapply returns_mono; [apply randint_spec; lia |]. intros ? w3 _.
    apply returns_bind. eapply returns_mono; [apply randint_spec; lia |]. intros ? w4 _.
    apply returns_ret. simpl. split; assumption.
  - apply returns_ret. simpl. split; assumption.
Qed.

(** X5. For a module name with neither a newline nor a quote in it,
    [generate_test_case] returns its third component as it was asked, a
    duration of 0.001 to 0.5 seconds, and the XML of one testcase element
    whose time attribute shows the duration with three decimals: one line
    with no failure child for a test that passes, ten lines with one failure
    child for a test that fails. *)
Theorem test_case_shape module_name test_num should_fail w :
  clean module_name ->
  returns (generate_test_case module_name test_num should_fail) w
    (fun r _ =>
       let lines := split_nl r.1.1 in
       r.2 = should_fail /\ (0.001 <= r.1.2)%Q /\ (r.1.2 <= 0.5)%Q /\
       length lines = (if should_fail then 10 else 1) /\
       count_if is_testcase_open lines = 1 /\
       count_failed_from false lines = (if should_fail then 1 else 0) /\
       map (xml_attr "time") (List.filter is_testcase_open lines)
       = [Some (fmt_f 3 r.1.2)]).
Proof.
  intros Hm.
  eapply returns_mono.
  { apply returns_both;
      [apply generate_test_case_spec | apply generate_test_case_range]. }
  intros [[xml d] failed] w' [(_ & Hf & Hcase & _) [Hd1 Hd2]]. simpl in *.
  destruct (case_counts module_name Hm xml d should_fail [] Hcase)
    as (Hopen & Hfailed & Htime & _).
  rewrite List.app_nil_r in Hfailed. simpl in Hfailed. rewrite Nat.add_0_r in Hfailed.
  split; [exact Hf |]. split; [exact Hd1 |]. split; [exact Hd2 |].
  split; [| split; [exact Hopen | split; [exact Hfailed | exact Htime]]].
  inversion Hcase; subst.
  - now rewrite (pass_lines module_name Hm).
  - now rewrite (fail_lines module_name Hm).
Qed.

Lemma test_case_shape_witness :
  returns (generate_test_case "module_0003" 7 true) empty_world
    (fun r _ =>
       let lines := split_nl r.1.1 in
       r.2 = true /\ (0.001 <= r.1.2)%Q /\ (r.1.2 <= 0.5)%Q /\
       length lines = 10 /\
       count_if is_testcase_open lines = 1 /\
       count_failed_from false lines = 1 /\
       map (xml_attr "time") (List.filter is_testcase_open lines)
       = [Some (fmt_f 3 r.1.2)]).
Proof.
  apply (test_case_shape "module_0003" 7 true empty_world). split; reflexivity.
Defined.

(** *** The cases in their order *)

Lemma generate_test_case_numbered module_name test_num should_fail w :
  returns (generate_test_case module_name test_num should_fail) w
    (fun r _ => case_numbered module_name test_num r.1.1).
Proof.
  unfold generate_test_case.
  apply returns_bind. eapply returns_mono; [apply uniform_spec; lra |].
  intros duration w1 _.
  destruct should_fail.
  - apply returns_bind. eapply returns_mono; [apply randint_spec; lia |]. intros l w2 _.
    apply returns_bind. eapply returns_mono; [apply randint_spec; lia |]. intros e w3 _.
    apply returns_bind. eapply returns_mono; [apply randint_spec; lia |]. intros a w4 _.
    apply returns_ret. right. exists duration, l, e, a. reflexivity.
  - apply returns_ret. left. exists duration. reflexivity.
Qed.

Lemma generate_cases_order m tests_per_file failure_rate w :
  returns (generate_cases m tests_per_file failure_rate) w
    (fun s _ => Forall2 (case_numbered m) (py_range tests_per_file) s.1.1.1).
Proof.
  unfold generate_cases.
  apply (returns_for_each
           (fun (done : list Z) (s : list string * list Q * Q * Z) (_ : world) =>
              Forall2 (case_numbered m) done s.1.1.1)).
  - constructor.
  - intros done k rest [[[cases durs] total] nf] w1 _ Hdone. simpl in Hdone.
    apply returns_bind. eapply returns_mono; [apply random_spec |].
    intros r w2 _. cbv beta zeta.
    apply returns_bind. eapply returns_mono; [apply generate_test_case_numbered |].
    intros [[xml d] failed] w3 Hcase. simpl in Hcase.
    apply returns_ret. simpl.
    apply Forall2_app; [exact Hdone | constructor; [exact Hcase | constructor]].
Qed.

Lemma open_tag_name m pre post n d :
  clean m -> pre = "  <testcase" -> post = "/>" \/ post = ">" ->
  xml_attr "name"
    (pre +:+ attr "classname" (classname_of m) +:+ attr "name" (casename_of m n)
         +:+ attr "time" (fmt_f 3 d) +:+ post)
  = Some (casename_of m n).
Proof.
  intros [Hnl Hdq] -> Hpost. unfold xml_attr.
  change ("  <testcase" +:+ attr "classname" (classname_of m)
            +:+ attr "name" (casename_of m n) +:+ attr "time" (fmt_f 3 d) +:+ post)
    with ("  <testcase" +:+ attrs_str [("classname", classname_of m);
                                        ("name", casename_of m n);
                                        ("time", fmt_f 3 d)] post).
  rewrite split_attrs; [reflexivity | reflexivity | destruct Hpost as [-> | ->]; reflexivity |].
  unfold quote_free, classname_of, casename_of in *. repeat constructor; simpl; avoids_solve.
Qed.

Lemma case_name m k xml :
  clean m -> case_numbered m k xml ->
  map (xml_attr "name") (List.filter is_testcase_open (split_nl xml))
  = [Some (casename_of m k)].
Proof.
  intros Hm [[d ->] | (d & line & e & a & ->)].
  - rewrite (pass_lines m Hm). rewrite filter_keep by reflexivity.
    cbn [List.filter map]. f_equal. apply open_tag_name; auto.
  - rewrite (fail_lines m Hm). unfold TESTCASE_FAIL_LINES.
    rewrite filter_keep by reflexivity.
    do 9 (rewrite filter_skip by reflexivity).
    cbn [List.filter map]. f_equal. apply open_tag_name; auto.
Qed.

Lemma cases_names m (ks : list Z) (xmls : list string) :
  clean m -> Forall2 (case_numbered m) ks xmls ->
  map (xml_attr "name") (List.filter is_testcase_open (concat (map split_nl xmls)))
  = map (fun k => Some (casename_of m k)) ks.
Proof.
  intros Hm. induction 1 as [|k xml ks xmls Hk _ IH]; [reflexivity |].
  simpl concat. rewrite List.filter_app, map_app, IH, (case_name m k xml Hm Hk).
  reflexivity.
Qed.

(** *** The failures of a file *)

Lemma generate_cases_rate m tests_per_file failure_rate (b : bool) w :
  (forall r : Q, (0 <= r)%Q -> (r < 1)%Q -> lt_float r failure_rate = b) ->
  returns (generate_cases m tests_per_file failure_rate) w
    (fun s _ => s.2 = if b then Z.of_nat (Z.to_nat tests_per_file) else 0%Z).
Proof.
  intros Hrate. unfold generate_cases. eapply returns_mono.
  { apply (returns_for_each
             (fun (done : list Z) (s : list string * list Q * Q * Z) (_ : world) =>
                s.2 = if b then Z.of_nat (length done) else 0%Z)).
    - now destruct b.
    - intros done k rest [[[cases durs] total] nf] w1 _ Hnf. simpl in Hnf.
      apply returns_bind. eapply returns_mono; [apply random_spec |].
      intros r w2 (_ & Hr0 & Hr1). cbv beta zeta. rewrite (Hrate r Hr0 Hr1).
      apply returns_bind.
      eapply returns_mono; [apply generate_test_case_spec |].
      intros [[xml d] failed] w3 (_ & Hf & _). simpl in Hf. subst failed.
      apply returns_ret. rewrite length_app. simpl.
      destruct b; lia. }
  intros s w' Hs. cbv beta in Hs. now rewrite length_py_range in Hs.
Qed.

Lemma generate_xunit_file_written file_num tests_per_file failure_rate output_dir w :
  OS.is_dir w (xunit_path output_dir file_num) = false ->
  OS.is_dir w (OS.dirname (xunit_path output_dir file_num)) = true ->
  let m := "module_" +:+ fmt_0d 4 file_num in
  exists recs w',
    cases_ok m recs /\ length recs = Z.to_nat tests_per_file /\
    Forall2 (case_numbered m) (py_range tests_per_file) (map xml_of recs) /\
    (never_below failure_rate -> count_if failed_of recs = 0) /\
    (always_below failure_rate -> count_if failed_of recs = length recs) /\
    generate_xunit_file file_num tests_per_file failure_rate output_dir w
    = (Ok (tests_per_file, Z.of_nat (count_if failed_of recs)), w') /\
    files w' !! xunit_path output_dir file_num = Some (xunit_text m tests_per_file recs).
Proof.
  intros Hnd Hd m.
  destruct (returns_elim _ _ _ (generate_cases_spec m tests_per_file failure_rate w))
    as (s & w1 & Hrun & E1 & recs & Hok & Hlen & ->).
  pose proof (then_write_ok (xunit_path output_dir file_num)
                (xunit_text m tests_per_file recs)
                (tests_per_file, Z.of_nat (count_if failed_of recs)) w1) as Hw.
  rewrite !(is_dir_same_env w w1 _ E1) in Hw. specialize (Hw Hnd Hd).
  apply returns_elim in Hw as (r & w' & Hw & -> & Hf & _).
  exists recs, w'. split; [exact Hok |]. split; [exact Hlen |].
  split; [exact (returns_run _ _ _ _ _
                   (generate_cases_order m tests_per_file failure_rate w) Hrun) |].
  split; [| split; [| split]].
  - intros Hr.
    pose proof (returns_run _ _ _ _ _
                  (generate_cases_rate m tests_per_file failure_rate false w
                     (fun r H0 _ => lt_float_never _ r Hr H0)) Hrun) as H.
    simpl in H. lia.
  - intros Hr.
    pose proof (returns_run _ _ _ _ _
                  (generate_cases_rate m tests_per_file failure_rate true w
                     (fun r _ H1 => lt_float_always _ r Hr H1)) Hrun) as H.
    simpl in H. lia.
  - unfold generate_xunit_file. fold m. rewrite (bind_run _ _ _ _ _ Hrun).
    exact Hw.
  - rewrite Hf. apply lookup_insert_eq.
Qed.

(** X6. The number of failures [generate_xunit_file] returns is the number
    of testcase elements of the file it wrote that hold a failure child, and
    is at most the number of testcase elements, which is [tests_per_file] (0
    when that is negative). *)
Theorem xunit_failures_returned file_num tests_per_file failure_rate output_dir w :
  OS.is_dir w (xunit_path output_dir file_num) = false ->
  OS.is_dir w (OS.dirname (xunit_path output_dir file_num)) = true ->
  exists failures content w',
    generate_xunit_file file_num tests_per_file failure_rate output_dir w
      = (Ok (tests_per_file, failures), w') /\
    files w' !! xunit_path output_dir file_num = Some content /\
    failures = Z.of_nat (count_failed_testcases content) /\
    Z.of_nat (count_testcases content) = Z.max 0 tests_per_file /\
    count_failed_testcases content <= count_testcases content.
Proof.
  intros Hnd Hd.
  destruct (generate_xunit_file_written file_num tests_per_file failure_rate output_dir w
              Hnd Hd) as (recs & w' & Hok & Hlen & _ & _ & _ & Hrun & Hf).
  destruct (file_readings _ recs tests_per_file (Z.of_nat (count_if failed_of recs))
              (Qsum (map dur_of recs)) (clean_module_name file_num) Hok)
    as (_ & _ & _ & Hc & Hcf & _).
  eexists _, _, w'. split; [exact Hrun |]. split; [exact Hf |]. unfold xunit_text.
  rewrite Hc, Hcf, Hlen. split; [reflexivity |]. split; [lia |].
  rewrite <- Hlen. apply count_if_length.
Qed.

Lemma xunit_failures_returned_witness :
  exists failures content w',
    generate_xunit_file 3 2 (Fin 0.5) "."
      (world_of [0; 0; 1; 2; 3; 2 ^ 52; 2 ^ 52]%N [] [] [])
      = (Ok (2%Z, failures), w') /\
    files w' !! xunit_path "." 3 = Some content /\
    failures = Z.of_nat (count_failed_testcases content) /\
    Z.of_nat (count_testcases content) = Z.max 0 2 /\
    count_failed_testcases content <= count_testcases content.
Proof.
  apply (xunit_failures_returned 3 2 (Fin 0.5) "."
           (world_of [0; 0; 1; 2; 3; 2 ^ 52; 2 ^ 52]%N [] [] []));
    vm_compute; reflexivity.
Defined.

(** X7. With a failure rate of zero or less (or one that is no number) the
    file [generate_xunit_file] writes has no testcase element with a failure
    child and says failures="0"; with a failure rate of one or more every
    testcase element of the file holds a failure child. *)
Theorem xunit_rate_extremes file_num tests_per_file failure_rate output_dir w :
  OS.is_dir w (xunit_path output_dir file_num) = false ->
  OS.is_dir w (OS.dirname (xunit_path output_dir file_num)) = true ->
  exists failures content w',
    generate_xunit_file file_num tests_per_file failure_rate output_dir w
      = (Ok (tests_per_file, failures), w') /\
    files w' !! xunit_path output_dir file_num = Some content /\
    (never_below failure_rate ->
     failures = 0%Z /\ count_failed_testcases content = 0 /\
     xml_attr "failures" (testsuite_tag content) = Some "0") /\
    (always_below failure_rate ->
     failures = Z.max 0 tests_per_file /\
     count_failed_testcases content = count_testcases content).
Proof.
  intros Hnd Hd.
  destruct (generate_xunit_file_written file_num tests_per_file failure_rate output_dir w
              Hnd Hd) as (recs & w' & Hok & Hlen & _ & Hnever & Halways & Hrun & Hf).
  destruct (file_readings _ recs tests_per_file (Z.of_nat (count_if failed_of recs))
              (Qsum (map dur_of recs)) (clean_module_name file_num) Hok)
    as (_ & Hfl & _ & Hc & Hcf & _).
  eexists _, _, w'. split; [exact Hrun |]. split; [exact Hf |]. unfold xunit_text.
  rewrite Hc, Hcf, Hfl. split.
  - intros Hr. rewrite (Hnever Hr). repeat split.
  - intros Hr. rewrite (Halways Hr). split; [lia | reflexivity].
Qed.

Lemma xunit_rate_extremes_witness :
  exists failures content w',
    generate_xunit_file 0 3 (Fin 0) "." empty_world = (Ok (3%Z, failures), w') /\
    files w' !! xunit_path "." 0 = Some content /\
    (never_below (Fin 0) ->
     failures = 0%Z /\ count_failed_testcases content = 0 /\
     xml_attr "failures" (testsuite_tag content) = Some "0") /\
    (always_below (Fin 0) ->
     failures = Z.max 0 3 /\
     count_failed_testcases content = count_testcases content).
Proof.
  apply (xunit_rate_extremes 0 3 (Fin 0) "." empty_world); vm_compute; reflexivity.
Defined.

(** X22. The testcase elements of an XML file come in the order of the
    tests: the k-th of them (from 0) has the name test_module_NNNN_case_KKKK,
    with NNNN the number of the file and KKKK the number k, both in four
    digits. *)
Theorem xunit_cases_in_order file_num tests_per_file failure_rate output_dir w :
  OS.is_dir w (xunit_path output_dir file_num) = false ->
  OS.is_dir w (OS.dirname (xunit_path output_dir file_num)) = true ->
  exists failures content w',
    generate_xunit_file file_num tests_per_file failure_rate output_dir w
      = (Ok (tests_per_file, failures), w') /\
    files w' !! xunit_path output_dir file_num = Some content /\
    testcase_names content
    = map (fun k => Some ("test_" +:+ ("module_" +:+ fmt_0d 4 file_num) +:+ "_case_"
                            +:+ fmt_0d 4 k))
          (py_range tests_per_file).
Proof.
  intros Hnd Hd.
  destruct (generate_xunit_file_written file_num tests_per_file failure_rate output_dir w
              Hnd Hd) as (recs & w' & Hok & Hlen & Hord & _ & _ & Hrun & Hf).
  set (m := "module_" +:+ fmt_0d 4 file_num) in *.
  pose proof (clean_module_name file_num) as Hm. fold m in Hm.
  eexists _, _, w'. split; [exact Hrun |]. split; [exact Hf |].
  unfold testcase_names, xunit_text.
  rewrite template_lines by (destruct Hm as [Hm _]; unfold classname_of; avoids_solve).
  do 2 (rewrite filter_skip by reflexivity).
  rewrite (body_lines recs). destruct recs as [|r recs].
  - inversion Hord as [Hks |]. reflexivity.
  - rewrite List.filter_app, map_app. simpl List.filter at 2. simpl map at 3.
    rewrite List.app_nil_r. apply (cases_names m _ _ Hm Hord).
Qed.

Lemma xunit_cases_in_order_witness :
  exists failures content w',
    generate_xunit_file 0 3 (Fin 0) "." empty_world = (Ok (3%Z, failures), w') /\
    files w' !! xunit_path "." 0 = Some content /\
    testcase_names content
    = map (fun k => Some ("test_" +:+ ("module_" +:+ fmt_0d 4 0) +:+ "_case_"
                            +:+ fmt_0d 4 k))
          (py_range 3).
Proof.
  apply (xunit_cases_in_order 0 3 (Fin 0) "." empty_world); vm_compute; reflexivity.
Defined.

End XUnitMore.

(** * More on generate_trace_files.py *)

Module TraceMore.
Import PyStrSpec XUnitSpec JsonSpec TraceSpec PyStrFacts MFacts XUnitFacts Json JsonFacts TraceFacts GoTestMore Trace.

(** *** Identifiers *)

Lemma choices_elems {A} (xs : list A) k w :
  xs <> [] ->
  returns (Random.choices xs k) w
    (fun cs _ => length cs = k /\ Forall (fun c => In c xs) cs).
Proof.
  destruct xs as [|x xs]; [easy | intros _]. unfold Random.choices.
  eapply returns_mono.
  { apply (returns_for_each
             (fun (done : list nat) (acc : list A) (_ : world) =>
                length acc = length done /\ Forall (fun c => In c (x :: xs)) acc)).
    - split; [reflexivity | constructor].
    - intros done i rest acc w1 _ [Hlen Hall].
      apply returns_bind. eapply returns_mono; [apply random_spec |]. intros r w2 _.
      apply returns_ret. split.
      + rewrite !length_app, Hlen. reflexivity.
      + apply Forall_app. split; [exact Hall |]. constructor; [| constructor].
        set (n := Z.to_nat _).
        destruct (Nat.lt_ge_cases n (length (x :: xs))) as [Hn | Hn].
        * now apply nth_In.
        * rewrite nth_overflow by exact Hn. now left. }
  intros cs w' [Hlen Hall]. cbv beta in Hlen. rewrite length_seq in Hlen. auto.
Qed.

Lemma join_hex (cs : list string) :
  Forall (fun c => In c hex_chars) cs -> hex_id (length cs) (join "" cs).
Proof.
  unfold hex_id, join. induction 1 as [|c cs Hc _ [IH1 IH2]]; [split; reflexivity |].
  assert (Hone : String.length c = 1 /\ str_forall is_hex_digit c = true).
  { simpl in Hc. repeat (destruct Hc as [<- | Hc]; [split; reflexivity |]). easy. }
  destruct Hone as [H1 H2].
  destruct cs as [|c' cs].
  - simpl. auto.
  - change (String.concat "" (c :: c' :: cs))
      with (c +:+ "" +:+ String.concat "" (c' :: cs)).
    rewrite app_nil_l, length_app_str, str_forall_app, H1, H2, IH1, IH2.
    split; reflexivity.
Qed.

Lemma generate_id_spec k w :
  returns (cs ← Random.choices hex_chars k; mret (join "" cs)) w
    (fun s w' => same_env w w' /\ hex_id k s).
Proof.
  apply returns_bind. eapply returns_mono.
  { apply returns_both; [apply (choices_spec hex_chars k w) | apply choices_elems]; easy. }
  intros cs w' [E [Hlen Hall]]. cbv beta in E. apply returns_ret.
  split; [exact E |]. rewrite <- Hlen. now apply join_hex.
Qed.

(** X8. [generate_trace_id] always returns 32 characters and
    [generate_span_id] 16, each a digit or a letter from a to f. *)
Theorem ids_are_hex w :
  returns generate_trace_id w (fun s _ => hex_id 32 s) /\
  returns generate_span_id w (fun s _ => hex_id 16 s).
Proof.
  split; (eapply returns_mono; [apply generate_id_spec |]); now intros s w' [_ H].
Qed.

(** *** One span *)

Lemma generate_span_fields trace_id parent span_num start w :
  returns (generate_span trace_id parent span_num start) w
    (fun span w' =>
       same_env w w' /\
       exists id (d kind : Z),
         hex_id 16 id /\ (1000000 <= d <= 100000000)%Z /\ (1 <= kind <= 5)%Z /\
         get_key "traceId" span = Some (JStr trace_id) /\
         get_key "spanId" span = Some (JStr id) /\
         get_key "parentSpanId" span = Some parent /\
         get_key "name" span = Some (JStr ("operation_" +:+ fmt_0d 4 span_num)) /\
         get_key "kind" span = Some (JInt kind) /\
         get_key "startTimeUnixNano" span = Some (JStr (str_int start)) /\
         get_key "endTimeUnixNano" span = Some (JStr (str_int (start + d)))).
Proof.
  unfold generate_span.
  apply returns_bind. eapply returns_mono; [apply generate_id_spec |].
  intros id w1 (E1 & Hid).
  apply returns_bind. eapply returns_mono; [apply randint_spec; lia |]. intros d w2 (E2 & Hd).
  apply returns_bind. eapply returns_mono; [apply randint_spec; lia |]. intros k w3 (E3 & Hk).
  apply returns_bind. eapply returns_mono; [apply choice_spec; easy |]. intros op w4 E4.
  cbv beta in E4. apply returns_ret. split; [eauto using same_env_trans |].
  exists id, d, k. repeat split; assumption || lia || apply Hid.
Qed.

(** X9. The span [generate_span] returns carries the trace id and the
    parent id it was given, a span id of 16 hex digits, the name operation_
    and its number in four digits, a kind from 1 to 5, the start it was given
    and an end 1 to 100 milliseconds after the start. *)
Theorem span_fields trace_id parent span_num start w :
  returns (generate_span trace_id parent span_num start) w
    (fun span _ =>
       exists id (d kind : Z),
         hex_id 16 id /\ (1000000 <= d <= 100000000)%Z /\ (1 <= kind <= 5)%Z /\
         get_key "traceId" span = Some (JStr trace_id) /\
         get_key "spanId" span = Some (JStr id) /\
         get_key "parentSpanId" span = Some parent /\
         get_key "name" span = Some (JStr ("operation_" +:+ fmt_0d 4 span_num)) /\
         get_key "kind" span = Some (JInt kind) /\
         get_key "startTimeUnixNano" span = Some (JStr (str_int start)) /\
         get_key "endTimeUnixNano" span = Some (JStr (str_int (start + d)))).
Proof.
  eapply returns_mono; [apply generate_span_fields |]. now intros span w' [_ H].
Qed.

(** *** The spans of one trace *)

Lemma py_range_index n (done rest : list Z) x :
  py_range n = done ++ x :: rest -> x = Z.of_nat (length done).
Proof.
  unfold py_range. intros H.
  assert (Hlen : length done < Z.to_nat n).
  { pose proof (f_equal (@length Z) H) as Hl.
    rewrite length_map, length_seq, length_app in Hl. simpl in Hl. lia. }
  pose proof (f_equal (fun l => nth (length done) l 0%Z) H) as Hn. cbv beta in Hn.
  rewrite app_nth2, Nat.sub_diag in Hn by lia. simpl in Hn.
  rewrite <- Hn. change 0%Z with (Z.of_nat 0). rewrite map_nth, seq_nth by exact Hlen.
  reflexivity.
Qed.

Lemma snoc_split {A} (l pre post : list A) (a s : A) :
  l ++ [a] = pre ++ s :: post ->
  (pre = l /\ s = a /\ post = []) \/ exists post', post = post' ++ [a] /\ l = pre ++ s :: post'.
Proof.
  destruct post as [|z post _] using rev_ind.
  - intros H. apply app_inj_tail in H as [-> ->]. now left.
  - intros H. right. exists post.
    rewrite app_comm_cons, List.app_assoc in H. apply app_inj_tail in H as [-> ->].
    auto.
Qed.

Lemma generate_trace_data_spans num_spans w :
  returns (generate_trace_data num_spans) w
    (fun doc _ =>
       exists spans trace_id (base : Z),
         spans_of doc = Some (JArr spans) /\
         length spans = Z.to_nat num_spans /\
         hex_id 32 trace_id /\
         (forall i s, nth_error spans i = Some s -> span_numbered trace_id base i s) /\
         (forall pre s post, spans = pre ++ s :: post -> parent_known pre s)).
Proof.
  unfold generate_trace_data.
  apply returns_bind. eapply returns_mono; [apply generate_id_spec |].
  intros tid w1 (_ & Htid).
  apply returns_bind. eapply returns_mono; [apply time_time_spec |]. intros now w2 _.
  cbv zeta. set (base := trunc (now * 1000000000)).
  apply returns_bind. eapply returns_mono.
  { apply (returns_for_each
             (fun (done : list Z) (s : list json * json) (_ : world) =>
                length s.1 = length done /\
                (forall i sp, nth_error s.1 i = Some sp -> span_numbered tid base i sp) /\
                (forall pre sp post, s.1 = pre ++ sp :: post -> parent_known pre sp) /\
                (s.2 = JStr "" \/
                 exists p id, In p s.1 /\ get_key "spanId" p = Some (JStr id) /\
                              s.2 = JStr id))).
    - split; [reflexivity |]. split; [intros [|i] sp; discriminate |].
      split; [intros [|? ?] ? ? ?; discriminate | now left].
    - intros done k rest [spans parent] w3 Hk (Hlen & Hnum & Hlink & Hparent).
      simpl in Hlen, Hnum, Hlink, Hparent.
      apply py_range_index in Hk. subst k.
      apply returns_bind. eapply returns_mono; [apply generate_span_fields |].
      intros span w4 (_ & id & d & kind & _ & _ & _ & Ht & Hid & Hp & Hname & _ & Hstart & _).
      assert (Hlen' : length (spans ++ [span]) = length (done ++ [Z.of_nat (length done)])).
      { rewrite !length_app, Hlen. reflexivity. }
      assert (Hnum' : forall i sp, nth_error (spans ++ [span]) i = Some sp ->
                                   span_numbered tid base i sp).
      { intros i sp Hi. destruct (Nat.lt_ge_cases i (length spans)) as [Hlt | Hge].
        - rewrite nth_error_app1 in Hi by exact Hlt. now apply Hnum.
        - rewrite nth_error_app2 in Hi by exact Hge.
          destruct (i - length spans) as [|j] eqn:Ej; [| destruct j; discriminate].
          injection Hi as <-. assert (i = length done) as -> by lia.
          split; [exact Ht |]. split; [exact Hname | exact Hstart]. }
      assert (Hlink' : forall pre sp post, spans ++ [span] = pre ++ sp :: post ->
                                           parent_known pre sp).
      { intros pre sp post Hsplit.
        apply snoc_split in Hsplit as [(-> & -> & _) | (post' & _ & ->)].
        - destruct Hparent as [-> | (p & pid & Hin & Hpid & ->)]; [now left |].
          right. exists p, pid. auto.
        - apply (Hlink pre sp post'). reflexivity. }
      assert (Hkeep : parent = JStr "" \/
                      exists p pid, In p (spans ++ [span]) /\
                                    get_key "spanId" p = Some (JStr pid) /\
                                    parent = JStr pid).
      { destruct Hparent as [-> | (p & pid & Hin & Hpid & ->)]; [now left |].
        right. exists p, pid. split; [apply in_or_app; now left | auto]. }
      apply returns_bind. eapply returns_mono; [apply random_spec |]. intros r w5 _.
      destruct (lt_float r (Fin 0.3)).
      + rewrite Hid. apply returns_bind. apply returns_ret. apply returns_ret.
        simpl. split; [exact Hlen' |]. split; [exact Hnum' |]. split; [exact Hlink' |].
        right. exists span, id. split; [apply in_or_app; right; now left | auto].
      + apply returns_bind. eapply returns_mono; [apply random_spec |]. intros r' w6 _.
        destruct (lt_float r' (Fin 0.5)); apply returns_ret; simpl;
          (split; [exact Hlen' |]; split; [exact Hnum' |]; split; [exact Hlink' |]);
          [now left | exact Hkeep]. }
  intros [spans parent] w3 (Hlen & Hnum & Hlink & _). simpl in Hlen, Hnum, Hlink.
  rewrite length_py_range in Hlen. apply returns_ret.
  exists spans, tid, base. split; [reflexivity |]. split; [exact Hlen |].
  split; [exact Htid |]. split; [exact Hnum | exact Hlink].
Qed.

(** X10. In the trace object [generate_trace_data] returns, the list under
    resourceSpans[0].scopeSpans[0].spans has [num_spans] spans (none when
    that is negative); all carry one trace id of 32 hex digits; the span at
    index i is named operation_ and i in four digits and starts i
    milliseconds after the first; and the parent id of every span is empty
    or the span id of a span before it in the list. *)
Theorem trace_spans_linked num_spans w :
  returns (generate_trace_data num_spans) w
    (fun doc _ =>
       exists spans trace_id (base : Z),
         spans_of doc = Some (JArr spans) /\
         length spans = Z.to_nat num_spans /\
         hex_id 32 trace_id /\
         (forall i s, nth_error spans i = Some s -> span_numbered trace_id base i s) /\
         (forall pre s post, spans = pre ++ s :: post -> parent_known pre s)).
Proof. apply generate_trace_data_spans. Qed.

End TraceMore.

(** * More on generate_results_file.py *)

Module ResultsMore.
Import PyStrSpec JsonSpec PyStrFacts MFacts GoTestFacts Json JsonFacts TraceFacts MainFacts.
Import B64Facts ResultsFacts GoTestMore TraceMore Results.

Lemma choice_elem {A} (xs : list A) w :
  xs <> [] -> returns (Random.choice xs) w (fun c _ => In c xs).
Proof.
  destruct xs as [|x xs]; [easy | intros _]. unfold Random.choice.
  apply returns_bind. eapply returns_mono; [apply raw_spec |]. intros r w' _.
  apply returns_ret. set (n := N.to_nat r mod _).
  destruct (Nat.lt_ge_cases n (length (x :: xs))) as [Hn | Hn].
  - now apply nth_In.
  - rewrite nth_overflow by exact Hn. now left.
Qed.

Lemma generate_log_content_out strftime test_name num_lines failed w :
  returns (generate_log_content strftime test_name num_lines failed) w
    (fun _ w' => same_fs w w' /\ stdout w' = stdout w).
Proof.
  assert (Hstep : forall {A} (c : M A) w0,
             returns c w0 (fun _ w' => same_env w0 w') ->
             returns c w0 (fun _ w' => same_fs w0 w' /\ stdout w' = stdout w0)).
  { intros A c w0 H. eapply returns_mono; [exact H |].
    intros a w' E. split; [now apply same_env_fs | apply E]. }
  assert (Hint : forall a b w0, (a <= b)%Z ->
             returns (Random.randint a b) w0
               (fun _ w' => same_fs w0 w' /\ stdout w' = stdout w0)).
  { intros a b w0 Hab. apply Hstep. eapply returns_mono; [apply randint_spec, Hab |].
    now intros ? ? [E _]. }
  assert (Htrans : forall w1 w2 w3,
             same_fs w1 w2 /\ stdout w2 = stdout w1 ->
             same_fs w2 w3 /\ stdout w3 = stdout w2 ->
             same_fs w1 w3 /\ stdout w3 = stdout w1).
  { intros w1 w2 w3 [F1 O1] [F2 O2]. split; [eauto using same_fs_trans | congruence]. }
  unfold generate_log_content.
  apply returns_bind. eapply returns_mono; [apply Hstep, time_time_spec |].
  intros now w1 S1. cbv beta zeta.
  apply returns_bind. eapply returns_mono.
  { apply (returns_for_each
             (fun (_ : list Z) (_ : list string) w' =>
                same_fs w1 w' /\ stdout w' = stdout w1)).
    - split; [apply same_fs_refl | reflexivity].
    - intros done i rest lines wa _ Sa.
      destruct (failed && (i =? num_lines - 6)%Z).
      + apply returns_bind. eapply returns_mono; [apply Hint; lia |]. intros ? wb Sb.
        apply returns_bind. eapply returns_mono; [apply Hint; lia |]. intros ? wc Sc.
        apply returns_bind. eapply returns_mono; [apply Hint; lia |]. intros ? wd Sd.
        apply returns_ret.
        exact (Htrans _ _ _ (Htrans _ _ _ (Htrans _ _ _ Sa Sb) Sc) Sd).
      + apply returns_bind. eapply returns_mono.
        { apply Hstep, choice_spec. discriminate. }
        intros ? wb Sb. apply returns_ret. exact (Htrans _ _ _ Sa Sb). }
  intros lines w2 S2. apply returns_ret. exact (Htrans _ _ _ S1 S2).
Qed.

Section Logs.
Variable strftime : Q -> string.
Hypothesis strftime_line : forall t, no_nl (strftime t) = true.

(** *** The lines of a log *)

Lemma generate_log_content_lines test_name num_lines failed w :
  no_nl test_name = true ->
  returns (generate_log_content strftime test_name num_lines failed) w
    (fun text _ =>
       exists (stamp : Q) (block : list string),
         split_nl text
         = ("=== Starting test: " +:+ test_name +:+ " ===")
             :: ("Test configuration loaded at " +:+ strftime stamp)
             :: block
             ++ ["=== Test " +:+ test_name +:+ " "
                   +:+ (if failed then "FAILED" else "PASSED") +:+ " ==="] /\
         Z.of_nat (length block)
         = (Z.max 0 (num_lines - 4) + (if failed && (6 <=? num_lines)%Z then 2 else 0))%Z /\
         count_if is_error_line block = (if failed && (6 <=? num_lines)%Z then 1 else 0)).
Proof.
  intros Hname. unfold generate_log_content.
  apply returns_bind. eapply returns_mono; [apply time_time_spec |]. intros stamp w1 _.
  cbv zeta. simpl app.
  set (l1 := "=== Starting test: " +:+ test_name +:+ " ===").
  set (l2 := "Test configuration loaded at " +:+ strftime stamp).
  set (err := fun k : nat =>
                if failed && (0 <=? num_lines - 6)%Z && (num_lines - 6 <? Z.of_nat k)%Z
                then 1 else 0).
  apply returns_bind. eapply returns_mono.
  { apply (returns_for_each
             (fun (done : list Z) (lines : list string) (_ : world) =>
                exists block,
                  lines = l1 :: l2 :: block /\
                  Forall (fun l => no_nl l = true) block /\
                  length block = length done + 2 * err (length done) /\
                  count_if is_error_line block = err (length done))).
    - exists []. split; [reflexivity |]. split; [constructor |].
      assert (Herr : err 0 = 0).
      { unfold err. change (Z.of_nat 0) with 0%Z. destruct failed; simpl; [| reflexivity].
        destruct (Z.leb_spec 0 (num_lines - 6)); simpl; [| reflexivity].
        destruct (Z.ltb_spec (num_lines - 6) 0); [lia | reflexivity]. }
      simpl length. rewrite Herr. auto.
    - intros done i rest lines w2 Hi (block & -> & Hnl & Hlen & Hcount).
      apply py_range_index in Hi. subst i.
      assert (Hsucc : Z.of_nat (length (done ++ [Z.of_nat (length done)]))
                      = (Z.of_nat (length done) + 1)%Z).
      { rewrite length_app. simpl. lia. }
      destruct (failed && (Z.of_nat (length done) =? num_lines - 6)%Z) eqn:Ehit.
      + apply andb_true_iff in Ehit as [-> Ehit]. apply Z.eqb_eq in Ehit.
        assert (Hbefore : err (length done) = 0).
        { unfold err. simpl.
          destruct (Z.ltb_spec (num_lines - 6) (Z.of_nat (length done))); [lia |].
          now rewrite andb_false_r. }
        assert (Hafter : err (length (done ++ [Z.of_nat (length done)])) = 1).
        { unfold err. simpl. rewrite Hsucc.
          destruct (Z.leb_spec 0 (num_lines - 6)); [| lia].
          destruct (Z.ltb_spec (num_lines - 6) (Z.of_nat (length done) + 1)); [| lia].
          reflexivity. }
        apply returns_bind. eapply returns_mono; [apply randint_spec; lia |]. intros l w3 _.
        apply returns_bind. eapply returns_mono; [apply randint_spec; lia |]. intros e w4 _.
        apply returns_bind. eapply returns_mono; [apply randint_spec; lia |]. intros a w5 _.
        apply returns_ret.
        exists (block ++ ["ERROR: Assertion failed at line " +:+ str_int l;
                          "  Expected: " +:+ str_int e; "  Actual: " +:+ str_int a]).
        split; [simpl; rewrite <- !List.app_assoc; reflexivity |]. split; [| split].
        * apply Forall_app. split; [exact Hnl |]. repeat constructor; no_nl_solve.
        * rewrite Hafter, !length_app, Hlen, Hbefore. simpl. lia.
        * rewrite Hafter, count_if_app, Hcount, Hbefore. reflexivity.
      + assert (Hsame : err (length (done ++ [Z.of_nat (length done)])) = err (length done)).
        { unfold err. rewrite Hsucc. destruct failed; simpl in *; [| reflexivity].
          apply Z.eqb_neq in Ehit.
          destruct (Z.leb_spec 0 (num_lines - 6)); simpl; [| reflexivity].
          destruct (Z.ltb_spec (num_lines - 6) (Z.of_nat (length done) + 1)),
                   (Z.ltb_spec (num_lines - 6) (Z.of_nat (length done))); lia || reflexivity. }
        apply returns_bind. eapply returns_mono.
        { apply (choice_elem ["INFO"; "DEBUG"; "TRACE"]). discriminate. }
        intros log_type w3 Hin. apply returns_ret.
        exists (block ++ ["[" +:+ log_type +:+ "] Processing step "
                             +:+ str_int (Z.of_nat (length done) + 1)
                             +:+ ": operation completed successfully"]).
        split; [reflexivity |]. split; [| split].
        * apply Forall_app. split; [exact Hnl |]. constructor; [| constructor].
          simpl in Hin. destruct Hin as [<- | [<- | [<- | []]]]; no_nl_solve.
        * rewrite Hsame, !length_app, Hlen. simpl. lia.
        * rewrite Hsame, count_if_app, Hcount. simpl. lia. }
  intros lines w2 (block & -> & Hnl & Hlen & Hcount). cbv beta in Hlen, Hcount.
  rewrite length_py_range in Hlen, Hcount. apply returns_ret.
  assert (Hend : err (Z.to_nat (num_lines - 4))
                 = if failed && (6 <=? num_lines)%Z then 1 else 0).
  { unfold err. destruct failed; simpl; [| reflexivity].
    destruct (Z.leb_spec 0 (num_lines - 6)), (Z.leb_spec 6 num_lines); try lia;
      simpl; [| reflexivity].
    destruct (Z.ltb_spec (num_lines - 6) (Z.of_nat (Z.to_nat (num_lines - 4)))); [| lia].
    reflexivity. }
  exists stamp, block. split; [| split].
  - simpl app. rewrite split_nl_join_lines; [reflexivity | discriminate |].
    constructor; [unfold l1; no_nl_solve |].
    constructor; [unfold l2; pose proof (strftime_line stamp); no_nl_solve |].
    apply Forall_app. split; [exact Hnl |]. constructor; [| constructor].
    destruct failed; no_nl_solve.
  - rewrite Hlen, Hend. destruct (failed && (6 <=? num_lines)%Z); lia.
  - now rewrite Hcount, Hend.
Qed.


(** X11. For a test name and a time stamp with no newline in them,
    [generate_log_content] returns a log that begins with the line that
    names the test and ends with the line that says PASSED or FAILED.  Asked
    for [num_lines] lines it gives one line less (three when [num_lines] is
    under 4); a failed test has two lines more, with exactly one line that
    begins with ERROR:, but only when [num_lines] is at least 6. *)
Theorem log_content_lines test_name num_lines failed w :
  no_nl test_name = true ->
  returns (generate_log_content strftime test_name num_lines failed) w
    (fun text _ =>
       let lines := split_nl text in
       Z.of_nat (length lines) = log_length num_lines failed /\
       hd "" lines = "=== Starting test: " +:+ test_name +:+ " ===" /\
       List.last lines ""
       = "=== Test " +:+ test_name +:+ " " +:+ (if failed then "FAILED" else "PASSED")
           +:+ " ===" /\
       count_if is_error_line lines = (if failed && (6 <=? num_lines)%Z then 1 else 0)).
Proof.
  intros Hname.
  eapply returns_mono; [apply (generate_log_content_lines _ _ _ _ Hname) |].
  intros text w' (stamp & block & Hsplit & Hlen & Hcount). cbv zeta.
  rewrite Hsplit. split; [| split; [reflexivity | split]].
  - unfold log_length. simpl length. rewrite length_app. simpl length. lia.
  - rewrite !app_comm_cons. apply List.last_last.
  - rewrite !app_comm_cons, count_if_app, <- Hcount.
    replace (count_if is_error_line [_]) with 0 by (now destruct failed).
    simpl. lia.
Qed.

(** *** One record *)





End Logs.

(** *** The file of records *)

Section Records.
Variable float_repr : Q -> string.
Variable strftime : Q -> string.

Lemma generate_test_result_record test_num failure_rate log_lines w :
  (0 <= test_num < 2 ^ 52)%Z ->
  returns (generate_test_result strftime test_num failure_rate log_lines) w
    (fun r w' =>
       same_fs w w' /\ stdout w' = stdout w /\
       exists (draw : Q) (stop : pyfloat) (log : string),
         (0 <= draw)%Q /\ (draw < 1)%Q /\
         r = JObj [ ("test_file", JStr (result_test_name test_num));
                    ("status", JStr (if lt_float draw failure_rate then "fail" else "pass"));
                    ("start", JFloat (Fin (1700000000 + inject_Z test_num * 0.5)));
                    ("end", JFloat stop);
                    ("log_raw", JStr log) ]).
Proof.
  intros Hk.
  destruct (generate_test_result_run strftime test_num failure_rate log_lines w)
    as (w2 & E & Hrun).
  { apply no_float_overflow. lia. }
  apply (returns_eq _ _ _ _ _ Hrun). rewrite (result_start_exact test_num) by lia.
  apply returns_bind. eapply returns_mono; [apply generate_log_content_out |].
  intros log w3 [F3 Ho3]. apply returns_ret.
  pose proof E as (_ & _ & _ & _ & Ho).
  split; [apply same_env_fs in E; eauto using same_fs_trans |].
  split; [congruence |].
  destruct (next_random_range w 0) as [Hr0 Hr1].
  exists (next_random w 0), (B64.add (Fin (1700000000 + inject_Z test_num * 0.5))
                               (result_duration (next_random w 1))), log.
  auto.
Qed.

Lemma print_out_spec line w :
  returns (print line) w (fun _ w' => same_fs w w' /\ stdout w' = stdout w ++ [line]).
Proof. unfold returns, print. repeat split. Qed.

Lemma results_main_detail argv num_tests failure_rate log_lines w :
  arg_or argv 1 py_int 500%Z = mret num_tests ->
  arg_or argv 2 py_float (Fin 0.1) = mret failure_rate ->
  arg_or argv 3 py_int 20%Z = mret log_lines ->
  expected_ok num_tests failure_rate = true ->
  can_write w output_file = true ->
  (num_tests <= 2 ^ 52)%Z ->
  returns (main float_repr strftime argv) w
    (fun _ w' =>
       exists results,
         files w' !! output_file
         = Some (dumps float_repr (Some 2) (JObj [("results", JArr results)])) /\
         length results = Z.to_nat num_tests /\
         (forall i r, nth_error results i = Some r ->
            get_key "test_file" r = Some (JStr (result_test_name (Z.of_nat i))) /\
            get_key "start" r
            = Some (JFloat (Fin (1700000000 + inject_Z (Z.of_nat i) * 0.5)))) /\
         (never_below failure_rate -> count_if is_failed_record results = 0) /\
         (always_below failure_rate ->
          count_if is_failed_record results = length results) /\
         In ("Total failures: " +:+ str_int (Z.of_nat (count_if is_failed_record results)))
            (stdout w')).
Proof.
  intros H1 H2 H3 He Hw Hmax. unfold main. rewrite H1, H2, H3.
  do 3 (apply returns_bind, returns_ret).
  apply returns_after; [apply print_spec | intros ? w1 F1].
  apply returns_bind.
  eapply returns_mono; [apply float_of_int_spec, (expected_ok_int _ _ He) |].
  intros t w2 [-> ->].
  apply returns_bind. eapply returns_mono; [apply int_of_float_fmul_spec, He |].
  intros expected w3 ->.
  apply returns_after; [apply print_spec | intros ? w4 F4].
  apply returns_after; [apply print_spec | intros ? w5 F5].
  apply returns_after; [apply print_spec | intros ? w6 F6].
  apply returns_after; [apply time_fs_spec | intros start w7 F7].
  assert (F07 : same_fs w w7) by eauto 10 using same_fs_trans.
  apply returns_bind. eapply returns_mono.
  { apply (returns_for_each
             (fun (done : list Z) (s : list json * Z) w' =>
                same_fs w7 w' /\ length s.1 = length done /\
                (forall i r, nth_error s.1 i = Some r ->
                   get_key "test_file" r = Some (JStr (result_test_name (Z.of_nat i))) /\
                   get_key "start" r
                   = Some (JFloat (Fin (1700000000 + inject_Z (Z.of_nat i) * 0.5)))) /\
                s.2 = Z.of_nat (count_if is_failed_record s.1) /\
                (never_below failure_rate -> count_if is_failed_record s.1 = 0) /\
                (always_below failure_rate -> count_if is_failed_record s.1 = length s.1))).
    - split; [apply same_fs_refl |]. split; [reflexivity |].
      split; [intros [|?] ?; discriminate |]. auto.
    - intros done k rest [results nf] wa Hk (Fa & Hlen & Hnum & Hnf & Hnever & Halways).
      simpl in Hlen, Hnum, Hnf, Hnever, Halways.
      assert (Hin : In k (py_range num_tests))
        by (rewrite Hk; apply in_or_app; right; now left).
      apply py_range_nonneg in Hin.
      apply py_range_index in Hk. subst k.
      apply returns_bind.
      eapply returns_mono; [apply generate_test_result_record; lia |].
      intros r wb (Fb & _ & draw & d & log & Hr0 & Hr1 & ->). cbv beta.
      change (get_key "status" (JObj _))
        with (Some (JStr (if lt_float draw failure_rate then "fail" else "pass"))).
      apply returns_bind, returns_ret.
      apply returns_bind. eapply returns_mono; [apply progress_spec |].
      intros ? wc Fc. apply returns_ret. simpl fst. simpl snd.
      set (rec := JObj _).
      assert (Hrec : is_failed_record rec = lt_float draw failure_rate).
      { unfold is_failed_record, rec. simpl. now destruct (lt_float draw failure_rate). }
      split; [eauto using same_fs_trans |]. split; [| split; [| split; [| split]]].
      + rewrite !length_app. simpl. lia.
      + intros i r Hi. destruct (Nat.lt_ge_cases i (length results)) as [Hlt | Hge].
        * rewrite nth_error_app1 in Hi by exact Hlt. now apply Hnum.
        * rewrite nth_error_app2 in Hi by exact Hge.
          destruct (i - length results) as [|j] eqn:Ej; [| destruct j; discriminate].
          injection Hi as <-. assert (i = length done) as -> by lia.
          split; reflexivity.
      + rewrite count_if_app. simpl count_if. rewrite Hrec.
        destruct (lt_float draw failure_rate); simpl; lia.
      + intros Hr. rewrite count_if_app, (Hnever Hr). simpl. rewrite Hrec.
        now rewrite (lt_float_never _ draw Hr Hr0).
      + intros Hr. rewrite count_if_app, (Halways Hr), length_app. simpl. rewrite Hrec.
        now rewrite (lt_float_always _ draw Hr Hr1). }
  intros [results nf] w8 (F8 & Hlen & Hnum & Hnf & Hnever & Halways).
  simpl in Hlen, Hnum, Hnf, Hnever, Halways.
  assert (F08 : same_fs w w8) by eauto using same_fs_trans.
  rewrite <- (can_write_same w w8) in Hw by (destruct F08; congruence).
  apply can_write_split in Hw as [Hnd Hdir].
  apply returns_bind. eapply returns_mono; [apply (write_text_ok _ _ _ Hnd Hdir) |].
  intros ? w9 (Hf9 & Hd9 & _).
  apply returns_after; [apply time_fs_spec | intros ? w10 F10].
  apply returns_after; [apply print_spec | intros ? w11 F11].
  apply returns_after; [apply print_spec | intros ? w12 F12].
  apply returns_bind. eapply returns_mono; [apply print_out_spec |]. intros ? w13 [F13 O13].
  apply returns_bind. eapply returns_mono; [apply print_out_spec |]. intros ? w15 [F15 O15].
  apply returns_bind. eapply returns_mono; [apply print_out_spec |]. intros ? w16 [F16 O16].
  eapply returns_mono; [apply print_out_spec |]. intros ? w14 [F14 O14].
  assert (F914 : same_fs w9 w14) by eauto 10 using same_fs_trans.
  destruct F914 as [Hd Hf].
  exists results. split; [rewrite Hf, Hf9; apply lookup_insert_eq |].
  split; [rewrite Hlen; apply length_py_range |].
  split; [exact Hnum |]. split; [exact Hnever |]. split; [exact Halways |].
  rewrite O14, O16, O15, O13, Hnf.
  apply in_or_app. left. apply in_or_app. left. apply in_or_app. left.
  apply in_or_app. right. now left.
Qed.

(** X13. A run of generate_results_file.py for at most 2^52 tests (up to
    there every start time is a float) that gets to write its file puts the
    records in the order of their numbers: the record at index i is named
    for test i and starts at 1700000000 + i/2.  With a failure rate of zero
    or less no record has the status fail, with one of one or more every
    record has it, and the line Total failures the run prints gives the
    number of records of the file with the status fail. *)
Theorem results_in_order argv num_tests failure_rate log_lines w :
  arg_or argv 1 py_int 500%Z = mret num_tests ->
  arg_or argv 2 py_float (Fin 0.1) = mret failure_rate ->
  arg_or argv 3 py_int 20%Z = mret log_lines ->
  expected_ok num_tests failure_rate = true ->
  can_write w output_file = true ->
  (num_tests <= 2 ^ 52)%Z ->
  returns (main float_repr strftime argv) w
    (fun _ w' =>
       exists results,
         files w' !! output_file
         = Some (dumps float_repr (Some 2) (JObj [("results", JArr results)])) /\
         length results = Z.to_nat num_tests /\
         (forall i r, nth_error results i = Some r ->
            get_key "test_file" r = Some (JStr (result_test_name (Z.of_nat i))) /\
            get_key "start" r
            = Some (JFloat (Fin (1700000000 + inject_Z (Z.of_nat i) * 0.5)))) /\
         (never_below failure_rate -> count_if is_failed_record results = 0) /\
         (always_below failure_rate ->
          count_if is_failed_record results = length results) /\
         In ("Total failures: " +:+ str_int (Z.of_nat (count_if is_failed_record results)))
            (stdout w')).
Proof. apply results_main_detail. Qed.

End Records.

Lemma results_in_order_witness :
  returns (main (fun _ => "") (fun _ => "") ["prog"; "3"; "1"]) empty_world
    (fun _ w' =>
       exists results,
         files w' !! output_file
         = Some (dumps (fun _ => "") (Some 2) (JObj [("results", JArr results)])) /\
         length results = Z.to_nat 3 /\
         (forall i r, nth_error results i = Some r ->
            get_key "test_file" r = Some (JStr (result_test_name (Z.of_nat i))) /\
            get_key "start" r
            = Some (JFloat (Fin (1700000000 + inject_Z (Z.of_nat i) * 0.5)))) /\
         (never_below (Fin 1) -> count_if is_failed_record results = 0) /\
         (always_below (Fin 1) -> count_if is_failed_record results = length results) /\
         In ("Total failures: " +:+ str_int (Z.of_nat (count_if is_failed_record results)))
            (stdout w')).
Proof.
  apply (results_in_order (fun _ => "") (fun _ => "") ["prog"; "3"; "1"]
           3 (Fin 1) 20 empty_world); try reflexivity.
  lia.
Defined.

Lemma log_content_lines_witness :
  returns (generate_log_content (fun _ => "") "t" 20 true) empty_world
    (fun text _ =>
       let lines := split_nl text in
       Z.of_nat (length lines) = log_length 20 true /\
       hd "" lines = "=== Starting test: " +:+ "t" +:+ " ===" /\
       List.last lines "" = "=== Test " +:+ "t" +:+ " " +:+ "FAILED" +:+ " ===" /\
       count_if is_error_line lines = 1).
Proof.
  apply (log_content_lines (fun _ => "") (fun _ => eq_refl) "t" 20 true empty_world).
  reflexivity.
Defined.


End ResultsMore.

(** * More on generate_test_results.py *)

Module TestResultsMore.
Import PyStrSpec JsonSpec PyStrFacts MFacts Json JsonFacts TraceFacts MainFacts.
Import TestResultsFacts ExitFacts GoTestMore TestResults.

Section Documents.
Variable float_repr : Q -> string.

(** The script up to the document it read. *)
Lemma main_reads argv path text doc w :
  nth_error argv 1 = Some path -> OS.is_dir w path = false ->
  files w !! path = Some text -> loads text = Some doc ->
  main float_repr argv w
  = (tests ← py_get doc "tests" (JArr []);
     items ← py_iter tests;
     names ← for_each items
                (fun test names => name ← py_getitem test "name"; mret (names ++ [name]))
                [];
     results ←
       for_each names
         (fun name results =>
            now ← time_time;
            let curr_time := trunc now in
            mret (results ++ [JObj [ ("status", JStr "pass");
                                     ("test_file", name);
                                     ("start", JInt curr_time);
                                     ("end", JInt curr_time) ]]))
         [];
     let result_data := JObj [("results", JArr results)] in
     OS.write_text output_file (dumps float_repr (Some 4) result_data)) w.
Proof.
  intros Ha Hd Hf Hl. unfold main. rewrite (length_lt_2 argv path Ha), Ha.
  rewrite (bind_run (mret tt) _ w tt w eq_refl). cbn [of_option].
  rewrite (bind_run (mret path) _ w path w eq_refl).
  rewrite (bind_run (OS.read_text path) _ w text w)
    by (unfold OS.read_text; now rewrite (not_dir_nonempty _ _ Hd), Hd, Hf).
  rewrite Hl. cbn [of_option].
  now rewrite (bind_run (mret doc) _ w doc w eq_refl).
Qed.

(** Collecting the names of tests that all have one. *)
Lemma names_loop tests names acc w :
  named_tests tests names ->
  for_each tests
    (fun test names => name ← py_getitem test "name"; mret (names ++ [name])) acc w
  = (Ok (acc ++ names), w).
Proof.
  intros Hn. revert acc. induction Hn as [|t n tests names Ht _ IH]; intros acc.
  - simpl. now rewrite List.app_nil_r.
  - destruct t; try discriminate. simpl in Ht.
    cbn [for_each]. unfold py_getitem. rewrite Ht. cbn [of_option].
    rewrite (bind_run _ _ w (acc ++ [n]) w) by reflexivity.
    rewrite IH. now rewrite <- List.app_assoc.
Qed.

(** Stamping the names with the clock: each entry takes the next reading. *)
Lemma next_times_succ w n :
  next_times w (S n)
  = trunc (clock w (clock_pos w))
      :: next_times (mkWorld (rand w) (rand_pos w) (clock w) (S (clock_pos w)) (dirs w)
                       (files w) (stdout w)) n.
Proof.
  unfold next_times. cbn [seq map]. rewrite Nat.add_0_r. f_equal.
  rewrite <- seq_shift, map_map. apply map_ext. intros k. cbn [clock clock_pos].
  now rewrite Nat.add_succ_r.
Qed.

Lemma entries_loop (names : list json) acc w :
  returns
    (for_each names
       (fun name results =>
          now ← time_time;
          let curr_time := trunc now in
          mret (results ++ [JObj [ ("status", JStr "pass");
                                   ("test_file", name);
                                   ("start", JInt curr_time);
                                   ("end", JInt curr_time) ]]))
       acc)
    w
    (fun results w' =>
       same_env w w' /\
       results = acc ++ zip_with selection_entry names (next_times w (length names))).
Proof.
  revert acc w. induction names as [|n names IH]; intros acc w.
  - apply returns_ret. split; [apply same_env_refl |]. now rewrite List.app_nil_r.
  - cbn [for_each]. apply returns_bind. apply returns_bind.
    unfold returns at 1, time_time. apply returns_ret.
    eapply returns_mono; [apply IH |].
    intros results w2 (E2 & ->). split.
    + eapply same_env_trans; [| exact E2]. repeat split.
    + cbn [length]. rewrite next_times_succ. cbn [zip_with].
      now rewrite <- List.app_assoc.
Qed.

Lemma selection_run argv path text doc tests names w :
  nth_error argv 1 = Some path -> OS.is_dir w path = false ->
  files w !! path = Some text -> loads text = Some doc ->
  tests_of doc = Some (JArr tests) ->
  named_tests tests names ->
  can_write w output_file = true ->
  returns (main float_repr argv) w
    (fun _ w' =>
       files w' = <[output_file :=
                      dumps float_repr (Some 4)
                        (JObj [("results",
                                JArr (zip_with selection_entry names
                                        (next_times w (length names))))])]>
                    (files w) /\
       dirs w' = dirs w /\ stdout w' = stdout w).
Proof.
  intros Ha Hd Hf Hl Ht Hn Hw. unfold returns at 1.
  rewrite (main_reads argv path text doc w Ha Hd Hf Hl).
  destruct doc as [| | | | | |d]; try discriminate. simpl in Ht. injection Ht as Ht.
  unfold py_get. rewrite Ht.
  rewrite (bind_run _ _ w (JArr tests) w) by reflexivity. cbn [py_iter].
  rewrite (bind_run _ _ w tests w) by reflexivity.
  rewrite (bind_run _ _ w names w) by (now rewrite (names_loop tests names [] w Hn)).
  fold (returns
          (results ←
             for_each names
               (fun name results =>
                  now ← time_time;
                  let curr_time := trunc now in
                  mret (results ++ [JObj [ ("status", JStr "pass");
                                           ("test_file", name);
                                           ("start", JInt curr_time);
                                           ("end", JInt curr_time) ]]))
               [];
           let result_data := JObj [("results", JArr results)] in
           OS.write_text output_file (dumps float_repr (Some 4) result_data)) w
          (fun _ w' =>
             files w' = <[output_file :=
                            dumps float_repr (Some 4)
                              (JObj [("results",
                                      JArr (zip_with selection_entry names
                                              (next_times w (length names))))])]>
                          (files w) /\
             dirs w' = dirs w /\ stdout w' = stdout w)).
  apply returns_bind. eapply returns_mono; [apply entries_loop |].
  intros results w1 (E1 & ->). simpl app. cbv zeta.
  apply can_write_split in Hw as [Hwd Hdir].
  rewrite <- (is_dir_same_env w w1 _ E1) in Hwd.
  rewrite <- (is_dir_same_env w w1 _ E1) in Hdir.
  eapply returns_mono; [apply (write_text_ok _ _ _ Hwd Hdir) |].
  intros ? w2 (Hf2 & Hd2 & Ho2 & _). destruct E1 as (_ & _ & Ed & Ef & Eo).
  split; [congruence |]. split; congruence.
Qed.

(** X14. Given a file whose JSON is an object with a list of tests, each an
    object with a name that holds no float, generate_test_results.py writes
    to test_selection_results.json the object whose results are one entry
    per test, in the order of the tests, with that name as its test_file,
    the status pass, and as both its start and its end the whole seconds of
    the next reading of the clock (the k-th entry has the k-th reading from
    the start of the run); it changes no other file and prints nothing. *)
Theorem selection_results argv path text doc tests names w :
  nth_error argv 1 = Some path -> OS.is_dir w path = false ->
  files w !! path = Some text -> loads text = Some doc ->
  tests_of doc = Some (JArr tests) ->
  named_tests tests names ->
  Forall plain names ->
  can_write w output_file = true ->
  returns (main float_repr argv) w
    (fun _ w' =>
       files w' = <[output_file :=
                      dumps float_repr (Some 4)
                        (JObj [("results",
                                JArr (zip_with selection_entry names
                                        (next_times w (length names))))])]>
                    (files w) /\
       dirs w' = dirs w /\ stdout w' = stdout w).
Proof.
  intros Ha Hd Hf Hl Ht Hn _.
  exact (selection_run argv path text doc tests names w Ha Hd Hf Hl Ht Hn).
Qed.

(** X15. A document that is an object with no tests in it, because it has
    no key tests or because the list is empty, gives a file whose list of
    results is empty: the script does not fail on it. *)
Theorem selection_no_tests argv path text d w :
  nth_error argv 1 = Some path -> OS.is_dir w path = false ->
  files w !! path = Some text -> loads text = Some (JObj d) ->
  dict_get "tests" d = None \/ dict_get "tests" d = Some (JArr []) ->
  can_write w output_file = true ->
  returns (main float_repr argv) w
    (fun _ w' =>
       files w' !! output_file
       = Some (dumps float_repr (Some 4) (JObj [("results", JArr [])]))).
Proof.
  intros Ha Hd Hf Hl Ht Hw.
  eapply returns_mono.
  { apply (selection_run argv path text (JObj d) [] [] w Ha Hd Hf Hl);
      [| constructor | exact Hw].
    simpl. now destruct Ht as [-> | ->]. }
  intros ? w' (Hfiles & _). rewrite Hfiles. apply lookup_insert_eq.
Qed.

(** *** Documents the script cannot use *)

Lemma names_loop_bad good names bad rest (e : exn) acc w :
  named_tests good names ->
  py_getitem bad "name" w = (Raise e, w) ->
  for_each (good ++ bad :: rest)
    (fun test names => name ← py_getitem test "name"; mret (names ++ [name])) acc w
  = (Raise e, w).
Proof.
  intros Hn. revert acc. induction Hn as [|t n tests names Ht _ IH]; intros acc Hbad.
  - simpl. apply bind_raise. now apply bind_raise.
  - destruct t; try discriminate. simpl in Ht.
    simpl app. cbn [for_each].
    rewrite (bind_run _ _ w (acc ++ [n]) w)
      by (unfold py_getitem; rewrite Ht; reflexivity).
    apply IH. exact Hbad.
Qed.

(** X16. A document the script cannot use makes it raise before it writes
    or prints anything: AttributeError when the document is not an object,
    KeyError at the first test that is an object with no name, TypeError at
    the first test that is no object. *)
Theorem selection_bad_document argv path text doc w :
  nth_error argv 1 = Some path -> OS.is_dir w path = false ->
  files w !! path = Some text -> loads text = Some doc ->
  (tests_of doc = None -> main float_repr argv w = (Raise AttributeError, w)) /\
  (forall good names bad rest,
     tests_of doc = Some (JArr (good ++ bad :: rest)) ->
     named_tests good names ->
     match bad with
     | JObj d => dict_get "name" d = None ->
                 main float_repr argv w = (Raise KeyError, w)
     | _ => main float_repr argv w = (Raise TypeError, w)
     end).
Proof.
  intros Ha Hd Hf Hl. rewrite (main_reads argv path text doc w Ha Hd Hf Hl). split.
  - intros Ht. destruct doc; try reflexivity. discriminate.
  - intros good names bad rest Ht Hn.
    destruct doc as [| | | | | |d]; try discriminate. simpl in Ht. injection Ht as Ht.
    assert (Hrun : forall e, py_getitem bad "name" w = (Raise e, w) ->
                     (tests ← py_get (JObj d) "tests" (JArr []);
                      items ← py_iter tests;
                      names ← for_each items
                                 (fun test names =>
                                    name ← py_getitem test "name"; mret (names ++ [name]))
                                 [];
                      results ←
                        for_each names
                          (fun name results =>
                             now ← time_time;
                             let curr_time := trunc now in
                             mret (results ++ [JObj [ ("status", JStr "pass");
                                                      ("test_file", name);
                                                      ("start", JInt curr_time);
                                                      ("end", JInt curr_time) ]]))
                          [];
                      let result_data := JObj [("results", JArr results)] in
                      OS.write_text output_file (dumps float_repr (Some 4) result_data)) w
                     = (Raise e, w)).
    { intros e He. unfold py_get. rewrite Ht.
      rewrite (bind_run _ _ w (JArr (good ++ bad :: rest)) w) by reflexivity.
      cbn [py_iter].
      rewrite (bind_run _ _ w (good ++ bad :: rest) w) by reflexivity.
      apply bind_raise. now apply names_loop_bad with (names := names). }
    destruct bad; try (apply Hrun; reflexivity).
    intros Hname. apply Hrun. unfold py_getitem. now rewrite Hname.
Qed.




End Documents.

Lemma selection_results_witness :
  returns (main (fun _ => "") ["prog"; "in.json"])
    (world_of [] [5.5%Q; 7.25%Q] [] [("in.json", sample_input)])
    (fun _ w' =>
       files w' = <[output_file :=
                      dumps (fun _ => "") (Some 4)
                        (JObj [("results",
                                JArr (zip_with selection_entry [JStr "A"; JStr "B"]
                                        (next_times
                                           (world_of [] [5.5%Q; 7.25%Q] []
                                              [("in.json", sample_input)])
                                           (length [JStr "A"; JStr "B"]))))])]>
                    (files (world_of [] [5.5%Q; 7.25%Q] [] [("in.json", sample_input)])) /\
       dirs w' = dirs (world_of [] [5.5%Q; 7.25%Q] [] [("in.json", sample_input)]) /\
       stdout w' = stdout (world_of [] [5.5%Q; 7.25%Q] [] [("in.json", sample_input)])).
Proof.
  apply (selection_results (fun _ => "") ["prog"; "in.json"] "in.json" sample_input
           (JObj [("tests", JArr [JObj [("name", JStr "A")]; JObj [("name", JStr "B")]])])
           [JObj [("name", JStr "A")]; JObj [("name", JStr "B")]] [JStr "A"; JStr "B"]
           (world_of [] [5.5%Q; 7.25%Q] [] [("in.json", sample_input)]));
    try (vm_compute; reflexivity).
  - repeat constructor.
  - repeat constructor.
Defined.

Lemma selection_no_tests_witness :
  returns (main (fun _ => "") ["prog"; "in.json"])
    (world_of [] [] [] [("in.json", "{}")])
    (fun _ w' =>
       files w' !! output_file
       = Some (dumps (fun _ => "") (Some 4) (JObj [("results", JArr [])]))).
Proof.
  apply (selection_no_tests (fun _ => "") ["prog"; "in.json"] "in.json" "{}" []
           (world_of [] [] [] [("in.json", "{}")]));
    try (vm_compute; reflexivity).
  now left.
Defined.

Lemma selection_bad_document_witness :
  (tests_of (JArr []) = None ->
   main (fun _ => "") ["prog"; "in.json"] (world_of [] [] [] [("in.json", "[]")])
   = (Raise AttributeError, world_of [] [] [] [("in.json", "[]")])) /\
  (forall good names bad rest,
     tests_of (JArr []) = Some (JArr (good ++ bad :: rest)) ->
     named_tests good names ->
     match bad with
     | JObj d => dict_get "name" d = None ->
                 main (fun _ => "") ["prog"; "in.json"]
                   (world_of [] [] [] [("in.json", "[]")])
                 = (Raise KeyError, world_of [] [] [] [("in.json", "[]")])
     | _ => main (fun _ => "") ["prog"; "in.json"]
              (world_of [] [] [] [("in.json", "[]")])
            = (Raise TypeError, world_of [] [] [] [("in.json", "[]")])
     end).
Proof.
  apply (selection_bad_document (fun _ => "") ["prog"; "in.json"] "in.json" "[]" (JArr [])
           (world_of [] [] [] [("in.json", "[]")])); vm_compute; reflexivity.
Defined.


End TestResultsMore.

(** * More on the drivers *)

Module DriverMore.
Import PyStrSpec GoTestSpec XUnitSpec JsonSpec TraceSpec.
Import PyStrFacts MFacts GoTestFacts XUnitFacts Json JsonFacts TraceFacts MainFacts.
Import GoTestMore XUnitMore TraceMore.

(** *** What is printed *)

Lemma printed_refl w : printed w w [].
Proof. split; [reflexivity | now rewrite List.app_nil_r]. Qed.

Lemma printed_trans w1 w2 w3 a b :
  printed w1 w2 a -> printed w2 w3 b -> printed w1 w3 (a ++ b).
Proof. intros [D1 O1] [D2 O2]. split; [congruence |]. now rewrite O2, O1, List.app_assoc. Qed.

Lemma printed_print line w : returns (print line) w (fun _ w' => printed w w' [line]).
Proof. unfold returns, print. split; reflexivity. Qed.

Lemma printed_time w : returns time_time w (fun _ w' => printed w w' []).
Proof.
  unfold returns, time_time. split; [reflexivity | simpl; now rewrite List.app_nil_r].
Qed.

Lemma printed_progress (b : bool) line w :
  returns (if b then print line else mret tt) w
    (fun _ w' => printed w w' (if b then [line] else [])).
Proof. destruct b; [apply printed_print | apply returns_ret, printed_refl]. Qed.

(** After [c], which prints [a], comes [f]. *)
Lemma returns_printed {A B} (c : M A) (f : A -> M B) w a (Q : B -> world -> Prop) :
  returns c w (fun _ w' => printed w w' a) ->
  (forall x w1, printed w w1 a -> returns (f x) w1 Q) ->
  returns (c ≫= f) w Q.
Proof.
  intros Hc Hf. apply returns_bind. eapply returns_mono; [exact Hc |].
  intros x w1 H. now apply Hf.
Qed.

Lemma progress_lines_snoc every (done : list Z) k (line : Z -> string) :
  map line (List.filter (fun k => ((k + 1) mod every =? 0)%Z) (done ++ [k]))
  = map line (List.filter (fun k => ((k + 1) mod every =? 0)%Z) done)
      ++ (if ((k + 1) mod every =? 0)%Z then [line k] else []).
Proof.
  rewrite List.filter_app, map_app. simpl.
  now destruct ((k + 1) mod every =? 0)%Z.
Qed.

Lemma can_write_printed w w' ls p : printed w w' ls -> can_write w' p = can_write w p.
Proof. intros [D _]. now apply can_write_same. Qed.

(** *** generate_gotest_files.py *)

Lemma generate_suite_file_printed file_num tests_per_file failure_rate output_dir w :
  can_write w (GoTest.suite_path output_dir file_num) = true ->
  returns (GoTest.generate_suite_file file_num tests_per_file failure_rate output_dir) w
    (fun r w' =>
       printed w w' [] /\ r.1 = tests_per_file /\ (0 <= r.2 <= Z.max 0 tests_per_file)%Z).
Proof.
  intros [Hnd Hdir]%can_write_split.
  eapply returns_mono; [apply (generate_suite_file_spec _ _ _ _ _ Hnd Hdir) |].
  intros r w' (content & failures & -> & (Hf & Hres & _) & _ & Hd & Ho).
  split; [split; [exact Hd | now rewrite Ho, List.app_nil_r] |]. split; [reflexivity |].
  simpl. unfold count_lines in *.
  pose proof (count_if_le GoTest.is_fail_line GoTest.is_result_line (split_nl content)
                fail_line_is_result).
  lia.
Qed.

(** X18. What a run of generate_gotest_files.py prints, when its arguments
    are read and its files can be written: four lines of announcement, a
    line of progress after every fifth file, and six closing lines, where
    Total tests is the number of files times [tests_per_file] and Total
    failures lies between 0 and the number of tests generated. *)
Theorem gotest_report argv num_files tests_per_file rate w :
  arg_or argv 1 py_int 10%Z = mret num_files ->
  arg_or argv 2 py_int 100%Z = mret tests_per_file ->
  arg_or argv 3 py_float (Fin 0.1) = mret rate ->
  expected_ok (num_files * tests_per_file) rate = true ->
  Forall (fun k => can_write w (GoTest.suite_path "." k) = true) (py_range num_files) ->
  returns (GoTest.main argv) w
    (fun _ w' =>
       exists (expected failures : Z) (elapsed : Q),
         stdout w'
         = stdout w
             ++ [ "Generating " +:+ str_int num_files +:+ " go test suite files with "
                    +:+ str_int tests_per_file +:+ " tests each...";
                  "Total tests: " +:+ str_int (num_files * tests_per_file);
                  "Expected failures: ~" +:+ str_int expected;
                  "" ]
             ++ progress_lines 5 num_files " files..."
             ++ [ "";
                  "Done! Generated " +:+ str_int num_files +:+ " files in "
                    +:+ fmt_f 2 elapsed +:+ "s";
                  "Total tests: " +:+ str_int (Z.max 0 num_files * tests_per_file);
                  "Total failures: " +:+ str_int failures;
                  "";
                  "Files will be picked up by gotest.parse_files in post section." ] /\
         (0 <= failures <= Z.max 0 num_files * Z.max 0 tests_per_file)%Z).
Proof.
  intros H1 H2 H3 He Hw. unfold GoTest.main. rewrite H1, H2, H3.
  do 3 (apply returns_bind, returns_ret).
  eapply returns_printed; [apply printed_print | intros ? w1 P1].
  eapply returns_printed; [apply printed_print | intros ? w2 P2].
  apply returns_bind.
  eapply returns_mono; [apply float_of_int_spec, (expected_ok_int _ _ He) |].
  intros ? ? [-> ->].
  apply returns_bind. eapply returns_mono.
  { apply returns_both; [apply int_of_float_fmul_spec, He | apply int_of_float_fmul_spec, He]. }
  intros expected ? [-> _].
  eapply returns_printed; [apply printed_print | intros ? w3 P3].
  eapply returns_printed; [apply printed_print | intros ? w4 P4].
  eapply returns_printed; [apply printed_time | intros start w5 P5].
  pose proof (printed_trans _ _ _ _ _ (printed_trans _ _ _ _ _
               (printed_trans _ _ _ _ _ (printed_trans _ _ _ _ _ P1 P2) P3) P4) P5) as P05.
  simpl app in P05.
  set (line := fun k => "  Generated " +:+ str_int (k + 1) +:+ "/" +:+ str_int num_files
                          +:+ " files...").
  apply returns_bind. eapply returns_mono.
  { apply (returns_for_each
             (fun (done : list Z) (s : Z * Z) w' =>
                printed w5 w'
                  (map line (List.filter (fun k => ((k + 1) mod 5 =? 0)%Z) done)) /\
                s.1 = (Z.of_nat (length done) * tests_per_file)%Z /\
                (0 <= s.2 <= Z.of_nat (length done) * Z.max 0 tests_per_file)%Z)).
    - split; [apply printed_refl |]. simpl. lia.
    - intros done k rest [tt tf] wa Hk (Pa & Htt & Htf). simpl in Htt, Htf.
      assert (Hin : In k (py_range num_files))
        by (rewrite Hk; apply in_or_app; right; now left).
      rewrite Forall_forall in Hw. specialize (Hw k (proj2 (list_elem_of_In _ _) Hin)).
      rewrite <- (can_write_printed w w5 _ _ P05) in Hw.
      rewrite <- (can_write_printed w5 wa _ _ Pa) in Hw.
      apply returns_bind.
      eapply returns_mono; [apply (generate_suite_file_printed _ _ _ _ _ Hw) |].
      intros [t f] wb (Pb & Ht & Hf). simpl in Ht, Hf. subst t.
      eapply returns_printed; [apply printed_progress | intros ? wc Pc].
      apply returns_ret. simpl fst. simpl snd. split; [| split].
      + rewrite progress_lines_snoc.
        pose proof (printed_trans _ _ _ _ _ (printed_trans _ _ _ _ _ Pa Pb) Pc) as P.
        now rewrite List.app_nil_r in P.
      + rewrite length_app. simpl length. lia.
      + rewrite length_app. simpl length. nia. }
  intros [tt tf] w6 (P6 & Htt & Htf). simpl in Htt, Htf.
  rewrite length_py_range in Htt, Htf.
  replace (Z.of_nat (Z.to_nat num_files)) with (Z.max 0 num_files) in Htt, Htf by lia.
  eapply returns_printed; [apply printed_time | intros now w7 P7].
  eapply returns_printed; [apply printed_print | intros ? w8 P8].
  eapply returns_printed; [apply printed_print | intros ? w9 P9].
  eapply returns_printed; [apply printed_print | intros ? w10 P10].
  eapply returns_printed; [apply printed_print | intros ? w11 P11].
  eapply returns_printed; [apply printed_print | intros ? w12 P12].
  eapply returns_mono; [apply printed_print |]. intros ? w13 P13.
  pose proof (printed_trans _ _ _ _ _ (printed_trans _ _ _ _ _ (printed_trans _ _ _ _ _
               (printed_trans _ _ _ _ _ (printed_trans _ _ _ _ _
               (printed_trans _ _ _ _ _ (printed_trans _ _ _ _ _
               (printed_trans _ _ _ _ _ P05 P6) P7) P8) P9) P10) P11) P12) P13)
    as [_ Hout].
  exists expected, tf, (now - start)%Q. split.
  - rewrite Hout. unfold progress_lines. fold line.
    rewrite Htt. rewrite <- !List.app_assoc. reflexivity.
  - exact Htf.
Qed.

Lemma gotest_report_witness :
  returns (GoTest.main ["prog"; "6"; "2"; "0.5"]) empty_world
    (fun _ w' =>
       exists (expected failures : Z) (elapsed : Q),
         stdout w'
         = stdout empty_world
             ++ [ "Generating " +:+ str_int 6 +:+ " go test suite files with "
                    +:+ str_int 2 +:+ " tests each...";
                  "Total tests: " +:+ str_int (6 * 2);
                  "Expected failures: ~" +:+ str_int expected;
                  "" ]
             ++ progress_lines 5 6 " files..."
             ++ [ "";
                  "Done! Generated " +:+ str_int 6 +:+ " files in "
                    +:+ fmt_f 2 elapsed +:+ "s";
                  "Total tests: " +:+ str_int (Z.max 0 6 * 2);
                  "Total failures: " +:+ str_int failures;
                  "";
                  "Files will be picked up by gotest.parse_files in post section." ] /\
         (0 <= failures <= Z.max 0 6 * Z.max 0 2)%Z).
Proof.
  apply (gotest_report ["prog"; "6"; "2"; "0.5"] 6 2 (Fin 0.5) empty_world);
    try reflexivity.
  repeat (constructor; [vm_compute; reflexivity |]). constructor.
Defined.

(** *** generate_trace_files.py *)

Lemma printed_listdir d w :
  d <> "" -> OS.is_dir w d = true ->
  returns (OS.listdir d) w (fun _ w' => printed w w' []).
Proof.
  intros Hd H. unfold returns, OS.listdir.
  destruct (String.eqb_spec d "") as [E|_]; [contradiction |].
  rewrite H. apply printed_refl.
Qed.

Section TraceReport.
Variable float_repr : Q -> string.

Lemma generate_trace_file_printed file_num spans_per_file output_dir w :
  OS.is_dir w (Trace.trace_path output_dir file_num) = false ->
  OS.is_dir w (OS.dirname (Trace.trace_path output_dir file_num)) = true ->
  returns (Trace.generate_trace_file float_repr file_num spans_per_file output_dir) w
    (fun r w' => printed w w' [] /\ r = (275 * Z.max 1 (spans_per_file / 275))%Z).
Proof.
  intros Hnd Hdir.
  eapply returns_mono; [apply (generate_trace_file_spec float_repr _ _ _ _ Hnd Hdir) |].
  intros r w' (docs & _ & Hlen & -> & _ & Hd & Ho).
  split; [split; [exact Hd | now rewrite Ho, List.app_nil_r] |].
  unfold Trace.spans_per_object in *. lia.
Qed.

(** X19. What a run of generate_trace_files.py prints, when its arguments
    are read and its files can be written: the closing line Total spans
    gives the number of files times 275 times max(1, spans_per_file // 275),
    the number of spans that were written, not the number announced in the
    second line ([num_files * spans_per_file]); a line of progress comes
    after every fifth file. *)
Theorem trace_report argv num_files spans_per_file w :
  arg_or argv 1 py_int 10%Z = mret num_files ->
  arg_or argv 2 py_int 100%Z = mret spans_per_file ->
  can_make w "../build" = true -> can_make w Trace.output_dir = true ->
  Forall (fun k => OS.is_dir w (Trace.trace_path Trace.output_dir k) = false)
         (py_range num_files) ->
  returns (Trace.main float_repr argv) w
    (fun _ w' =>
       exists (count : Z) (elapsed : Q),
         stdout w'
         = stdout w
             ++ [ "Generating " +:+ str_int num_files +:+ " trace files with ~"
                    +:+ str_int spans_per_file +:+ " spans each...";
                  "Total spans: ~" +:+ str_int (num_files * spans_per_file);
                  "Output directory: " +:+ Trace.output_dir;
                  "" ]
             ++ progress_lines 5 num_files " files..."
             ++ [ "";
                  "Done! Generated " +:+ str_int num_files +:+ " files in "
                    +:+ fmt_f 2 elapsed +:+ "s";
                  "Total spans: "
                    +:+ str_int (Z.max 0 num_files * (275 * Z.max 1 (spans_per_file / 275)));
                  "Files in output directory: " +:+ str_int count;
                  "";
                  "Files will be picked up by upload-traces handler automatically." ]).
Proof.
  intros H1 H2 Hb Ho Hw. unfold Trace.main. rewrite H1, H2.
  do 2 (apply returns_bind, returns_ret).
  apply returns_bind. eapply returns_mono; [apply (makedirs_spec w Hb Ho) |].
  intros ? w0 (_ & Ho0 & Hd0).
  assert (Hdir0 : OS.is_dir w0 Trace.output_dir = true).
  { unfold OS.is_dir. rewrite Hd0. apply orb_true_iff. right.
    apply bool_decide_eq_true. apply elem_of_union. left. now apply elem_of_singleton. }
  assert (Hpaths : forall k, In k (py_range num_files) ->
                     OS.is_dir w0 (Trace.trace_path Trace.output_dir k) = false).
  { intros k Hk. rewrite Forall_forall in Hw.
    specialize (Hw k (proj2 (list_elem_of_In _ _) Hk)).
    unfold OS.is_dir in *. rewrite Hd0. apply orb_false_iff in Hw as [Ha Hn].
    rewrite Ha. simpl. apply bool_decide_eq_false. apply bool_decide_eq_false in Hn.
    destruct (trace_path_fresh k) as [Hne1 Hne2].
    rewrite !elem_of_union, !elem_of_singleton. intros [? | [? | ?]]; auto. }
  eapply returns_printed; [apply printed_print | intros ? w1 P1].
  eapply returns_printed; [apply printed_print | intros ? w2 P2].
  eapply returns_printed; [apply printed_print | intros ? w3 P3].
  eapply returns_printed; [apply printed_print | intros ? w4 P4].
  eapply returns_printed; [apply printed_time | intros start w5 P5].
  pose proof (printed_trans _ _ _ _ _ (printed_trans _ _ _ _ _
               (printed_trans _ _ _ _ _ (printed_trans _ _ _ _ _ P1 P2) P3) P4) P5) as P05.
  simpl app in P05.
  set (line := fun k => "  Generated " +:+ str_int (k + 1) +:+ "/" +:+ str_int num_files
                          +:+ " files...").
  apply returns_bind. eapply returns_mono.
  { apply (returns_for_each
             (fun (done : list Z) (total : Z) w' =>
                printed w5 w'
                  (map line (List.filter (fun k => ((k + 1) mod 5 =? 0)%Z) done)) /\
                total = (Z.of_nat (length done) * (275 * Z.max 1 (spans_per_file / 275)))%Z)).
    - split; [apply printed_refl | reflexivity].
    - intros done k rest total wa Hk (Pa & Htotal).
      assert (Hin : In k (py_range num_files))
        by (rewrite Hk; apply in_or_app; right; now left).
      assert (Hda : dirs wa = dirs w0).
      { destruct Pa as [Da _]. destruct P05 as [D5 _]. congruence. }
      assert (Hnd : OS.is_dir wa (Trace.trace_path Trace.output_dir k) = false).
      { unfold OS.is_dir. rewrite Hda. apply (Hpaths k Hin). }
      assert (Hdir : OS.is_dir wa (OS.dirname (Trace.trace_path Trace.output_dir k)) = true).
      { rewrite dirname_trace_path. unfold OS.is_dir. rewrite Hda. exact Hdir0. }
      apply returns_bind.
      eapply returns_mono; [apply (generate_trace_file_printed _ _ _ _ Hnd Hdir) |].
      intros r wb (Pb & ->).
      eapply returns_printed; [apply printed_progress | intros ? wc Pc].
      apply returns_ret. split.
      + rewrite progress_lines_snoc.
        pose proof (printed_trans _ _ _ _ _ (printed_trans _ _ _ _ _ Pa Pb) Pc) as P.
        now rewrite List.app_nil_r in P.
      + rewrite length_app. simpl length. lia. }
  intros total w6 (P6 & Htotal). rewrite length_py_range in Htotal.
  replace (Z.of_nat (Z.to_nat num_files)) with (Z.max 0 num_files) in Htotal by lia.
  eapply returns_printed; [apply printed_time | intros now w7 P7].
  eapply returns_printed; [apply printed_print | intros ? w8 P8].
  eapply returns_printed; [apply printed_print | intros ? w9 P9].
  eapply returns_printed; [apply printed_print | intros ? w10 P10].
  pose proof (printed_trans _ _ _ _ _ (printed_trans _ _ _ _ _ (printed_trans _ _ _ _ _
               (printed_trans _ _ _ _ _ (printed_trans _ _ _ _ _ P05 P6) P7) P8) P9) P10)
    as P010.
  eapply returns_printed.
  { apply printed_listdir; [discriminate |]. unfold OS.is_dir. destruct P010 as [-> _]. exact Hdir0. }
  intros names w11 P11.
  eapply returns_printed; [apply printed_print | intros ? w12 P12].
  eapply returns_printed; [apply printed_print | intros ? w13 P13].
  eapply returns_mono; [apply printed_print |]. intros ? w14 P14.
  pose proof (printed_trans _ _ _ _ _ (printed_trans _ _ _ _ _ (printed_trans _ _ _ _ _
               (printed_trans _ _ _ _ _ P010 P11) P12) P13) P14) as [_ Hout].
  exists (Z.of_nat (length (List.filter (ends_with ".jsonl") names))), (now - start)%Q.
  rewrite Hout, Ho0. unfold progress_lines. fold line. rewrite Htotal.
  rewrite <- !List.app_assoc. reflexivity.
Qed.

End TraceReport.

Lemma trace_report_witness :
  returns (Trace.main (fun _ => "") ["prog"; "1"; "600"]) empty_world
    (fun _ w' =>
       exists (count : Z) (elapsed : Q),
         stdout w'
         = stdout empty_world
             ++ [ "Generating " +:+ str_int 1 +:+ " trace files with ~"
                    +:+ str_int 600 +:+ " spans each...";
                  "Total spans: ~" +:+ str_int (1 * 600);
                  "Output directory: " +:+ Trace.output_dir;
                  "" ]
             ++ progress_lines 5 1 " files..."
             ++ [ "";
                  "Done! Generated " +:+ str_int 1 +:+ " files in "
                    +:+ fmt_f 2 elapsed +:+ "s";
                  "Total spans: " +:+ str_int (Z.max 0 1 * (275 * Z.max 1 (600 / 275)));
                  "Files in output directory: " +:+ str_int count;
                  "";
                  "Files will be picked up by upload-traces handler automatically." ]).
Proof.
  apply (trace_report (fun _ => "") ["prog"; "1"; "600"] 1 600 empty_world);
    try reflexivity.
  repeat (constructor; [vm_compute; reflexivity |]). constructor.
Defined.

(** *** The file system after a run *)

(** X20. A run of the driver of a generator of numbered files, when its
    arguments are read and the file system lets it write, returns; after it
    the directories are those from before and the ones the driver makes
    (../build and ../build/OTelTraces for the trace files, none for the
    others), the numbered files of the run exist, and every other file is as
    it was. *)
Theorem driver_effect float_repr g argv num_files w :
  accepts g argv num_files -> ready g num_files w ->
  returns (run_main float_repr g argv) w
    (fun _ w' =>
       dirs w' = made_dirs g ∪ dirs w /\
       (forall p, In p (output_names g num_files) -> is_Some (files w' !! p)) /\
       (forall p, ~ In p (output_names g num_files) -> files w' !! p = files w !! p)).
Proof. apply main_spec. Qed.

Lemma driver_effect_witness :
  returns (run_main (fun _ => "") XUnitFiles ["prog"; "2"; "3"]) empty_world
    (fun _ w' =>
       dirs w' = made_dirs XUnitFiles ∪ dirs empty_world /\
       (forall p, In p (output_names XUnitFiles 2) -> is_Some (files w' !! p)) /\
       (forall p, ~ In p (output_names XUnitFiles 2) ->
                  files w' !! p = files empty_world !! p)).
Proof.
  apply (driver_effect (fun _ => "") XUnitFiles ["prog"; "2"; "3"] 2 empty_world).
  - exists 3%Z, (Fin 0.1). repeat split; reflexivity.
  - repeat (constructor; [vm_compute; reflexivity |]). constructor.
Defined.

End DriverMore.
